(** * Synology alert capture tools: a shallow embedding

    The repository holds three command-line scripts, each embedded in a
    module of its own:

    - [send_mock_alerts.py]   (module [Replayer]): filters the loaded alert
      fixtures and POSTs each one to a webhook;
    - [trigger_alerts_api.py] (module [ApiClient]): logs in to the NAS web
      API, issues test calls and logs out;
    - [trigger_alerts.py]     (module [SshTool]): runs the notification
      tests on the NAS through [ssh].

    Python values that come out of [json.load] / [response.json()] are the
    inductive [json]; a Python [dict] is an association list in insertion
    order with distinct keys; exceptions are the [Raise] branch of [result];
    the outside world ([requests.post], [subprocess.run], [time.sleep],
    [getpass.getpass]) is a record of oracles, [world]; every observable
    action is appended to a trace of [event]s. *)

From Stdlib Require Import String Ascii List ZArith Bool Floats Lia.
From Stdlib Require Import Sorting.Sorted Sorting.Permutation.
Import ListNotations.

Local Open Scope string_scope.
Local Open Scope list_scope.

(* ================================================================== *)
(** * Python values, exceptions and builtins *)
(* ================================================================== *)

Module Py.

Local Set Warnings "-register-all".

(** What [json.load] and [response.json()] return. [JNull] is [None]. *)
Inductive json : Type :=
| JNull
| JBool (b : bool)
| JInt (n : Z)
| JFloat (f : float)
| JStr (s : string)
| JList (l : list json)
| JObj (kv : list (string * json)).

(** A [dict] with [str] keys, in insertion order. *)
Definition dict : Type := list (string * json).

(** The exception classes the scripts can meet.  The first four are
    [requests.RequestException] and its subclasses. *)
Inductive exc_class : Type :=
| RequestException
| ConnectionError
| HTTPError
| Timeout
| ValueError
| KeyError
| TypeError
| AttributeError
| OverflowError
| OtherError.

Record exn : Type := Exn { exc_cls : exc_class; exc_msg : string }.

(** [isinstance(e, requests.RequestException)] *)
Definition is_request_exception (e : exn) : bool :=
  match exc_cls e with
  | RequestException | ConnectionError | HTTPError | Timeout => true
  | _ => false
  end.

Inductive result (A : Type) : Type :=
| Ok (a : A)
| Raise (e : exn).
Arguments Ok {A} a.
Arguments Raise {A} e.

Definition rbind {A B} (r : result A) (k : A -> result B) : result B :=
  match r with
  | Ok a => k a
  | Raise e => Raise e
  end.

(** Truth value of a Python object ([if x:], [x and y], [not x]). *)
Definition truthy (v : json) : bool :=
  match v with
  | JNull => false
  | JBool b => b
  | JInt n => negb (n =? 0)%Z
  | JFloat f => negb (PrimFloat.is_zero f)
  | JStr s => negb (s =? "")
  | JList l => match l with [] => false | _ => true end
  | JObj kv => match kv with [] => false | _ => true end
  end.

(** Truth value of an [argparse] string option: [None] and [""] are false. *)
Definition opt_truthy (o : option string) : bool :=
  match o with
  | Some s => negb (s =? "")
  | None => false
  end.

(** ** Dictionaries *)

Fixpoint dict_lookup (d : dict) (k : string) : option json :=
  match d with
  | [] => None
  | (k', v) :: d' => if k' =? k then Some v else dict_lookup d' k
  end.

(** [d[k] = v]: replaces the value in place when the key exists, appends
    the key otherwise (insertion order is kept). *)
Fixpoint dict_set (d : dict) (k : string) (v : json) : dict :=
  match d with
  | [] => [(k, v)]
  | (k', v') :: d' =>
      if k' =? k then (k', v) :: d' else (k', v') :: dict_set d' k v
  end.

Definition dict_keys (d : dict) : list string := map fst d.

(** [x.get(k, default)]; only a [dict] has [.get]. *)
Definition py_get (x : json) (k : string) (default : json) : result json :=
  match x with
  | JObj d =>
      Ok (match dict_lookup d k with Some v => v | None => default end)
  | _ => Raise (Exn AttributeError "object has no attribute 'get'")
  end.

(** [x[k]] with a string key. *)
Definition py_getitem (x : json) (k : string) : result json :=
  match x with
  | JObj d =>
      match dict_lookup d k with
      | Some v => Ok v
      | None => Raise (Exn KeyError k)
      end
  | JList _ | JStr _ =>
      Raise (Exn TypeError "indices must be integers")
  | _ => Raise (Exn TypeError "object is not subscriptable")
  end.

(** [x.items()] *)
Definition py_items (x : json) : result dict :=
  match x with
  | JObj d => Ok d
  | _ => Raise (Exn AttributeError "object has no attribute 'items'")
  end.

(** [len(x)] *)
Definition py_len (x : json) : result nat :=
  match x with
  | JStr s => Ok (String.length s)
  | JList l => Ok (List.length l)
  | JObj d => Ok (List.length d)
  | _ => Raise (Exn TypeError "object has no len()")
  end.

Fixpoint chars (s : string) : list json :=
  match s with
  | EmptyString => []
  | String c s' => JStr (String c EmptyString) :: chars s'
  end.

(** The elements a [for] loop over [x] visits. *)
Definition py_iter (x : json) : result (list json) :=
  match x with
  | JList l => Ok l
  | JObj d => Ok (map (fun kv => JStr (fst kv)) d)
  | JStr s => Ok (chars s)
  | _ => Raise (Exn TypeError "object is not iterable")
  end.

(** [x == s] for a [str] [s]: only an equal string is equal to it. *)
Definition eq_str (x : json) (s : string) : bool :=
  match x with
  | JStr t => t =? s
  | _ => false
  end.

(** [k in s] on strings: [k] occurs in [s] as a contiguous block. *)
Fixpoint str_contains (k s : string) : bool :=
  String.prefix k s
  || match s with
     | EmptyString => false
     | String _ s' => str_contains k s'
     end.

Section Lower.
(** [str.lower] is a builtin; the embedding takes it as given. *)
Variable lower : string -> string.

(** [x.lower()]; only a [str] has [.lower]. *)
Definition py_lower (x : json) : result string :=
  match x with
  | JStr s => Ok (lower s)
  | _ => Raise (Exn AttributeError "object has no attribute 'lower'")
  end.
End Lower.

(** [str.lower] on ASCII text, for running the model on examples. *)
Definition ascii_lower_char (c : ascii) : ascii :=
  let n := nat_of_ascii c in
  if (65 <=? n)%nat && (n <=? 90)%nat then ascii_of_nat (n + 32) else c.

Fixpoint ascii_lower (s : string) : string :=
  match s with
  | EmptyString => EmptyString
  | String c s' => String (ascii_lower_char c) (ascii_lower s')
  end.

(** ** Formatted text

    An f-string is kept as the list of its pieces, interpolated values
    unformatted. *)
Inductive piece : Type :=
| Lit (s : string)            (* literal text *)
| Str (s : string)            (* {s} for a str *)
| Val (v : json)              (* {v} for a loaded value *)
| Num (n : Z)                 (* {n} for an int *)
| Flt (f : float)             (* {f} for a float *)
| Dumps (v : json) (n : nat)  (* json.dumps(v)[:n] *)
| Indented (v : list (string * json)). (* json.dumps(v, indent=2) *)

Definition text : Type := list piece.

End Py.

(* ================================================================== *)
(** * The outside world and the effect monad *)
(* ================================================================== *)

Module Eff.
Import Py.

(** The body of a POST: [json=payload] or [data=fields]. *)
Inductive body : Type :=
| JsonBody (payload : json)
| FormBody (data : dict).

(** The arguments of one [requests.post] call. *)
Record http_request : Type := HttpRequest {
  rq_url : text;
  rq_body : body;
  rq_headers : list (string * string);
  rq_verify : bool;
  rq_timeout : Z
}.

(** A [requests.Response]: its status code, what [.json()] gives (the
    parsed body, or the exception the library raises on a body that is not
    JSON), and the text of the [HTTPError] that [raise_for_status] builds. *)
Record response : Type := Response {
  status_code : Z;
  json_body : result json;
  http_error : string
}.

Inductive post_outcome : Type :=
| PostRaises (e : exn)
| PostReturns (r : response).

(** Everything a run does that can be seen from outside, plus [EvCall],
    which marks the entry into a method of the API client.  A printed text
    is recorded without the blank line that a line break at the start or
    at the end of its literal adds on the terminal. *)
Inductive event : Type :=
| EvPost (rq : http_request)
| EvSleep (d : float)
| EvPrint (t : text)
| EvGetpass (prompt : text)
| EvCall (method : string).

(** The environment of a run.  Each oracle sees the history so far, so a
    server may answer the same request differently each time. *)
Record world : Type := World {
  w_post : list event -> http_request -> post_outcome;
  w_sleep : list event -> float -> option exn;
  w_getpass : list event -> string
}.

(** [response.raise_for_status()] *)
Definition raise_for_status (r : response) : result unit :=
  if ((400 <=? status_code r) && (status_code r <? 600))%Z
  then Raise (Exn HTTPError (http_error r))
  else Ok tt.

(** States that carry the trace of events. *)
Class Traced (S : Type) : Type := {
  trace_of : S -> list event;
  with_trace : list event -> S -> S;
  trace_of_with_trace : forall t s, trace_of (with_trace t s) = t
}.

#[export] Instance Traced_trace : Traced (list event) := {
  trace_of := fun t => t;
  with_trace := fun t _ => t;
  trace_of_with_trace := fun t _ => eq_refl
}.

(** A computation over state [S] that returns an [A] or raises. *)
Definition M (S A : Type) : Type := S -> result A * S.

Section Monad.
Context {S : Type} {TS : Traced S}.

Definition ret {A} (a : A) : M S A := fun s => (Ok a, s).

Definition bind {A B} (c : M S A) (k : A -> M S B) : M S B :=
  fun s =>
    match c s with
    | (Ok a, s') => k a s'
    | (Raise e, s') => (Raise e, s')
    end.

Definition raise {A} (e : exn) : M S A := fun s => (Raise e, s).

Definition lift {A} (r : result A) : M S A := fun s => (r, s).

Definition emit (e : event) : M S unit :=
  fun s => (Ok tt, with_trace (trace_of s ++ [e]) s).

(** [try: body  except <class> as e: handler e] *)
Definition try_except {A} (body : M S A) (catches : exn -> bool)
           (handler : exn -> M S A) : M S A :=
  fun s =>
    match body s with
    | (Ok a, s') => (Ok a, s')
    | (Raise e, s') => if catches e then handler e s' else (Raise e, s')
    end.

(** [try: body  finally: final] *)
Definition try_finally {A} (body : M S A) (final : M S unit) : M S A :=
  fun s =>
    match body s with
    | (r, s') =>
        match final s' with
        | (Ok _, s'') => (r, s'')
        | (Raise e, s'') => (Raise e, s'')
        end
    end.

(** [for x in xs: acc = body acc x] with the loop-carried variables in
    [acc]. *)
Fixpoint for_each {X R} (xs : list X) (acc : R) (body : R -> X -> M S R)
  : M S R :=
  match xs with
  | [] => ret acc
  | x :: xs' => bind (body acc x) (fun acc' => for_each xs' acc' body)
  end.

Definition print (t : text) : M S unit := emit (EvPrint t).

(** [requests.post(...)]: the call is recorded, then the world answers. *)
Definition requests_post (w : world) (rq : http_request) : M S response :=
  fun s =>
    let s' := with_trace (trace_of s ++ [EvPost rq]) s in
    match w_post w (trace_of s) rq with
    | PostRaises e => (Raise e, s')
    | PostReturns r => (Ok r, s')
    end.

(** [time.sleep(d)] *)
Definition time_sleep (w : world) (d : float) : M S unit :=
  fun s =>
    match w_sleep w (trace_of s) d with
    | Some e => (Raise e, s)
    | None => (Ok tt, with_trace (trace_of s ++ [EvSleep d]) s)
    end.

(** [getpass.getpass(prompt)] *)
Definition getpass (w : world) (prompt : text) : M S string :=
  fun s =>
    (Ok (w_getpass w (trace_of s)),
     with_trace (trace_of s ++ [EvGetpass prompt]) s).
End Monad.

Module Notations.
Declare Scope py_scope.
Delimit Scope py_scope with py.
Notation "x <- c ;; k" := (bind c (fun x => k))
  (at level 61, c at next level, right associativity) : py_scope.
Notation "c ;; k" := (bind c (fun _ => k))
  (at level 61, right associativity) : py_scope.
End Notations.

(** The requests of a trace, in order. *)
Fixpoint posts (t : list event) : list http_request :=
  match t with
  | [] => []
  | EvPost rq :: t' => rq :: posts t'
  | _ :: t' => posts t'
  end.

(** The methods of the API client entered, in order. *)
Fixpoint calls (t : list event) : list string :=
  match t with
  | [] => []
  | EvCall m :: t' => m :: calls t'
  | _ :: t' => calls t'
  end.

Fixpoint prints (t : list event) : list text :=
  match t with
  | [] => []
  | EvPrint x :: t' => x :: prints t'
  | _ :: t' => prints t'
  end.

(** [sys.exit(main())]: the returned status, or 1 after an uncaught
    exception. *)
Definition exit_code (r : result Z) : Z :=
  match r with
  | Ok n => n
  | Raise _ => 1
  end.

End Eff.

(* ================================================================== *)
(** * send_mock_alerts.py *)
(* ================================================================== *)

Module Replayer.
Import Py Eff Eff.Notations.
Local Open Scope py_scope.

Definition DEFAULT_WEBHOOK : string :=
  "https://n8n.fourthfloor.solutions/webhook/dd771d80-d135-409c-a941-0f2010d7c426".

(** The parsed command line.  [--list] is not part of the record: that
    branch of [main] returns before any filtering or sending. *)
Record args : Type := Args {
  args_webhook : string;
  args_type : option string;
  args_category : option string;
  args_level : option string;
  args_delay : float;
  args_dry_run : bool
}.

(** [load_mock_alerts]: [files] are the [*.json] files of the fixture
    directory in the order [glob] yields them, each with its stem and its
    parsed content. *)
Definition load_mock_alerts (files : list (string * json)) : dict :=
  fold_left (fun alerts file => dict_set alerts (fst file) (snd file))
            files [].

(** [response.status_code in [200, 201, 202, 204]] *)
Definition accepted (status : Z) : bool :=
  existsb (Z.eqb status) [200; 201; 202; 204]%Z.

Definition send_alert (w : world) (webhook_url : string) (alert : json)
           (alert_name : string) : M (list event) bool :=
  payload <- lift (py_getitem alert "body") ;;
  try_except
    (response <- requests_post w
         {| rq_url := [Str webhook_url];
            rq_body := JsonBody payload;
            rq_headers := [("Content-Type", "application/json")];
            rq_verify := true;
            rq_timeout := 10 |} ;;
     if accepted (status_code response) then
       level <- lift (py_getitem alert "level") ;;
       print [Lit "  ✓ ["; Val level; Lit "] "; Str alert_name] ;;
       ret true
     else
       level <- lift (py_getitem alert "level") ;;
       print [Lit "  ✗ ["; Val level; Lit "] "; Str alert_name;
              Lit " - HTTP "; Num (status_code response)] ;;
       ret false)
    is_request_exception
    (fun e =>
       level <- lift (py_getitem alert "level") ;;
       print [Lit "  ✗ ["; Val level; Lit "] "; Str alert_name;
              Lit " - "; Str (exc_msg e)] ;;
       ret false).

Section Main.
Variable lower : string -> string.

(** [args.type and name != args.type] *)
Definition type_mismatch (a : args) (name : string) : bool :=
  match args_type a with
  | Some t => negb (t =? "") && negb (name =? t)
  | None => false
  end.

(** [args.category and
     alert.get("category", "").lower() != args.category.lower()] *)
Definition category_mismatch (a : args) (alert : json) : result bool :=
  match args_category a with
  | Some c =>
      if negb (c =? "") then
        rbind (py_get alert "category" (JStr "")) (fun v =>
        rbind (py_lower lower v) (fun lv =>
        Ok (negb (lv =? lower c))))
      else Ok false
  | None => Ok false
  end.

(** [args.level and alert.get("level") != args.level] *)
Definition level_mismatch (a : args) (alert : json) : result bool :=
  match args_level a with
  | Some l =>
      if negb (l =? "") then
        rbind (py_get alert "level" JNull) (fun v =>
        Ok (negb (eq_str v l)))
      else Ok false
  | None => Ok false
  end.

(** The filter loop of [main]; each [continue] goes on with [filtered]
    unchanged. *)
Fixpoint filter_loop (a : args) (items : dict) (filtered : dict)
  : result dict :=
  match items with
  | [] => Ok filtered
  | (name, alert) :: rest =>
      if type_mismatch a name then filter_loop a rest filtered
      else
        rbind (category_mismatch a alert) (fun skip =>
        if (skip : bool) then filter_loop a rest filtered
        else
          rbind (level_mismatch a alert) (fun skip' =>
          if (skip' : bool) then filter_loop a rest filtered
          else filter_loop a rest (dict_set filtered name alert)))
  end.

Definition filter_alerts (a : args) (alerts : dict) : result dict :=
  filter_loop a alerts [].

(** [sorted(d.items())]: tuples are ordered by their first component;
    the keys of a dict are distinct, so the second is never compared. *)
Fixpoint insert_item (x : string * json) (l : dict) : dict :=
  match l with
  | [] => [x]
  | y :: l' =>
      if (fst x <=? fst y)%string then x :: y :: l'
      else y :: insert_item x l'
  end.

Fixpoint sorted_items (d : dict) : dict :=
  match d with
  | [] => []
  | x :: d' => insert_item x (sorted_items d')
  end.

(** [list(filtered.keys())[-1]] *)
Definition last_key (filtered : dict) : string :=
  last (dict_keys filtered) "".

(** The running counters [results["success"]], [results["failed"]]. *)
Record results : Type := Results { success : nat; failed : nat }.

(** The body of the sending loop. *)
Definition send_step (w : world) (a : args) (filtered : dict)
           (res : results) (item : string * json)
  : M (list event) results :=
  let (name, alert) := item in
  if args_dry_run a then
    level <- lift (py_getitem alert "level") ;;
    print [Lit "  Would send: ["; Val level; Lit "] "; Str name] ;;
    body <- lift (py_getitem alert "body") ;;
    print [Lit "    Payload: "; Dumps body 80; Lit "..."] ;;
    ret (Results (S (success res)) (failed res))
  else
    sent <- send_alert w (args_webhook a) alert name ;;
    let res' :=
      if (sent : bool) then Results (S (success res)) (failed res)
      else Results (success res) (S (failed res)) in
    (if PrimFloat.ltb 0 (args_delay a)
        && negb (name =? last_key filtered)
     then time_sleep w (args_delay a)
     else ret tt) ;;
    ret res'.

Definition rule : string :=
  "======================================================================".

(** [main] from loading the alerts on (the [--list] branch left out);
    [files] is what the fixture directory holds. *)
Definition main (w : world) (a : args) (files : list (string * json))
  : M (list event) Z :=
  let alerts := load_mock_alerts files in
  match alerts with
  | [] =>
      print [Lit "No mock alerts found in "; Lit "mock_alerts"] ;;
      ret 1%Z
  | _ :: _ =>
      filtered <- lift (filter_alerts a alerts) ;;
      match filtered with
      | [] =>
          print [Lit "No alerts match the specified filters"] ;;
          ret 1%Z
      | _ :: _ =>
          print [Lit rule] ;;
          print [Lit "Sending "; Num (Z.of_nat (List.length filtered));
                 Lit " mock alert(s) to webhook"] ;;
          print [Lit "Webhook: ";
                 Str (String.substring 0 60 (args_webhook a));
                 Lit "..."] ;;
          print [Lit rule] ;;
          (if args_dry_run a
           then print [Lit "[DRY RUN - Not actually sending]"]
           else ret tt) ;;
          res <- for_each (sorted_items filtered) (Results 0 0)
                          (send_step w a filtered) ;;
          print [Lit rule] ;;
          print [Lit "Summary"] ;;
          print [Lit rule] ;;
          print [Lit "  Sent: "; Num (Z.of_nat (success res))] ;;
          print [Lit "  Failed: "; Num (Z.of_nat (failed res))] ;;
          (if negb (args_dry_run a)
           then print [Lit "Check your n8n workflow for the received alerts!"]
           else ret tt) ;;
          ret (if (failed res =? 0)%nat then 0%Z else 1%Z)
      end
  end.
End Main.

(** Running the tool: exit status and trace. *)
Definition run (lower : string -> string) (w : world) (a : args)
           (files : list (string * json)) : Z * list event :=
  let (r, t) := main lower w a files [] in (exit_code r, t).

End Replayer.

(* ================================================================== *)
(** * trigger_alerts_api.py *)
(* ================================================================== *)

Module ApiClient.
Import Py Eff Eff.Notations.
Local Open Scope py_scope.

(** The attributes [__init__] sets once and no method changes. *)
Record trigger : Type := Trigger {
  host : string;
  port : Z;
  username : string;
  password : string;
  secure : bool;
  base_url : text
}.

(** The trace of the run and [self.session_id], the one attribute that
    [login] and [logout] assign. *)
Record state : Type := State {
  st_trace : list event;
  session_id : json
}.

#[export] Instance Traced_state : Traced state := {
  trace_of := st_trace;
  with_trace := fun t s => State t (session_id s);
  trace_of_with_trace := fun t _ => eq_refl
}.

Definition get_session_id : M state json :=
  fun s => (Ok (session_id s), s).

Definition set_session_id (v : json) : M state unit :=
  fun s => (Ok tt, State (st_trace s) v).

(** A dict display [{k1: v1, ...}]: later keys replace earlier ones. *)
Definition dict_of (items : list (string * json)) : dict :=
  fold_left (fun d kv => dict_set d (fst kv) (snd kv)) items [].

(** [SynologyNotificationTrigger.__init__] *)
Definition init (host : string) (port : Z) (username password : string)
           (secure : bool) : trigger :=
  {| host := host; port := port; username := username;
     password := password; secure := secure;
     base_url := [Lit (if secure then "https" else "http"); Lit "://";
                  Str host; Lit ":"; Num port; Lit "/webapi"] |}.

Section Client.
Variable lower : string -> string.
Variable w : world.
Variable self : trigger.

Definition _request (api path method : string) (version : Z)
           (params : list (string * json)) : M state json :=
  let url := base_url self ++ [Lit "/"; Str path] in
  let data := dict_of ([("api", JStr api); ("version", JInt version);
                        ("method", JStr method)] ++ params) in
  sid <- get_session_id ;;
  let data := if truthy sid then dict_set data "_sid" sid else data in
  try_except
    (response <- requests_post w
         {| rq_url := url; rq_body := FormBody data; rq_headers := [];
            rq_verify := false; rq_timeout := 30 |} ;;
     lift (raise_for_status response) ;;
     lift (json_body response))
    is_request_exception
    (fun e => ret (JObj [("success", JBool false);
                         ("error", JStr (exc_msg e))])).

Definition login : M state bool :=
  emit (EvCall "login") ;;
  print [Lit "Logging in to "; Str (host self); Lit "..."] ;;
  result <- _request "SYNO.API.Auth" "auth.cgi" "login" 6
              [("account", JStr (username self));
               ("passwd", JStr (password self));
               ("session", JStr "NotificationTrigger");
               ("format", JStr "sid")] ;;
  ok <- lift (py_get result "success" JNull) ;;
  if truthy ok then
    data <- lift (py_getitem result "data") ;;
    sid <- lift (py_getitem data "sid") ;;
    set_session_id sid ;;
    print [Lit "  ✓ Login successful"] ;;
    ret true
  else
    err <- lift (py_get result "error" (JStr "Unknown error")) ;;
    print [Lit "  ✗ Login failed: "; Val err] ;;
    ret false.

Definition logout : M state unit :=
  emit (EvCall "logout") ;;
  sid <- get_session_id ;;
  if truthy sid then
    _request "SYNO.API.Auth" "auth.cgi" "logout" 1
             [("session", JStr "NotificationTrigger")] ;;
    set_session_id JNull ;;
    print [Lit "Logged out"]
  else ret tt.

Definition get_api_info : M state json :=
  emit (EvCall "get_api_info") ;;
  _request "SYNO.API.Info" "query.cgi" "query" 1 [("query", JStr "all")].

(** The report every test method ends with:
    [if result.get("success"): print(ok)
     else: print(f"  ✗ Failed: {result.get('error', result)}")]. *)
Definition report (result : json) (ok_line : text) : M state unit :=
  ok <- lift (py_get result "success" JNull) ;;
  if truthy ok then print ok_line
  else
    err <- lift (py_get result "error" result) ;;
    print [Lit "  ✗ Failed: "; Val err].

Definition test_push_notification : M state json :=
  emit (EvCall "test_push_notification") ;;
  print [Lit "[PUSH] Sending push notification test..."] ;;
  result <- _request "SYNO.Core.Notification.Push" "entry.cgi"
                     "send_test" 1 [] ;;
  report result [Lit "  ✓ Push notification test sent"] ;;
  ret result.

Definition test_webhook_notification (profile_id : json) : M state json :=
  emit (EvCall "test_webhook_notification") ;;
  print [Lit "[WEBHOOK] Sending webhook test (profile_id=";
         Val profile_id; Lit ")..."] ;;
  result <- _request "SYNO.Core.Notification.Push.Webhook.Provider"
                     "entry.cgi" "send_test" 2
                     [("profile_id", profile_id)] ;;
  report result [Lit "  ✓ Webhook notification test sent"] ;;
  ret result.

Definition list_webhook_providers : M state json :=
  emit (EvCall "list_webhook_providers") ;;
  print [Lit "[WEBHOOK] Listing webhook providers..."] ;;
  result <- _request "SYNO.Core.Notification.Push.Webhook.Provider"
                     "entry.cgi" "list" 2 [] ;;
  ok <- lift (py_get result "success" JNull) ;;
  (if truthy ok then
     data <- lift (py_get result "data" (JObj [])) ;;
     providers <- lift (py_get data "list" (JList [])) ;;
     n <- lift (py_len providers) ;;
     print [Lit "  ✓ Found "; Num (Z.of_nat n);
            Lit " webhook provider(s)"] ;;
     ps <- lift (py_iter providers) ;;
     for_each ps tt (fun _ p =>
       name <- lift (py_get p "target_name" JNull) ;;
       pid <- lift (py_get p "profile_id" JNull) ;;
       print [Lit "    - "; Val name; Lit " (profile_id="; Val pid;
              Lit ")"])
   else
     err <- lift (py_get result "error" result) ;;
     print [Lit "  ✗ Failed: "; Val err]) ;;
  ret result.

Definition test_mail_notification : M state json :=
  emit (EvCall "test_mail_notification") ;;
  print [Lit "[MAIL] Sending email notification test..."] ;;
  result <- _request "SYNO.Core.Notification.Mail" "entry.cgi"
                     "send_test" 1 [] ;;
  report result [Lit "  ✓ Email notification test sent"] ;;
  ret result.

Definition test_sms_notification : M state json :=
  emit (EvCall "test_sms_notification") ;;
  print [Lit "[SMS] Sending SMS notification test..."] ;;
  result <- _request "SYNO.Core.Notification.SMS" "entry.cgi"
                     "send_test" 1 [] ;;
  report result [Lit "  ✓ SMS notification test sent"] ;;
  ret result.

Definition get_notification_config : M state dict :=
  emit (EvCall "get_notification_config") ;;
  print [Lit "[CONFIG] Getting notification configuration..."] ;;
  let configs : dict := [] in
  result <- _request "SYNO.Core.Notification.Push.Conf" "entry.cgi"
                     "get" 1 [] ;;
  let configs := dict_set configs "push" result in
  result <- _request "SYNO.Core.Notification.Mail.Conf" "entry.cgi"
                     "get" 1 [] ;;
  let configs := dict_set configs "mail" result in
  result <- _request "SYNO.Core.Notification.Webhook" "entry.cgi"
                     "list" 1 [] ;;
  let configs := dict_set configs "webhook" result in
  ret configs.

Definition get_active_notifications : M state json :=
  emit (EvCall "get_active_notifications") ;;
  print [Lit "[ACTIVE] Getting active notifications..."] ;;
  result <- _request "SYNO.Core.DSMNotify" "entry.cgi" "notify" 1
                     [("action", JStr "load")] ;;
  ok <- lift (py_get result "success" JNull) ;;
  (if truthy ok then
     data <- lift (py_get result "data" (JObj [])) ;;
     items <- lift (py_get data "items" (JList [])) ;;
     count <- lift (py_len items) ;;
     print [Lit "  ✓ Found "; Num (Z.of_nat count);
            Lit " active notifications"]
   else
     err <- lift (py_get result "error" result) ;;
     print [Lit "  ✗ Failed: "; Val err]) ;;
  ret result.

Definition get_system_health : M state json :=
  emit (EvCall "get_system_health") ;;
  print [Lit "[HEALTH] Getting system health..."] ;;
  result <- _request "SYNO.Core.System.Status" "entry.cgi" "get" 1 [] ;;
  report result [Lit "  ✓ System health retrieved"] ;;
  ret result.

Definition list_backup_tasks : M state json :=
  emit (EvCall "list_backup_tasks") ;;
  print [Lit "[BACKUP] Listing backup tasks..."] ;;
  result <- _request "SYNO.Backup.Task" "entry.cgi" "list" 1 [] ;;
  ok <- lift (py_get result "success" JNull) ;;
  (if truthy ok then
     data <- lift (py_get result "data" (JObj [])) ;;
     tasks <- lift (py_get data "task_list" (JList [])) ;;
     n <- lift (py_len tasks) ;;
     print [Lit "  ✓ Found "; Num (Z.of_nat n); Lit " backup tasks"] ;;
     ts <- lift (py_iter tasks) ;;
     for_each ts tt (fun _ task =>
       name <- lift (py_get task "name" (JStr "Unknown")) ;;
       tid <- lift (py_get task "task_id" JNull) ;;
       print [Lit "    - "; Val name; Lit " (ID: "; Val tid; Lit ")"])
   else
     err <- lift (py_get result "error" result) ;;
     print [Lit "  ✗ Failed: "; Val err]) ;;
  ret result.

Definition keywords : list string :=
  ["notif"; "alert"; "push"; "mail"; "sms"; "webhook"].

(** [any(keyword in api_name.lower() for keyword in [...])] *)
Definition is_notification_api (api_name : string) : bool :=
  existsb (fun keyword => str_contains keyword (lower api_name)) keywords.

Definition discover_notification_apis : M state (list json) :=
  emit (EvCall "discover_notification_apis") ;;
  print [Lit "[DISCOVER] Discovering notification APIs..."] ;;
  api_info <- get_api_info ;;
  ok <- lift (py_get api_info "success" JNull) ;;
  if negb (truthy ok) then
    print [Lit "  ✗ Could not get API info"] ;;
    ret []
  else
    data <- lift (py_get api_info "data" (JObj [])) ;;
    items <- lift (py_items data) ;;
    notification_apis <-
      for_each items [] (fun (acc : list json) item =>
        let (api_name, api_data) := (item : string * json) in
        if is_notification_api api_name then
          path <- lift (py_get api_data "path" JNull) ;;
          minv <- lift (py_get api_data "minVersion" JNull) ;;
          maxv <- lift (py_get api_data "maxVersion" JNull) ;;
          ret (acc ++ [JObj [("name", JStr api_name); ("path", path);
                             ("minVersion", minv); ("maxVersion", maxv)]])
        else ret acc) ;;
    print [Lit "  ✓ Found "; Num (Z.of_nat (List.length notification_apis));
           Lit " notification-related APIs:"] ;;
    for_each notification_apis tt (fun _ api =>
      name <- lift (py_getitem api "name") ;;
      minv <- lift (py_getitem api "minVersion") ;;
      maxv <- lift (py_getitem api "maxVersion") ;;
      print [Lit "    - "; Val name; Lit " (v"; Val minv; Lit "-";
             Val maxv; Lit ")"]) ;;
    ret notification_apis.

Definition run_all_tests (delay : float) : M state dict :=
  emit (EvCall "run_all_tests") ;;
  let results : dict :=
    [("webhook", JNull); ("push", JNull); ("mail", JNull);
     ("sms", JNull); ("health", JNull); ("active", JNull)] in
  providers <- list_webhook_providers ;;
  ok <- lift (py_get providers "success" JNull) ;;
  results <-
    (if truthy ok then
       data <- lift (py_get providers "data" (JObj [])) ;;
       provider_list <- lift (py_get data "list" (JList [])) ;;
       ps <- lift (py_iter provider_list) ;;
       for_each ps results (fun results provider =>
         profile_id <- lift (py_get provider "profile_id" (JInt 1)) ;;
         r <- test_webhook_notification profile_id ;;
         let results := dict_set results "webhook" r in
         time_sleep w delay ;;
         ret results)
     else ret results) ;;
  r <- test_push_notification ;;
  let results := dict_set results "push" r in
  time_sleep w delay ;;
  r <- test_sms_notification ;;
  let results := dict_set results "sms" r in
  time_sleep w delay ;;
  r <- get_system_health ;;
  let results := dict_set results "health" r in
  r <- get_active_notifications ;;
  let results := dict_set results "active" r in
  ret results.
End Client.

Record args : Type := Args {
  args_host : string;
  args_port : option Z;
  args_user : string;
  args_password : option string;
  args_secure : bool;
  args_discover : bool;
  args_config : bool;
  args_delay : float
}.

Definition rule : string :=
  "============================================================".

(** [sum(1 for r in results.values() if r and r.get("success"))] *)
Fixpoint success_count (values : list json) : result nat :=
  match values with
  | [] => Ok 0%nat
  | r :: rest =>
      rbind (if truthy r then
               rbind (py_get r "success" JNull) (fun s => Ok (truthy s))
             else Ok false) (fun counted =>
      rbind (success_count rest) (fun n =>
      Ok (if (counted : bool) then S n else n)))
  end.

Definition main (lower : string -> string) (w : world) (a : args)
  : M state Z :=
  let port :=
    match args_port a with
    | Some p => if (p =? 0)%Z then (if args_secure a then 5001 else 5000)%Z
                else p
    | None => (if args_secure a then 5001 else 5000)%Z
    end in
  password <-
    (if opt_truthy (args_password a)
     then ret (match args_password a with Some p => p | None => "" end)
     else getpass w [Lit "Enter password for "; Str (args_user a);
                     Lit ": "]) ;;
  print [Lit rule] ;;
  print [Lit "Synology Notification Trigger (API Version)"] ;;
  print [Lit rule] ;;
  print [Lit "Host: "; Str (args_host a); Lit ":"; Num port] ;;
  print [Lit "User: "; Str (args_user a)] ;;
  print [Lit "Secure: "; Val (JBool (args_secure a))] ;;
  print [Lit rule] ;;
  let trigger := init (args_host a) port (args_user a) password
                      (args_secure a) in
  logged_in <- login w trigger ;;
  if negb logged_in then ret 1%Z
  else
    try_finally
      (if args_discover a then
         discover_notification_apis lower w trigger ;;
         ret tt
       else if args_config a then
         config <- get_notification_config w trigger ;;
         print [Lit "Notification Configuration:"] ;;
         print [Indented config]
       else
         results <- run_all_tests w trigger (args_delay a) ;;
         list_backup_tasks w trigger ;;
         print [Lit rule] ;;
         print [Lit "Summary"] ;;
         print [Lit rule] ;;
         n <- lift (success_count (map snd results)) ;;
         print [Lit "  Tests completed: ";
                Num (Z.of_nat (List.length results))] ;;
         print [Lit "  Successful: "; Num (Z.of_nat n)] ;;
         print [Lit "Check your n8n webhook to see captured alerts!"])
      (logout w trigger) ;;
    ret 0%Z.

Definition initial : state := State [] JNull.

(** Running the tool: exit status and trace. *)
Definition run (lower : string -> string) (w : world) (a : args)
  : Z * list event :=
  let (r, s) := main lower w a initial in (exit_code r, st_trace s).

End ApiClient.

(* ================================================================== *)
(** * trigger_alerts.py *)
(* ================================================================== *)

Module SshTool.
Import Py Eff Eff.Notations.
Local Open Scope py_scope.

(** An entry of [NOTIFICATION_TESTS]: a dict with the four keys ["api"],
    ["method"], ["version"] and ["description"]. *)
Record test_config : Type := TestConfig {
  tc_api : string;
  tc_method : string;
  tc_version : Z;
  tc_description : string
}.

Definition NOTIFICATION_TESTS : list (string * test_config) :=
  [("push", TestConfig "SYNO.Core.Notification.Push" "send_test" 1
                       "Push notification test");
   ("mail", TestConfig "SYNO.Core.Notification.Mail" "send_test" 1
                       "Email notification test");
   ("sms", TestConfig "SYNO.Core.Notification.SMS" "send_test" 1
                      "SMS notification test");
   ("push_mail", TestConfig "SYNO.Core.Notification.Push.Mail" "send_test" 1
                            "Push mail notification test")].

(** What [subprocess.run(argv, capture_output=True, text=True, timeout=30)]
    does: the process ends with a return code and its two outputs, or the
    call raises.  [TimeoutExpired] and [FileNotFoundError] are the two
    exceptions the script catches. *)
Inductive run_outcome : Type :=
| Completed (returncode : Z) (stdout stderr : string)
| TimeoutExpired
| FileNotFoundError
| RunRaises (e : exn).

(** What a run of the script does that can be seen from outside.
    [EvUsage] is the message [parser.error] writes before it exits.  A
    printed text is recorded in full, its line breaks ([nl]) included. *)
Inductive event : Type :=
| EvRun (argv : list text)
| EvPrint (t : text)
| EvUsage (message : string)
| EvSleep (d : float)
| EvGetpass (prompt : text).

Record world : Type := World {
  w_run : list event -> list text -> run_outcome;
  w_sleep : list event -> float -> option exn;
  w_getpass : list event -> string
}.

Definition emit (e : event) : M (list event) unit :=
  fun t => (Ok tt, t ++ [e]).

Definition print (t : text) : M (list event) unit := emit (EvPrint t).

(** [subprocess.run]: the call is recorded, then the world answers. *)
Definition subprocess_run (w : world) (argv : list text)
  : M (list event) run_outcome :=
  fun t => (Ok (w_run w t argv), t ++ [EvRun argv]).

Definition time_sleep (w : world) (d : float) : M (list event) unit :=
  fun t =>
    match w_sleep w t d with
    | Some e => (Raise e, t)
    | None => (Ok tt, t ++ [EvSleep d])
    end.

Definition getpass (w : world) (prompt : text) : M (list event) string :=
  fun t => (Ok (w_getpass w t), t ++ [EvGetpass prompt]).

(** A line break, and the double quote. *)
Definition nl : string := String (ascii_of_nat 10) EmptyString.
Definition dq : string := String (ascii_of_nat 34) EmptyString.

Definition rule : string :=
  "============================================================".

(** The options both command lines pass to [ssh], the target and the
    remote command. *)
Definition ssh_argv (host user : string) (command : text) : list text :=
  [[Lit "ssh"]; [Lit "-o"]; [Lit "StrictHostKeyChecking=no"];
   [Lit "-o"]; [Lit "UserKnownHostsFile=/dev/null"];
   [Str user; Lit "@"; Str host];
   command].

Definition run_ssh_without_sshpass (w : world) (host user : string)
           (command : text) : M (list event) (Z * string * string) :=
  print [Lit "  [Note: sshpass not found, using basic SSH - you may need to enter password manually]"] ;;
  let ssh_command := ssh_argv host user command in
  outcome <- subprocess_run w ssh_command ;;
  match outcome with
  | Completed returncode stdout stderr => ret (returncode, stdout, stderr)
  | TimeoutExpired => ret ((-1)%Z, "", "Command timed out")
  | FileNotFoundError => raise (Exn OtherError "FileNotFoundError")
  | RunRaises e => raise e
  end.

Definition run_ssh_command (w : world) (host user password : string)
           (command : text) (use_sudo : bool)
  : M (list event) (Z * string * string) :=
  let command := if use_sudo then Lit "sudo " :: command else command in
  let ssh_command :=
    [[Lit "sshpass"]; [Lit "-p"]; [Str password]]
    ++ ssh_argv host user command in
  outcome <- subprocess_run w ssh_command ;;
  match outcome with
  | Completed returncode stdout stderr => ret (returncode, stdout, stderr)
  | TimeoutExpired => ret ((-1)%Z, "", "Command timed out")
  | FileNotFoundError => run_ssh_without_sshpass w host user command
  | RunRaises e => raise e
  end.

Definition test_ssh_connection (w : world) (host user password : string)
  : M (list event) bool :=
  print [Lit "Testing SSH connection to "; Str host; Lit "..."] ;;
  r <- run_ssh_command w host user password
         [Lit "echo 'Connection successful'"] false ;;
  let '(code, stdout, stderr) := r in
  if (code =? 0)%Z && str_contains "successful" stdout then
    print [Lit "  ✓ SSH connection successful"] ;;
    ret true
  else
    print [Lit "  ✗ SSH connection failed: "; Str stderr] ;;
    ret false.

(** The parsed command line.  [--test] is one of the keys of
    [NOTIFICATION_TESTS] or ["all"]: [argparse] refuses anything else. *)
Record args : Type := Args {
  args_host : option string;
  args_user : option string;
  args_password : option string;
  args_test : string;
  args_custom : option string;
  args_list : bool;
  args_delay : float;
  args_discover : bool
}.

(** The running counters [results["success"]], [results["failed"]]. *)
Record results : Type := Results { success : nat; failed : nat }.

(** [f"{name:12}"]: the name, padded with spaces to twelve characters. *)
Fixpoint spaces (n : nat) : string :=
  match n with
  | O => EmptyString
  | S n' => String " " (spaces n')
  end.

Definition pad12 (name : string) : string :=
  (name ++ spaces (12 - String.length name))%string.

Definition value (o : option string) : string :=
  match o with
  | Some s => s
  | None => ""
  end.

(** [NOTIFICATION_TESTS[name]] *)
Fixpoint lookup_test (tests : list (string * test_config)) (name : string)
  : result test_config :=
  match tests with
  | [] => Raise (Exn KeyError name)
  | (k, c) :: rest => if k =? name then Ok c else lookup_test rest name
  end.

Section Strings.
(** [str.strip] and [str.upper] are builtins; the embedding takes them as
    given. *)
Variable strip : string -> string.
Variable upper : string -> string.

Definition trigger_notification_test (w : world)
           (host user password test_name : string)
           (test_config : test_config) : M (list event) bool :=
  let api := tc_api test_config in
  let method := tc_method test_config in
  let version := tc_version test_config in
  let description := tc_description test_config in
  print [Lit nl; Lit "["; Str (upper test_name); Lit "] "; Str description] ;;
  print [Lit "  API: "; Str api] ;;
  print [Lit "  Method: "; Str method] ;;
  let command := [Lit "synowebapi --exec api="; Str api; Lit " method=";
                  Str method; Lit " --version="; Num version] in
  r <- run_ssh_command w host user password command true ;;
  let '(code, stdout, stderr) := r in
  if (code =? 0)%Z then
    print [Lit "  ✓ Success: "; Str (strip stdout)] ;;
    ret true
  else
    print [Lit "  ✗ Failed: ";
           Str (if strip stderr =? "" then strip stdout else strip stderr)] ;;
    ret false.

Definition list_available_apis (w : world) (host user password : string)
  : M (list event) unit :=
  print [Lit nl; Lit rule] ;;
  print [Lit "Discovering available APIs..."] ;;
  print [Lit rule] ;;
  let command :=
    [Lit "synowebapi --exec api=SYNO.API.Info method=query --version=1 2>/dev/null | grep -i notif"] in
  r <- run_ssh_command w host user password command true ;;
  let '(_, stdout, _) := r in
  if negb (stdout =? "") then
    print [Lit "Found notification-related APIs:"] ;;
    print [Str stdout]
  else
    print [Lit "Could not enumerate APIs (this is normal on some DSM versions)"].

Definition trigger_backup_event (w : world) (host user password : string)
  : M (list event) unit :=
  print [Lit nl; Lit "[BACKUP] Checking backup tasks..."] ;;
  let command :=
    [Lit "synowebapi --exec api=SYNO.Backup.Task method=list --version=1"] in
  r <- run_ssh_command w host user password command true ;;
  let '(code, stdout, stderr) := r in
  if (code =? 0)%Z then
    print [Lit "  Backup tasks found: ";
           Num (Z.of_nat (String.length (strip stdout)));
           Lit " bytes response"]
  else
    print [Lit "  Could not list backup tasks: "; Str (strip stderr)].

Definition trigger_system_health_check (w : world)
           (host user password : string) : M (list event) unit :=
  print [Lit nl; Lit "[HEALTH] Triggering system health check..."] ;;
  let command :=
    [Lit "synowebapi --exec api=SYNO.Core.System.Status method=get --version=1"]
  in
  r <- run_ssh_command w host user password command true ;;
  let '(code, _, stderr) := r in
  if (code =? 0)%Z then
    print [Lit "  ✓ Health check completed"]
  else
    print [Lit "  ✗ Failed: "; Str (strip stderr)].

Definition send_custom_webhook_test (w : world)
           (host user password message : string) : M (list event) bool :=
  print [Lit nl; Lit "[CUSTOM] Sending custom message: "; Str message] ;;
  let command :=
    [Lit "synodsmnotify -c "; Lit dq; Lit "@administrators"; Lit dq;
     Lit " "; Lit dq; Lit "Test Alert"; Lit dq;
     Lit " "; Lit dq; Str message; Lit dq] in
  r <- run_ssh_command w host user password command true ;;
  let '(code, _, stderr) := r in
  if (code =? 0)%Z then
    print [Lit "  ✓ Custom notification sent"] ;;
    ret true
  else
    print [Lit "  ✗ synodsmnotify failed, trying alternative..."] ;;
    let command :=
      [Lit "synonotify PKGHasUpgrade "; Lit dq; Lit "{"; Lit dq; Lit "title";
       Lit dq; Lit ": "; Lit dq; Lit "Test"; Lit dq; Lit ", "; Lit dq;
       Lit "message"; Lit dq; Lit ": "; Lit dq; Str message; Lit dq;
       Lit "}"; Lit dq] in
    r <- run_ssh_command w host user password command true ;;
    let '(code, _, stderr) := r in
    if (code =? 0)%Z then
      print [Lit "  ✓ Alternative notification sent"] ;;
      ret true
    else
      print [Lit "  ✗ Failed: ";
             Str (if strip stderr =? "" then "Unknown error"
                  else strip stderr)] ;;
      ret false.

Definition main (w : world) (a : args) : M (list event) Z :=
  if args_list a then
    print [Lit "Available notification tests:"] ;;
    print [Lit "--------------------------------------------------"] ;;
    for_each NOTIFICATION_TESTS tt (fun _ item =>
      let (name, config) := (item : string * test_config) in
      print [Lit "  "; Str (pad12 name); Lit " - ";
             Str (tc_description config)] ;;
      print [Lit "               API: "; Str (tc_api config)]) ;;
    ret 0%Z
  else if negb (opt_truthy (args_host a)) || negb (opt_truthy (args_user a))
  then
    (* parser.error: the message goes to stderr, the status is 2 *)
    emit (EvUsage "--host and --user are required") ;;
    ret 2%Z
  else
    let host := value (args_host a) in
    let user := value (args_user a) in
    password <-
      (if opt_truthy (args_password a)
       then ret (value (args_password a))
       else getpass w [Lit "Enter SSH password for "; Str user; Lit "@";
                       Str host; Lit ": "]) ;;
    print [Lit rule] ;;
    print [Lit "Synology Alert Trigger Script"] ;;
    print [Lit rule] ;;
    print [Lit "Host: "; Str host] ;;
    print [Lit "User: "; Str user] ;;
    print [Lit rule] ;;
    connected <- test_ssh_connection w host user password ;;
    if negb connected then
      print [Lit nl; Lit "Failed to connect. Please check:"] ;;
      print [Lit "  - SSH is enabled on your NAS (Control Panel → Terminal & SNMP)"] ;;
      print [Lit "  - Username and password are correct"] ;;
      print [Lit "  - The user has admin privileges"] ;;
      ret 1%Z
    else
      (if args_discover a
       then list_available_apis w host user password
       else ret tt) ;;
      if opt_truthy (args_custom a) then
        send_custom_webhook_test w host user password
                                 (value (args_custom a)) ;;
        ret 0%Z
      else
        tests_to_run <-
          (if args_test a =? "all" then ret NOTIFICATION_TESTS
           else
             config <- lift (lookup_test NOTIFICATION_TESTS (args_test a)) ;;
             ret [(args_test a, config)]) ;;
        res <- for_each tests_to_run (Results 0 0) (fun res item =>
          let (test_name, test_config) := (item : string * test_config) in
          ok <- trigger_notification_test w host user password test_name
                                          test_config ;;
          let res :=
            if (ok : bool) then Results (S (success res)) (failed res)
            else Results (success res) (S (failed res)) in
          (if PrimFloat.ltb 0 (args_delay a)
           then time_sleep w (args_delay a)
           else ret tt) ;;
          ret res) ;;
        trigger_system_health_check w host user password ;;
        trigger_backup_event w host user password ;;
        print [Lit nl; Lit rule] ;;
        print [Lit "Summary"] ;;
        print [Lit rule] ;;
        print [Lit "  Successful: "; Num (Z.of_nat (success res))] ;;
        print [Lit "  Failed:     "; Num (Z.of_nat (failed res))] ;;
        print [Lit nl; Lit "Check your n8n webhook to see captured alerts!"] ;;
        ret (if (failed res =? 0)%nat then 0%Z else 1%Z).
End Strings.

(** Running the tool: exit status and trace. *)
Definition run (strip upper : string -> string) (w : world) (a : args)
  : Z * list event :=
  let (r, t) := main strip upper w a [] in (exit_code r, t).

End SshTool.

(* ================================================================== *)
(** * The properties, as predicates on traces and values *)
(* ================================================================== *)

Module Props.
Import Py Eff Eff.Notations.
Local Open Scope py_scope.

(** [c] only appends events to the trace, and only events that satisfy
    [Q]. *)
Definition emits {S} {TS : Traced S} {A} (Q : event -> Prop) (c : M S A)
  : Prop :=
  forall s, exists t,
    trace_of (snd (c s)) = trace_of s ++ t /\ Forall Q t.

(** ** Alert Replayer *)

(** The category a fixture is filtered by: its ["category"] string, the
    empty string when the field is missing. *)
Definition fixture_category (alert : json) : string :=
  match alert with
  | JObj d =>
      match dict_lookup d "category" with
      | Some (JStr c) => c
      | _ => ""
      end
  | _ => ""
  end.

(** The severity level of a fixture, when it has one. *)
Definition fixture_level (alert : json) : option string :=
  match alert with
  | JObj d =>
      match dict_lookup d "level" with
      | Some (JStr l) => Some l
      | _ => None
      end
  | _ => None
  end.

(** A filter option counts as supplied when it is given and not empty. *)
Definition supplied (o : option string) (v : string) : Prop :=
  o = Some v /\ v <> "".

(** A fixture satisfies all the supplied predicates. *)
Definition satisfies (lower : string -> string) (a : Replayer.args)
           (name : string) (alert : json) : Prop :=
  (forall t, supplied (Replayer.args_type a) t -> name = t) /\
  (forall c, supplied (Replayer.args_category a) c ->
             lower (fixture_category alert) = lower c) /\
  (forall l, supplied (Replayer.args_level a) l ->
             fixture_level alert = Some l).

(** What the filter needs of a fixture: an object whose category, when
    present, is a string.  Every other field may be missing. *)
Definition fixture_like (alert : json) : Prop :=
  exists d, alert = JObj d /\
            (dict_lookup d "category" = None \/
             exists c, dict_lookup d "category" = Some (JStr c)).

(** What sending needs of a fixture: a level and a body. *)
Definition sendable (alert : json) : Prop :=
  exists d level body,
    alert = JObj d /\ dict_lookup d "level" = Some level /\
    dict_lookup d "body" = Some body.

(** The body a fixture is posted with. *)
Definition fixture_body (alert : json) : option json :=
  match alert with
  | JObj d => dict_lookup d "body"
  | _ => None
  end.

(** The request [send_alert] makes for a payload. *)
Definition webhook_request (url : string) (payload : json) : http_request :=
  {| rq_url := [Str url];
     rq_body := JsonBody payload;
     rq_headers := [("Content-Type", "application/json")];
     rq_verify := true;
     rq_timeout := 10 |}.

(** The statuses with which a webhook accepts a POST: 200, 201, 202 and
    204. *)
Definition accepted_status (status : Z) : bool :=
  match status with
  | 200 | 201 | 202 | 204 => true
  | _ => false
  end%Z.

(** A POST counts as a success: the server answered with an accepted
    status. *)
Definition post_accepted (o : post_outcome) : bool :=
  match o with
  | PostReturns r => accepted_status (status_code r)
  | PostRaises _ => false
  end.

(** The POST came back with a response or with a transport-level
    exception ([requests.RequestException]). *)
Definition transport_outcome (o : post_outcome) : Prop :=
  match o with
  | PostReturns _ => True
  | PostRaises e => is_request_exception e = true
  end.

(** The report lines of dry-run mode. *)
Definition is_would_send (t : text) : bool :=
  match t with
  | Lit "  Would send: [" :: _ => true
  | _ => false
  end.

Definition would_send_line (name : string) (level : json) : text :=
  [Lit "  Would send: ["; Val level; Lit "] "; Str name].

(** What the filter loop decides for one item, when nothing raises. *)
Definition keepb (lower : string -> string) (a : Replayer.args)
           (item : string * json) : bool :=
  negb (Replayer.type_mismatch a (fst item))
  && match Replayer.category_mismatch lower a (snd item) with
     | Ok skip => negb skip
     | Raise _ => false
     end
  && match Replayer.level_mismatch a (snd item) with
     | Ok skip => negb skip
     | Raise _ => false
     end.

(** The order of sending: by name, as strings compare. *)
Definition by_name (x y : string * json) : Prop :=
  (fst x <=? fst y)%string = true.

(** The level dry-run mode prints for a fixture. *)
Definition level_of (alert : json) : json :=
  match alert with
  | JObj d => match dict_lookup d "level" with Some v => v | None => JNull end
  | _ => JNull
  end.

(** What one send adds to the counters. *)
Definition counted (o : post_outcome) (res : Replayer.results)
  : Replayer.results :=
  if post_accepted o
  then Replayer.Results (S (Replayer.success res)) (Replayer.failed res)
  else Replayer.Results (Replayer.success res) (S (Replayer.failed res)).

(** A POST of the body of one of [items]. *)
Definition posts_one_of (url : string) (items : dict) (e : event) : Prop :=
  match e with
  | EvPost rq =>
      exists name alert body,
        In (name, alert) items /\ fixture_body alert = Some body /\
        rq = webhook_request url body
  | _ => True
  end.

(** A POST of the body of a loaded fixture that satisfies the filters. *)
Definition posts_selected (lower : string -> string) (a : Replayer.args)
           (alerts : dict) (e : event) : Prop :=
  match e with
  | EvPost rq =>
      exists name alert body,
        In (name, alert) alerts /\ satisfies lower a name alert /\
        fixture_body alert = Some body /\
        rq = webhook_request (Replayer.args_webhook a) body
  | _ => True
  end.

(** The body dry-run mode prints for a fixture. *)
Definition body_of (alert : json) : json :=
  match fixture_body alert with Some b => b | None => JNull end.

(** The two lines dry-run mode prints for an item. *)
Definition dry_events (item : string * json) : list event :=
  [EvPrint (would_send_line (fst item) (level_of (snd item)));
   EvPrint [Lit "    Payload: "; Dumps (body_of (snd item)) 80; Lit "..."]].

End Props.

Module ApiProps.
Import Py Eff Eff.Notations Props ApiClient.
Local Open Scope py_scope.

Definition form_field (rq : http_request) (k : string) : option json :=
  match rq_body rq with
  | FormBody d => dict_lookup d k
  | JsonBody _ => None
  end.

Definition api_of (rq : http_request) : option json := form_field rq "api".

(** A call of the authentication API (login or logout). *)
Definition is_auth (rq : http_request) : bool :=
  match api_of rq with
  | Some (JStr api) => api =? "SYNO.API.Auth"
  | _ => false
  end.

Definition is_login_request (rq : http_request) : Prop :=
  api_of rq = Some (JStr "SYNO.API.Auth") /\
  form_field rq "method" = Some (JStr "login").

Definition is_logout_request (rq : http_request) : Prop :=
  api_of rq = Some (JStr "SYNO.API.Auth") /\
  form_field rq "method" = Some (JStr "logout").

(** An event of the session proper: not the entry into [login] or
    [logout], and not a call of the authentication API. *)
Definition in_session (e : event) : Prop :=
  match e with
  | EvCall m => m <> "login" /\ m <> "logout"
  | EvPost rq => is_auth rq = false
  | _ => True
  end.

(** Events whose method calls and API names pass the given tests. *)
Definition allowed (okcall : string -> bool) (okapi : option json -> bool)
           (e : event) : Prop :=
  match e with
  | EvCall m => okcall m = true
  | EvPost rq => okapi (api_of rq) = true
  | _ => True
  end.

(** The form fields [_request] sends when the session token is [sid]. *)
Definition request_data (api method : string) (version : Z)
           (params : list (string * json)) (sid : json) : dict :=
  let data := ApiClient.dict_of ([("api", JStr api); ("version", JInt version);
                                  ("method", JStr method)] ++ params) in
  if truthy sid then dict_set data "_sid" sid else data.

Definition request_for (self : ApiClient.trigger) (api path method : string)
           (version : Z) (params : list (string * json)) (sid : json)
  : http_request :=
  {| rq_url := ApiClient.base_url self ++ [Lit "/"; Str path];
     rq_body := FormBody (request_data api method version params sid);
     rq_headers := [];
     rq_verify := false;
     rq_timeout := 30 |}.

(** The Call Result of a failed exchange. *)
Definition failure (reason : string) : json :=
  JObj [("success", JBool false); ("error", JStr reason)].

(** A request-level transport failure with its reason: the connection
    failed, the request timed out, or the server answered with an HTTP
    error status. *)
Definition transport_failure (o : post_outcome) (reason : string) : Prop :=
  match o with
  | PostRaises e =>
      (exc_cls e = ConnectionError \/ exc_cls e = Timeout \/
       exc_cls e = HTTPError \/ exc_cls e = RequestException) /\
      reason = exc_msg e
  | PostReturns r =>
      (400 <= status_code r < 600)%Z /\ reason = http_error r
  end.

(** What [_request] returns for each answer of the world. *)
Definition request_result (o : post_outcome) : result json :=
  match o with
  | PostRaises e =>
      if is_request_exception e then Ok (failure (exc_msg e)) else Raise e
  | PostReturns r =>
      match raise_for_status r with
      | Raise e => Ok (failure (exc_msg e))
      | Ok _ =>
          match json_body r with
          | Ok j => Ok j
          | Raise e =>
              if is_request_exception e then Ok (failure (exc_msg e))
              else Raise e
          end
      end
  end.

(** [name] contains [keyword] once lowercased. *)
Definition contains_ci (lower : string -> string) (keyword name : string)
  : Prop :=
  exists before after, lower name = (before ++ keyword ++ after)%string.

(** The entry discovery returns for a catalog item. *)
Definition annotated (api_name : string) (api_data : dict) : json :=
  let field k := match dict_lookup api_data k with
                 | Some v => v
                 | None => JNull
                 end in
  JObj [("name", JStr api_name); ("path", field "path");
        ("minVersion", field "minVersion");
        ("maxVersion", field "maxVersion")].

(** [c] only appends events that satisfy [Q] and leaves the session token
    alone. *)
Definition quiet {A} (Q : event -> Prop) (c : M state A) : Prop :=
  forall s, exists t,
    st_trace (snd (c s)) = st_trace s ++ t /\
    session_id (snd (c s)) = session_id s /\
    Forall Q t.

(** The port [main] connects to. *)
Definition port_of (a : args) : Z :=
  match args_port a with
  | Some p => if (p =? 0)%Z then (if args_secure a then 5001 else 5000)%Z
              else p
  | None => (if args_secure a then 5001 else 5000)%Z
  end.

(** The password [main] logs in with: the option, or what the user types
    at the prompt. *)
Definition password_of (w : world) (a : args) : string :=
  match args_password a with
  | Some p => if p =? "" then w_getpass w [] else p
  | None => w_getpass w []
  end.

(** The client object [main] creates. *)
Definition trigger_of (w : world) (a : args) : trigger :=
  init (args_host a) (port_of a) (args_user a) (password_of w a)
       (args_secure a).

(** What [main] has done when it calls [login]: the password prompt, if
    any, and the banner. *)
Definition startup_trace (a : args) : list event :=
  (if opt_truthy (args_password a) then []
   else [EvGetpass [Lit "Enter password for "; Str (args_user a);
                    Lit ": "]])
  ++ [EvPrint [Lit rule];
      EvPrint [Lit "Synology Notification Trigger (API Version)"];
      EvPrint [Lit rule];
      EvPrint [Lit "Host: "; Str (args_host a); Lit ":"; Num (port_of a)];
      EvPrint [Lit "User: "; Str (args_user a)];
      EvPrint [Lit "Secure: "; Val (JBool (args_secure a))];
      EvPrint [Lit rule]].

Definition login_state (a : args) : state := State (startup_trace a) JNull.

(** The [try] block of [main]. *)
Definition session_body (lower : string -> string) (w : world)
           (self : trigger) (a : args) : M state unit :=
  if args_discover a then
    discover_notification_apis lower w self ;;
    ret tt
  else if args_config a then
    config <- get_notification_config w self ;;
    print [Lit "Notification Configuration:"] ;;
    print [Indented config]
  else
    results <- run_all_tests w self (args_delay a) ;;
    list_backup_tasks w self ;;
    print [Lit rule] ;;
    print [Lit "Summary"] ;;
    print [Lit rule] ;;
    n <- lift (success_count (map snd results)) ;;
    print [Lit "  Tests completed: ";
           Num (Z.of_nat (List.length results))] ;;
    print [Lit "  Successful: "; Num (Z.of_nat n)] ;;
    print [Lit "Check your n8n webhook to see captured alerts!"].

(** The method names and API names of the session proper. *)
Definition session_call (m : string) : bool :=
  negb (m =? "login") && negb (m =? "logout").

Definition session_api (api : option json) : bool :=
  match api with
  | Some (JStr name) => negb (name =? "SYNO.API.Auth")
  | _ => true
  end.

(** The login request of a client. *)
Definition login_request (self : trigger) (sid : json) : http_request :=
  request_for self "SYNO.API.Auth" "auth.cgi" "login" 6
              [("account", JStr (username self));
               ("passwd", JStr (password self));
               ("session", JStr "NotificationTrigger");
               ("format", JStr "sid")] sid.

Definition logout_request (self : trigger) (sid : json) : http_request :=
  request_for self "SYNO.API.Auth" "auth.cgi" "logout" 1
              [("session", JStr "NotificationTrigger")] sid.

(** The entry discovery builds for a catalog item whose data is a dict. *)
Definition catalog_entry (item : string * json) : json :=
  match snd item with
  | JObj d => annotated (fst item) d
  | _ => JNull
  end.

(** The state in which [discover_notification_apis] queries the catalog. *)
Definition discover_state (s : state) : state :=
  State (st_trace s
         ++ [EvCall "discover_notification_apis";
             EvPrint [Lit "[DISCOVER] Discovering notification APIs..."]])
        (session_id s).

(** Every method but [test_mail_notification]. *)
Definition not_mail_call (m : string) : bool :=
  negb (m =? "test_mail_notification").

(** Every API but the one of the mail test. *)
Definition not_mail_api (api : option json) : bool :=
  match api with
  | Some (JStr name) => negb (name =? "SYNO.Core.Notification.Mail")
  | _ => true
  end.

End ApiProps.

(* ================================================================== *)
(** * Inputs for running the model *)
(* ================================================================== *)

Module Examples.
Import Py Eff Props ApiProps.

(** A webhook that accepts every POST. *)
Definition accepting_world : world :=
  {| w_post := fun _ _ => PostReturns (Response 200 (Ok JNull) "");
     w_sleep := fun _ _ => None;
     w_getpass := fun _ => "secret" |}.

(** A network on which every connection is refused. *)
Definition unreachable_world : world :=
  {| w_post := fun _ _ => PostRaises (Exn ConnectionError "connection refused");
     w_sleep := fun _ _ => None;
     w_getpass := fun _ => "secret" |}.

Definition fixture (level category : string) (body : json) : json :=
  JObj [("level", JStr level); ("category", JStr category); ("body", body)].

Definition server_offline : json :=
  fixture "ERROR" "Storage" (JObj [("event", JStr "server offline")]).

Definition disk_failing : json :=
  fixture "WARN" "Hardware" (JObj [("event", JStr "disk failing")]).

Definition backup_failed : json :=
  fixture "ERROR" "Backup" (JObj [("event", JStr "backup failed")]).

(** The two fixtures of the spec's example. *)
Definition example_files : list (string * json) :=
  [("server_offline", server_offline); ("disk_failing", disk_failing)].

(** A directory listed in an order that is not the alphabetical one. *)
Definition unsorted_files : list (string * json) :=
  [("disk_failing", disk_failing); ("backup_failed", backup_failed)].

(** Fixtures with a field missing. *)
Definition partial_files : list (string * json) :=
  [("no_category", JObj [("level", JStr "ERROR"); ("body", JNull)]);
   ("no_level", JObj [("category", JStr "Storage"); ("body", JNull)])].

(** [--level ERROR] *)
Definition level_error : Replayer.args :=
  {| Replayer.args_webhook := Replayer.DEFAULT_WEBHOOK;
     Replayer.args_type := None;
     Replayer.args_category := None;
     Replayer.args_level := Some "ERROR";
     Replayer.args_delay := 1%float;
     Replayer.args_dry_run := false |}.

(** [--category storage --level ERROR] *)
Definition storage_errors : Replayer.args :=
  {| Replayer.args_webhook := Replayer.DEFAULT_WEBHOOK;
     Replayer.args_type := None;
     Replayer.args_category := Some "storage";
     Replayer.args_level := Some "ERROR";
     Replayer.args_delay := 1%float;
     Replayer.args_dry_run := false |}.

(** No filter, one second between sends. *)
Definition send_all : Replayer.args :=
  {| Replayer.args_webhook := Replayer.DEFAULT_WEBHOOK;
     Replayer.args_type := None;
     Replayer.args_category := None;
     Replayer.args_level := None;
     Replayer.args_delay := 1%float;
     Replayer.args_dry_run := false |}.

(** [--dry-run] *)
Definition dry_run_all : Replayer.args :=
  {| Replayer.args_webhook := Replayer.DEFAULT_WEBHOOK;
     Replayer.args_type := None;
     Replayer.args_category := None;
     Replayer.args_level := None;
     Replayer.args_delay := 1%float;
     Replayer.args_dry_run := true |}.

(** The sends and the pauses of a trace, in order: [Some payload] for a
    POST of [payload], [None] for a pause. *)
Fixpoint schedule (t : list event) : list (option json) :=
  match t with
  | [] => []
  | EvPost rq :: t' =>
      match rq_body rq with
      | JsonBody payload => Some payload :: schedule t'
      | FormBody _ => schedule t'
      end
  | EvSleep _ :: t' => None :: schedule t'
  | _ :: t' => schedule t'
  end.

(** A NAS whose catalog holds one notification API and one other. *)
Definition catalog : dict :=
  [("SYNO.Core.Notification.Push",
    JObj [("path", JStr "entry.cgi"); ("minVersion", JInt 1);
          ("maxVersion", JInt 2)]);
   ("SYNO.FileStation.List",
    JObj [("path", JStr "entry.cgi"); ("minVersion", JInt 1);
          ("maxVersion", JInt 3)])].

Definition catalog_answer : json :=
  JObj [("success", JBool true); ("data", JObj catalog)].

Definition catalog_world : world :=
  {| w_post := fun _ _ => PostReturns (Response 200 (Ok catalog_answer) "");
     w_sleep := fun _ _ => None;
     w_getpass := fun _ => "secret" |}.

Definition nas : ApiClient.trigger :=
  ApiClient.init "nas" 5000 "admin" "secret" false.

(** A world in which login succeeds and every other call is answered
    with [{"success": false}]. *)
Definition refusing_world : world :=
  {| w_post := fun _ rq =>
       match form_field rq "method" with
       | Some (JStr "login") =>
           PostReturns (Response 200
             (Ok (JObj [("success", JBool true);
                        ("data", JObj [("sid", JStr "token")])])) "")
       | _ =>
           PostReturns (Response 200 (Ok (JObj [("success", JBool false)])) "")
       end;
     w_sleep := fun _ _ => None;
     w_getpass := fun _ => "secret" |}.

(** [--host nas --user admin --password secret], default mode. *)
Definition default_args : ApiClient.args :=
  {| ApiClient.args_host := "nas";
     ApiClient.args_port := None;
     ApiClient.args_user := "admin";
     ApiClient.args_password := Some "secret";
     ApiClient.args_secure := false;
     ApiClient.args_discover := false;
     ApiClient.args_config := false;
     ApiClient.args_delay := 2%float |}.

(** The line a test method prints for the Call Result
    [{"success": false}]. *)
Definition failed_line : event :=
  EvPrint [Lit "  ✗ Failed: "; Val (JObj [("success", JBool false)])].

(** [--type no_such_alert] *)
Definition no_such_type : Replayer.args :=
  {| Replayer.args_webhook := Replayer.DEFAULT_WEBHOOK;
     Replayer.args_type := Some "no_such_alert";
     Replayer.args_category := None;
     Replayer.args_level := None;
     Replayer.args_delay := 1%float;
     Replayer.args_dry_run := false |}.

End Examples.

(* ================================================================== *)
(** * Further properties, as predicates on traces and values *)
(* ================================================================== *)

Module Behaviour.
Import Py Eff Props.

(** ** Alert Replayer *)

(** The POSTs of [t], made after the history [h], that the webhook
    answered with an accepted status. *)
Fixpoint accepted_posts (w : world) (h t : list event) : nat :=
  match t with
  | [] => 0
  | e :: t' =>
      (match e with
       | EvPost rq => if post_accepted (w_post w h rq) then 1 else 0
       | _ => 0
       end + accepted_posts w (h ++ [e]) t')%nat
  end.

(** The POSTs of [t] that failed: any other status, or an exception. *)
Fixpoint rejected_posts (w : world) (h t : list event) : nat :=
  match t with
  | [] => 0
  | e :: t' =>
      (match e with
       | EvPost rq => if post_accepted (w_post w h rq) then 0 else 1
       | _ => 0
       end + rejected_posts w (h ++ [e]) t')%nat
  end.

(** The test the sending loop makes before it pauses. *)
Definition pause_due (a : Replayer.args) (filtered : dict) (name : string)
  : bool :=
  PrimFloat.ltb 0 (Replayer.args_delay a)
  && negb (name =? Replayer.last_key filtered).

(** Strict order of names. *)
Definition name_lt (x y : string * json) : Prop :=
  (fst x <? fst y)%string = true.

(** The sends of [bodies] with a pause between two consecutive ones. *)
Fixpoint paced (bodies : list json) : list (option json) :=
  match bodies with
  | [] => []
  | b :: rest =>
      Some b :: match rest with
                | [] => []
                | _ :: _ => None :: paced rest
                end
  end.

Definition is_print (e : event) : Prop :=
  match e with
  | EvPrint _ => True
  | _ => False
  end.

Definition not_sleep (e : event) : Prop :=
  match e with
  | EvSleep _ => False
  | _ => True
  end.

(** The file [glob] lists last under a stem. *)
Fixpoint last_file (files : list (string * json)) (stem : string)
  : option json :=
  match files with
  | [] => None
  | (k, v) :: rest =>
      match last_file rest stem with
      | Some v' => Some v'
      | None => if k =? stem then Some v else None
      end
  end.

End Behaviour.

Module ApiBehaviour.
Import Py Eff Eff.Notations Props ApiProps ApiClient.
Local Open Scope py_scope.

(** A request as [_request] builds it while the client holds the session
    token [sid]. *)
Definition built_by (self : trigger) (sid : json) (rq : http_request)
  : Prop :=
  exists api path method version params,
    ~ In "_sid" (map fst params) /\
    rq = request_for self api path method version params sid.

(** The [_sid] field of a request sent while the client holds [sid]: the
    token when it is truthy, no field otherwise. *)
Definition sid_field (sid : json) : option json :=
  if truthy sid then Some sid else None.

(** What the methods of the client do between [login] and [logout]: they
    send requests built with the current token and never prompt. *)
Definition session_event (self : trigger) (sid : json) (e : event) : Prop :=
  match e with
  | EvPost rq => built_by self sid rq
  | EvGetpass _ => False
  | _ => True
  end.

(** [c] only appends session events and leaves the token alone. *)
Definition carries {A} (self : trigger) (c : M state A) : Prop :=
  forall s, exists t,
    st_trace (snd (c s)) = st_trace s ++ t /\
    session_id (snd (c s)) = session_id s /\
    Forall (session_event self (session_id s)) t.

(** What every request of the client has in common. *)
Definition client_request (self : trigger) (rq : http_request) : Prop :=
  rq_verify rq = false /\ rq_timeout rq = 30%Z /\ rq_headers rq = [] /\
  exists path, rq_url rq = base_url self ++ [Lit "/"; Str path].

(** A Call Result that reports a failure: a dict whose ["success"] is
    missing or falsy. *)
Definition refused (r : result json) : Prop :=
  exists d, r = Ok (JObj d) /\
    truthy (match dict_lookup d "success" with
            | Some v => v
            | None => JNull
            end) = false.

(** The Call Result is a JSON value that is not an object. *)
Definition not_an_object (j : json) : Prop :=
  match j with
  | JObj _ => False
  | _ => True
  end.

(** The value [result.get("success")] of a dict. *)
Definition success_of (d : dict) : json :=
  match dict_lookup d "success" with
  | Some v => v
  | None => JNull
  end.

(** The history in which [login] sends its request, and what [_request]
    makes of the answer. *)
Definition login_history (self : trigger) (s : state) : list event :=
  st_trace s
  ++ [EvCall "login";
      EvPrint [Lit "Logging in to "; Str (host self); Lit "..."]].

Definition login_answer (w : world) (self : trigger) (s : state)
  : result json :=
  request_result (w_post w (login_history self s)
                         (login_request self (session_id s))).

(** The session token a login answer grants: the answer is an object
    whose ["success"] is truthy and whose ["data"] is an object with a
    ["sid"].  Any other answer grants nothing: the login has failed. *)
Definition granted (answer : result json) : option json :=
  match answer with
  | Ok (JObj d) =>
      if truthy (success_of d) then
        match dict_lookup d "data" with
        | Some (JObj data) => dict_lookup data "sid"
        | _ => None
        end
      else None
  | _ => None
  end.

(** The same for [logout]. *)
Definition logout_history (s : state) : list event :=
  st_trace s ++ [EvCall "logout"].

Definition logout_answer (w : world) (self : trigger) (s : state)
  : result json :=
  request_result (w_post w (logout_history s)
                         (logout_request self (session_id s))).

(** The request a method of the client makes: the method's name, the
    banner it prints first, and the arguments it passes to [_request]. *)
Record call : Type := Call {
  c_name : string;
  c_banner : text;
  c_api : string;
  c_method : string;
  c_version : Z;
  c_params : list (string * json)
}.

Definition push_call : call :=
  Call "test_push_notification"
       [Lit "[PUSH] Sending push notification test..."]
       "SYNO.Core.Notification.Push" "send_test" 1 [].

Definition webhook_call (profile_id : json) : call :=
  Call "test_webhook_notification"
       [Lit "[WEBHOOK] Sending webhook test (profile_id="; Val profile_id;
        Lit ")..."]
       "SYNO.Core.Notification.Push.Webhook.Provider" "send_test" 2
       [("profile_id", profile_id)].

Definition providers_call : call :=
  Call "list_webhook_providers"
       [Lit "[WEBHOOK] Listing webhook providers..."]
       "SYNO.Core.Notification.Push.Webhook.Provider" "list" 2 [].

Definition sms_call : call :=
  Call "test_sms_notification"
       [Lit "[SMS] Sending SMS notification test..."]
       "SYNO.Core.Notification.SMS" "send_test" 1 [].

Definition health_call : call :=
  Call "get_system_health"
       [Lit "[HEALTH] Getting system health..."]
       "SYNO.Core.System.Status" "get" 1 [].

Definition active_call : call :=
  Call "get_active_notifications"
       [Lit "[ACTIVE] Getting active notifications..."]
       "SYNO.Core.DSMNotify" "notify" 1 [("action", JStr "load")].

Definition backup_call : call :=
  Call "list_backup_tasks"
       [Lit "[BACKUP] Listing backup tasks..."]
       "SYNO.Backup.Task" "list" 1 [].

Definition call_request (self : trigger) (c : call) (sid : json)
  : http_request :=
  request_for self (c_api c) "entry.cgi" (c_method c) (c_version c)
              (c_params c) sid.

(** The events of a method up to its request. *)
Definition call_sent (self : trigger) (c : call) (sid : json) : list event :=
  [EvCall (c_name c); EvPrint (c_banner c); EvPost (call_request self c sid)].

(** What [_request] returns to a method that is called in state [s]. *)
Definition call_answer (w : world) (self : trigger) (c : call) (s : state)
  : result json :=
  request_result
    (w_post w (st_trace s ++ [EvCall (c_name c); EvPrint (c_banner c)])
            (call_request self c (session_id s))).

(** The line a method prints for a Call Result [d] that does not report a
    success. *)
Definition failed_line_of (d : dict) : event :=
  EvPrint [Lit "  ✗ Failed: ";
           Val (match dict_lookup d "error" with
                | Some v => v
                | None => JObj d
                end)].

(** [op] treats a Call Result without success as a reported failure: it
    prints the failure and returns the Call Result. *)
Definition reports_failure (w : world) (self : trigger) (op : M state json)
           (c : call) : Prop :=
  forall s d,
    call_answer w self c s = Ok (JObj d) ->
    truthy (success_of d) = false ->
    op s = (Ok (JObj d),
            State (st_trace s ++ call_sent self c (session_id s)
                   ++ [failed_line_of d])
                  (session_id s)).

(** [op] needs its Call Result to be an object: it raises on any other
    JSON value, after the request. *)
Definition needs_an_object (w : world) (self : trigger) (op : M state json)
           (c : call) : Prop :=
  forall s j,
    call_answer w self c s = Ok j ->
    not_an_object j ->
    op s = (Raise (Exn AttributeError "object has no attribute 'get'"),
            State (st_trace s ++ call_sent self c (session_id s))
                  (session_id s)).

(** What [c] returns, when it returns, satisfies [P]. *)
Definition returns {A} (P : A -> Prop) (c : M state A) : Prop :=
  forall s, match fst (c s) with
            | Ok a => P a
            | Raise _ => True
            end.

(** The dict [run_all_tests] fills: six slots, the one of the mail test
    empty. *)
Definition six_entries (results : dict) : Prop :=
  exists webhook push sms health active,
    results = [("webhook", webhook); ("push", push); ("mail", JNull);
               ("sms", sms); ("health", health); ("active", active)].

(** [provider.get("profile_id", 1)] *)
Definition profile_id_of (provider : json) : json :=
  match provider with
  | JObj d =>
      match dict_lookup d "profile_id" with
      | Some v => v
      | None => JInt 1
      end
  | _ => JInt 1
  end.

(** [providers.get("data", {}).get("list", [])], when that is a list. *)
Definition providers_of (d : dict) : option (list json) :=
  match dict_lookup d "data" with
  | Some (JObj data) =>
      match dict_lookup data "list" with
      | Some (JList ps) => Some ps
      | Some _ => None
      | None => Some []
      end
  | Some _ => None
  | None => Some []
  end.

Definition is_object (j : json) : Prop := exists d, j = JObj d.

(** The pauses of a trace. *)
Fixpoint sleeps (t : list event) : list float :=
  match t with
  | [] => []
  | EvSleep d :: t' => d :: sleeps t'
  | _ :: t' => sleeps t'
  end.

(** The password prompts of a trace. *)
Fixpoint prompts (t : list event) : list text :=
  match t with
  | [] => []
  | EvGetpass p :: t' => p :: prompts t'
  | _ :: t' => prompts t'
  end.

End ApiBehaviour.

Module SshProps.
Import Py Eff SshTool.

(** [c] only appends events to the trace, and only events that satisfy
    [Q]. *)
Definition appends {A} (Q : event -> Prop) (c : M (list event) A) : Prop :=
  forall t, exists t', snd (c t) = t ++ t' /\ Forall Q t'.

(** The command lines of a trace, in order. *)
Fixpoint runs (t : list event) : list (list text) :=
  match t with
  | [] => []
  | EvRun argv :: t' => argv :: runs t'
  | _ :: t' => runs t'
  end.

(** The pauses of a trace. *)
Fixpoint pauses (t : list event) : list float :=
  match t with
  | [] => []
  | EvSleep d :: t' => d :: pauses t'
  | _ :: t' => pauses t'
  end.

(** The command line of plain [ssh]: host keys are neither checked nor
    recorded, the target is [user@host], the remote command comes last. *)
Definition plain_argv (host user : string) (command : text) : list text :=
  [[Lit "ssh"];
   [Lit "-o"]; [Lit "StrictHostKeyChecking=no"];
   [Lit "-o"]; [Lit "UserKnownHostsFile=/dev/null"];
   [Str user; Lit "@"; Str host];
   command].

(** The command line that goes through [sshpass]: the same, behind
    [sshpass -p <password>]. *)
Definition sshpass_argv (host user password : string) (command : text)
  : list text :=
  [Lit "sshpass"] :: [Lit "-p"] :: [Str password]
  :: plain_argv host user command.

(** The remote commands of the script. *)
Definition probe : text := [Lit "echo 'Connection successful'"].

Definition sudo (command : text) : text := Lit "sudo " :: command.

Definition test_command (c : test_config) : text :=
  sudo [Lit "synowebapi --exec api="; Str (tc_api c); Lit " method=";
        Str (tc_method c); Lit " --version="; Num (tc_version c)].

Definition discover_command : text :=
  sudo [Lit "synowebapi --exec api=SYNO.API.Info method=query --version=1 2>/dev/null | grep -i notif"].

Definition health_command : text :=
  sudo [Lit "synowebapi --exec api=SYNO.Core.System.Status method=get --version=1"].

Definition backup_command : text :=
  sudo [Lit "synowebapi --exec api=SYNO.Backup.Task method=list --version=1"].

Definition custom_command (message : string) : text :=
  sudo [Lit "synodsmnotify -c "; Lit dq; Lit "@administrators"; Lit dq;
        Lit " "; Lit dq; Lit "Test Alert"; Lit dq;
        Lit " "; Lit dq; Str message; Lit dq].

Definition alternative_command (message : string) : text :=
  sudo [Lit "synonotify PKGHasUpgrade "; Lit dq; Lit "{"; Lit dq;
        Lit "title"; Lit dq; Lit ": "; Lit dq; Lit "Test"; Lit dq; Lit ", ";
        Lit dq; Lit "message"; Lit dq; Lit ": "; Lit dq; Str message; Lit dq;
        Lit "}"; Lit dq].

(** The call of [subprocess.run] came back: the process ended, or it
    timed out. *)
Definition answered (o : run_outcome) : Prop :=
  match o with
  | Completed _ _ _ | TimeoutExpired => True
  | FileNotFoundError | RunRaises _ => False
  end.

(** What [run_ssh_command] returns for such a call. *)
Definition returned (o : run_outcome) : Z * string * string :=
  match o with
  | Completed returncode stdout stderr => (returncode, stdout, stderr)
  | _ => ((-1)%Z, "", "Command timed out")
  end.

(** The remote command ended with return code 0. *)
Definition exit_zero (o : run_outcome) : bool :=
  match o with
  | Completed returncode _ _ => (returncode =? 0)%Z
  | _ => false
  end.

(** The connection check passed. *)
Definition connected (o : run_outcome) : bool :=
  match o with
  | Completed returncode stdout _ =>
      (returncode =? 0)%Z && str_contains "successful" stdout
  | _ => false
  end.

(** The command lines of [t], run after the history [h], that ended with
    return code 0, and those that did not. *)
Fixpoint passed_runs (w : world) (h t : list event) : nat :=
  match t with
  | [] => 0
  | e :: t' =>
      (match e with
       | EvRun argv => if exit_zero (w_run w h argv) then 1 else 0
       | _ => 0
       end + passed_runs w (h ++ [e]) t')%nat
  end.

Fixpoint failed_runs (w : world) (h t : list event) : nat :=
  match t with
  | [] => 0
  | e :: t' =>
      (match e with
       | EvRun argv => if exit_zero (w_run w h argv) then 0 else 1
       | _ => 0
       end + failed_runs w (h ++ [e]) t')%nat
  end.

(** The target and the password of a run. *)
Definition host_of (a : args) : string := value (args_host a).
Definition user_of (a : args) : string := value (args_user a).

Definition password_of (w : world) (a : args) : string :=
  if opt_truthy (args_password a) then value (args_password a)
  else w_getpass w [].

(** What [main] has done when it checks the connection: the password
    prompt, if any, and the banner. *)
Definition startup (a : args) : list event :=
  (if opt_truthy (args_password a) then []
   else [EvGetpass [Lit "Enter SSH password for "; Str (user_of a); Lit "@";
                    Str (host_of a); Lit ": "]])
  ++ [EvPrint [Lit rule];
      EvPrint [Lit "Synology Alert Trigger Script"];
      EvPrint [Lit rule];
      EvPrint [Lit "Host: "; Str (host_of a)];
      EvPrint [Lit "User: "; Str (user_of a)];
      EvPrint [Lit rule]].

(** The command line of the connection check and its outcome. *)
Definition probe_argv (w : world) (a : args) : list text :=
  sshpass_argv (host_of a) (user_of a) (password_of w a) probe.

Definition probe_history (a : args) : list event :=
  startup a
  ++ [EvPrint [Lit "Testing SSH connection to "; Str (host_of a);
               Lit "..."]].

Definition probe_outcome (w : world) (a : args) : run_outcome :=
  w_run w (probe_history a) (probe_argv w a).

(** The tests [--test] selects. *)
Definition selected (a : args) : result (list (string * test_config)) :=
  if args_test a =? "all" then Ok NOTIFICATION_TESTS
  else rbind (lookup_test NOTIFICATION_TESTS (args_test a))
             (fun config => Ok [(args_test a, config)]).

(** The command lines the script can run against [user@host]: through
    [sshpass] or plain [ssh], the connection check or a command under
    [sudo]. *)
Definition ssh_to (host user : string) (e : event) : Prop :=
  match e with
  | EvRun argv =>
      exists command,
        (command = probe \/ exists c, command = sudo c) /\
        ((exists password, argv = sshpass_argv host user password command) \/
         argv = plain_argv host user command)
  | _ => True
  end.

(** Events that leave the NAS and the terminal alone. *)
Definition offline (e : event) : Prop :=
  match e with
  | EvRun _ | EvGetpass _ | EvSleep _ => False
  | _ => True
  end.

End SshProps.

(* ================================================================== *)
(** * Further inputs for running the model *)
(* ================================================================== *)

Module MoreExamples.
Import Py Eff Props Examples.

(** A directory listed in alphabetical order. *)
Definition sorted_files : list (string * json) :=
  [("backup_failed", backup_failed); ("disk_failing", disk_failing);
   ("server_offline", server_offline)].

(** [--delay 0] *)
Definition no_delay : Replayer.args :=
  {| Replayer.args_webhook := Replayer.DEFAULT_WEBHOOK;
     Replayer.args_type := None;
     Replayer.args_category := None;
     Replayer.args_level := None;
     Replayer.args_delay := 0%float;
     Replayer.args_dry_run := false |}.

(** [--type '' --category ''] *)
Definition empty_filters : Replayer.args :=
  {| Replayer.args_webhook := Replayer.DEFAULT_WEBHOOK;
     Replayer.args_type := Some "";
     Replayer.args_category := Some "";
     Replayer.args_level := None;
     Replayer.args_delay := 1%float;
     Replayer.args_dry_run := false |}.

(** Files whose content is not an alert object. *)
Definition malformed_files : list (string * json) :=
  [("a_list", JList [JInt 1]); ("a_number", JInt 7);
   ("server_offline", server_offline)].

(** A webhook that accepts the first POST and answers the later ones
    with status 503. *)
Definition flaky_world : world :=
  {| w_post := fun h _ =>
       match posts h with
       | [] => PostReturns (Response 200 (Ok JNull) "")
       | _ :: _ => PostReturns (Response 503 (Ok JNull) "")
       end;
     w_sleep := fun _ _ => None;
     w_getpass := fun _ => "secret" |}.

(** A directory in which one file has no ["level"]. *)
Definition level_less_files : list (string * json) :=
  [("disk_failing",
    JObj [("category", JStr "Hardware");
          ("body", JObj [("event", JStr "disk failing")])]);
   ("server_offline", server_offline)].

(** A directory in which one file has no ["body"]. *)
Definition body_less_files : list (string * json) :=
  [("disk_failing",
    JObj [("level", JStr "WARN"); ("category", JStr "Hardware")]);
   ("server_offline", server_offline)].

End MoreExamples.

Module ApiExamples.
Import Py Eff Props ApiProps Examples.

(** A NAS that accepts the login and the logout, and answers every other
    call with [{"success": false}]. *)
Definition refusing_nas : world :=
  {| w_post := fun _ rq =>
       if is_auth rq then
         PostReturns (Response 200
           (Ok (JObj [("success", JBool true);
                      ("data", JObj [("sid", JStr "token")])])) "")
       else
         PostReturns (Response 200 (Ok (JObj [("success", JBool false)])) "");
     w_sleep := fun _ _ => None;
     w_getpass := fun _ => "secret" |}.

(** A proxy that answers every request with the JSON list [[1]]. *)
Definition list_world : world :=
  {| w_post := fun _ _ => PostReturns (Response 200 (Ok (JList [JInt 1])) "");
     w_sleep := fun _ _ => None;
     w_getpass := fun _ => "secret" |}.

(** Two webhook providers, the second without a profile id. *)
Definition two_providers : list json :=
  [JObj [("target_name", JStr "n8n"); ("profile_id", JInt 7)];
   JObj [("target_name", JStr "backup hook")]].

(** A NAS that answers every call with the same successful provider
    listing. *)
Definition two_providers_nas : world :=
  {| w_post := fun _ _ =>
       PostReturns (Response 200
         (Ok (JObj [("success", JBool true);
                    ("data", JObj [("list", JList two_providers)])])) "");
     w_sleep := fun _ _ => None;
     w_getpass := fun _ => "secret" |}.

End ApiExamples.

Module SshExamples.
Import Py Eff SshTool SshProps.

(** [str.strip] on ASCII text: blanks, tabs and line breaks go. *)
Definition is_space (c : ascii) : bool :=
  let n := nat_of_ascii c in
  ((9 <=? n) && (n <=? 13) || (n =? 32) || (28 <=? n) && (n <=? 31))%nat.

Fixpoint lstrip (s : string) : string :=
  match s with
  | EmptyString => EmptyString
  | String c s' => if is_space c then lstrip s' else s
  end.

Fixpoint rstrip (s : string) : string :=
  match s with
  | EmptyString => EmptyString
  | String c s' =>
      match rstrip s' with
      | EmptyString => if is_space c then EmptyString
                       else String c EmptyString
      | rest => String c rest
      end
  end.

Definition ascii_strip (s : string) : string := rstrip (lstrip s).

Definition ascii_upper_char (c : ascii) : ascii :=
  let n := nat_of_ascii c in
  if (97 <=? n)%nat && (n <=? 122)%nat then ascii_of_nat (n - 32) else c.

Fixpoint ascii_upper (s : string) : string :=
  match s with
  | EmptyString => EmptyString
  | String c s' => String (ascii_upper_char c) (ascii_upper s')
  end.

(** A NAS on which every command succeeds. *)
Definition obedient_nas : world :=
  {| w_run := fun _ _ => Completed 0 "Connection successful" "";
     w_sleep := fun _ _ => None;
     w_getpass := fun _ => "secret" |}.

(** The command line ends with the connection check. *)
Definition is_probe (argv : list text) : bool :=
  match last argv [] with
  | [Lit command] => command =? "echo 'Connection successful'"
  | _ => false
  end.

(** A NAS that accepts the connection and on which every other command
    fails. *)
Definition broken_nas : world :=
  {| w_run := fun _ argv =>
       if is_probe argv then Completed 0 "Connection successful" ""
       else Completed 1 "" "synowebapi: not found";
     w_sleep := fun _ _ => None;
     w_getpass := fun _ => "secret" |}.

(** A host that does not answer. *)
Definition silent_host : world :=
  {| w_run := fun _ _ => TimeoutExpired;
     w_sleep := fun _ _ => None;
     w_getpass := fun _ => "secret" |}.

(** The command line starts [sshpass]. *)
Definition is_sshpass (argv : list text) : bool :=
  match argv with
  | [Lit program] :: _ => program =? "sshpass"
  | _ => false
  end.

(** A workstation without [sshpass]. *)
Definition no_sshpass : world :=
  {| w_run := fun _ argv =>
       if is_sshpass argv then FileNotFoundError
       else Completed 0 "Connection successful" "";
     w_sleep := fun _ _ => None;
     w_getpass := fun _ => "secret" |}.

(** [--host nas --user admin --password secret] *)
Definition all_tests : args :=
  {| args_host := Some "nas"; args_user := Some "admin";
     args_password := Some "secret"; args_test := "all";
     args_custom := None; args_list := false; args_delay := 2%float;
     args_discover := false |}.

(** [--host nas --user admin --password secret --custom hello] *)
Definition custom_message : args :=
  {| args_host := Some "nas"; args_user := Some "admin";
     args_password := Some "secret"; args_test := "all";
     args_custom := Some "hello"; args_list := false; args_delay := 2%float;
     args_discover := false |}.

(** [--list] *)
Definition list_only : args :=
  {| args_host := None; args_user := None;
     args_password := None; args_test := "all";
     args_custom := None; args_list := true; args_delay := 2%float;
     args_discover := false |}.

End SshExamples.

(* ================================================================== *)
(** * Facts about traces and the effect monad *)
(* ================================================================== *)

Module EffFacts.
Import Py Eff Props.

Lemma posts_app t1 t2 : posts (t1 ++ t2) = posts t1 ++ posts t2.
Proof.
  induction t1 as [|e t1 IH]; simpl; [reflexivity|].
  destruct e; simpl; rewrite IH; reflexivity.
Qed.

Lemma calls_app t1 t2 : calls (t1 ++ t2) = calls t1 ++ calls t2.
Proof.
  induction t1 as [|e t1 IH]; simpl; [reflexivity|].
  destruct e; simpl; rewrite IH; reflexivity.
Qed.

Lemma prints_app t1 t2 : prints (t1 ++ t2) = prints t1 ++ prints t2.
Proof.
  induction t1 as [|e t1 IH]; simpl; [reflexivity|].
  destruct e; simpl; rewrite IH; reflexivity.
Qed.

Section Emits.
Context {S : Type} {TS : Traced S}.
Variable Q : event -> Prop.

Lemma emits_ret {A} (a : A) : emits Q (ret (S := S) a).
Proof. intros s. exists []. rewrite app_nil_r. auto. Qed.

Lemma emits_lift {A} (r : result A) : emits Q (lift (S := S) r).
Proof. intros s. exists []. rewrite app_nil_r. auto. Qed.

Lemma emits_bind {A B} (c : M S A) (k : A -> M S B) :
  emits Q c -> (forall a, emits Q (k a)) -> emits Q (bind c k).
Proof.
  intros Hc Hk s. unfold bind.
  destruct (Hc s) as (t1 & E1 & F1).
  destruct (c s) as [[a|e] s1]; simpl in *.
  - destruct (Hk a s1) as (t2 & E2 & F2).
    exists (t1 ++ t2). rewrite E2, E1, app_assoc. split; [reflexivity|].
    apply Forall_app; auto.
  - exists t1. auto.
Qed.

Lemma emits_emit (e : event) : Q e -> emits Q (emit (S := S) e).
Proof.
  intros He s. exists [e]. unfold emit; simpl.
  rewrite trace_of_with_trace. auto.
Qed.

Lemma emits_print (t : text) : Q (EvPrint t) -> emits Q (print (S := S) t).
Proof. apply emits_emit. Qed.

Lemma emits_try_except {A} (c : M S A) catches handler :
  emits Q c -> (forall e, emits Q (handler e)) ->
  emits Q (try_except c catches handler).
Proof.
  intros Hc Hh s. unfold try_except.
  destruct (Hc s) as (t1 & E1 & F1).
  destruct (c s) as [[a|e] s1]; simpl in *.
  - exists t1. auto.
  - destruct (catches e).
    + destruct (Hh e s1) as (t2 & E2 & F2).
      exists (t1 ++ t2). rewrite E2, E1, app_assoc. split; [reflexivity|].
      apply Forall_app; auto.
    + exists t1. auto.
Qed.

Lemma emits_try_finally {A} (c : M S A) (final : M S unit) :
  emits Q c -> emits Q final -> emits Q (try_finally c final).
Proof.
  intros Hc Hf s. unfold try_finally.
  destruct (Hc s) as (t1 & E1 & F1).
  destruct (c s) as [r s1]; simpl in *.
  destruct (Hf s1) as (t2 & E2 & F2).
  exists (t1 ++ t2).
  destruct (final s1) as [[u|e] s2]; simpl in *;
    rewrite E2, E1, app_assoc; (split; [reflexivity|]);
    apply Forall_app; auto.
Qed.

Lemma emits_for_each {X R} (xs : list X) (body : R -> X -> M S R) :
  (forall acc x, In x xs -> emits Q (body acc x)) ->
  forall acc, emits Q (for_each xs acc body).
Proof.
  induction xs as [|x xs IH]; intros Hb acc; simpl.
  - apply emits_ret.
  - apply emits_bind.
    + apply Hb. now left.
    + intros acc'. apply IH. intros a y Hy. apply Hb. now right.
Qed.

Lemma emits_requests_post (w : world) (rq : http_request) :
  Q (EvPost rq) -> emits Q (requests_post (S := S) w rq).
Proof.
  intros Hq s. exists [EvPost rq]. unfold requests_post.
  destruct (w_post w (trace_of s) rq); simpl;
    rewrite trace_of_with_trace; auto.
Qed.

Lemma emits_time_sleep (w : world) (d : float) :
  Q (EvSleep d) -> emits Q (time_sleep (S := S) w d).
Proof.
  intros Hq s. unfold time_sleep.
  destruct (w_sleep w (trace_of s) d); simpl.
  - exists []. rewrite app_nil_r. auto.
  - exists [EvSleep d]. rewrite trace_of_with_trace. auto.
Qed.

Lemma emits_getpass (w : world) (p : text) :
  Q (EvGetpass p) -> emits Q (getpass (S := S) w p).
Proof.
  intros Hq s. exists [EvGetpass p]. unfold getpass; simpl.
  rewrite trace_of_with_trace. auto.
Qed.
End Emits.

Lemma emits_weaken {S} {TS : Traced S} {A} (Q Q' : event -> Prop)
      (c : M S A) :
  (forall e, Q e -> Q' e) -> emits Q c -> emits Q' c.
Proof.
  intros HQ Hc s. destruct (Hc s) as (t & E & F).
  exists t. split; [exact E|]. eapply Forall_impl; eauto.
Qed.

Lemma emits_bind_lift {S} {TS : Traced S} {A B} Q (r : result A)
      (k : A -> M S B) :
  (forall a, r = Ok a -> emits Q (k a)) -> emits Q (bind (lift r) k).
Proof.
  intros Hk s. unfold bind, lift. destruct r as [a|e].
  - apply Hk. reflexivity.
  - exists []. simpl. rewrite app_nil_r. auto.
Qed.

End EffFacts.

(* ================================================================== *)
(** * Facts about dictionaries *)
(* ================================================================== *)

Module DictFacts.
Import Py.

Lemma dict_set_fresh d k v :
  ~ In k (dict_keys d) -> dict_set d k v = d ++ [(k, v)].
Proof.
  induction d as [|[k' v'] d IH]; simpl; intros Hk; [reflexivity|].
  destruct (String.eqb_spec k' k) as [->|Hne].
  - exfalso. apply Hk. now left.
  - rewrite IH; [reflexivity|]. intros Hin. apply Hk. now right.
Qed.

Lemma dict_set_keys_in d k v :
  In k (dict_keys d) -> dict_keys (dict_set d k v) = dict_keys d.
Proof.
  induction d as [|[k' v'] d IH]; simpl; intros Hk; [contradiction|].
  destruct (String.eqb_spec k' k) as [->|Hne]; simpl; [reflexivity|].
  f_equal. apply IH. destruct Hk; [contradiction|assumption].
Qed.

Lemma dict_set_nodup d k v :
  NoDup (dict_keys d) -> NoDup (dict_keys (dict_set d k v)).
Proof.
  intros Hd. destruct (in_dec string_dec k (dict_keys d)) as [Hin|Hnin].
  - rewrite dict_set_keys_in; assumption.
  - rewrite dict_set_fresh by assumption.
    unfold dict_keys. rewrite map_app. simpl.
    apply NoDup_app; [exact Hd | repeat constructor; intros [] | ].
    intros x Hx [<-|[]]. exact (Hnin Hx).
Qed.

Lemma fold_dict_set_nodup (files : list (string * json)) acc :
  NoDup (dict_keys acc) ->
  NoDup (dict_keys
           (fold_left (fun d f => dict_set d (fst f) (snd f)) files acc)).
Proof.
  revert acc. induction files as [|f files IH]; simpl; intros acc Hacc.
  - exact Hacc.
  - apply IH. now apply dict_set_nodup.
Qed.

Lemma dict_set_in d k v x : In x (dict_set d k v) -> In x d \/ x = (k, v).
Proof.
  induction d as [|[k' v'] d IH]; simpl.
  - intros [<-|[]]. now right.
  - destruct (String.eqb_spec k' k) as [->|_]; simpl.
    + intros [<-|H]; [now right | left; now right].
    + intros [<-|H]; [left; now left |].
      destruct (IH H); [left; now right | now right].
Qed.

End DictFacts.

(* ================================================================== *)
(** * send_mock_alerts.py: the filter and the sending loop *)
(* ================================================================== *)

Module ReplayerFacts.
Import Py Eff Props Examples EffFacts DictFacts.
Import Replayer.

Lemma load_mock_alerts_nodup files :
  NoDup (dict_keys (load_mock_alerts files)).
Proof. apply fold_dict_set_nodup. constructor. Qed.

(** The membership test of [send_alert] accepts exactly the four
    statuses. *)
Lemma accepted_spec status : accepted status = accepted_status status.
Proof.
  unfold accepted. cbn [existsb].
  destruct (Z.eqb_spec status 200) as [->|H0]; [reflexivity|].
  destruct (Z.eqb_spec status 201) as [->|H1]; [reflexivity|].
  destruct (Z.eqb_spec status 202) as [->|H2]; [reflexivity|].
  destruct (Z.eqb_spec status 204) as [->|H4]; [reflexivity|].
  cbn [orb]. unfold accepted_status.
  destruct status as [|p|p]; try reflexivity.
  repeat (destruct p as [p|p|]; try reflexivity; try congruence).
Qed.

Section Filter.
Variable lower : string -> string.
Variable a : args.

Lemma type_mismatch_false name :
  type_mismatch a name = false <->
  (forall t, supplied (args_type a) t -> name = t).
Proof.
  unfold type_mismatch, supplied. destruct (args_type a) as [t|].
  - destruct (String.eqb_spec t "") as [->|Hne]; simpl.
    + split; [|reflexivity]. intros _ t [E Ht]. inversion E; subst.
      now contradiction Ht.
    + destruct (String.eqb_spec name t) as [->|Hnt]; simpl.
      * split; [|reflexivity]. intros _ t' [E _]. now inversion E.
      * split; [discriminate|]. intros H. exfalso. apply Hnt.
        apply H. now split.
  - split; [|reflexivity]. intros _ t [E _]. discriminate.
Qed.

Lemma category_mismatch_ok alert :
  fixture_like alert ->
  exists skip,
    category_mismatch lower a alert = Ok skip /\
    (skip = false <->
     forall c, supplied (args_category a) c ->
               lower (fixture_category alert) = lower c).
Proof.
  intros (d & -> & Hcat).
  unfold category_mismatch, supplied. destruct (args_category a) as [c|].
  - destruct (String.eqb_spec c "") as [->|Hne]; simpl.
    + exists false. split; [reflexivity|]. split; [|reflexivity].
      intros _ c [E Hc]. inversion E; subst. now contradiction Hc.
    + assert (Hv : exists s, match dict_lookup d "category" with
                             | Some v => v | None => JStr "" end = JStr s
                             /\ fixture_category (JObj d) = s).
      { simpl. destruct Hcat as [->|[s ->]]; eauto. }
      destruct Hv as (s & Hv & Hs). simpl in Hs. rewrite Hs, Hv. simpl.
      exists (negb (lower s =? lower c)). split; [reflexivity|].
      destruct (String.eqb_spec (lower s) (lower c)) as [E|Hn]; simpl.
      * split; [|reflexivity]. intros _ c' [E' _].
        inversion E'; subst. exact E.
      * split; [discriminate|]. intros H. exfalso. apply Hn, H.
        now split.
  - exists false. split; [reflexivity|]. split; [|reflexivity].
    intros _ c [E _]. discriminate.
Qed.

Lemma level_mismatch_ok d :
  exists skip,
    level_mismatch a (JObj d) = Ok skip /\
    (skip = false <->
     forall l, supplied (args_level a) l ->
               fixture_level (JObj d) = Some l).
Proof.
  unfold level_mismatch, supplied. destruct (args_level a) as [l|].
  - destruct (String.eqb_spec l "") as [->|Hne]; simpl.
    + exists false. split; [reflexivity|]. split; [|reflexivity].
      intros _ l [E Hl]. inversion E; subst. now contradiction Hl.
    + eexists. split; [reflexivity|].
      destruct (dict_lookup d "level") as [[| | | |s| |]|]; simpl;
        try (split; [discriminate|]; intros H;
             specialize (H l (conj eq_refl Hne)); discriminate).
      destruct (String.eqb_spec s l) as [->|Hn]; simpl.
      * split; [|reflexivity]. intros _ l' [E _]. now inversion E.
      * split; [discriminate|]. intros H.
        specialize (H l (conj eq_refl Hne)). inversion H.
        now contradiction Hn.
  - exists false. split; [reflexivity|]. split; [|reflexivity].
    intros _ l [E _]. discriminate.
Qed.

Lemma keepb_satisfies name alert :
  fixture_like alert ->
  keepb lower a (name, alert) = true <-> satisfies lower a name alert.
Proof.
  intros Hf. unfold keepb, satisfies; simpl.
  destruct (category_mismatch_ok alert Hf) as (sc & -> & Hsc).
  destruct Hf as (d & -> & _).
  destruct (level_mismatch_ok d) as (sl & -> & Hsl).
  rewrite <- (type_mismatch_false name), <- Hsc, <- Hsl.
  destruct (type_mismatch a name), sc, sl; simpl; intuition congruence.
Qed.

Lemma filter_loop_ok items : forall acc,
  Forall (fun kv => fixture_like (snd kv)) items ->
  NoDup (dict_keys acc ++ dict_keys items) ->
  filter_loop lower a items acc = Ok (acc ++ filter (keepb lower a) items).
Proof.
  induction items as [|[name alert] items IH]; intros acc Hf Hnd; simpl.
  - now rewrite app_nil_r.
  - inversion Hf as [|? ? Hfa Hf']; subst. simpl in Hfa.
    assert (Hnd' : NoDup (dict_keys acc ++ dict_keys items)).
    { simpl in Hnd. now apply NoDup_remove_1 in Hnd. }
    unfold keepb; simpl.
    destruct (type_mismatch a name); simpl; [now apply IH|].
    destruct (category_mismatch_ok alert Hfa) as (sc & -> & _).
    destruct Hfa as (d & -> & _).
    destruct (level_mismatch_ok d) as (sl & -> & _). simpl.
    destruct sc; simpl; [now apply IH|].
    destruct sl; simpl; [now apply IH|].
    rewrite dict_set_fresh.
    + rewrite IH; [now rewrite <- app_assoc | assumption |].
      unfold dict_keys in *. rewrite map_app, <- app_assoc. exact Hnd.
    + simpl in Hnd. apply NoDup_remove_2 in Hnd.
      intros Hin. apply Hnd. apply in_or_app. now left.
Qed.

Lemma filter_alerts_ok alerts :
  Forall (fun kv => fixture_like (snd kv)) alerts ->
  NoDup (dict_keys alerts) ->
  filter_alerts lower a alerts = Ok (filter (keepb lower a) alerts).
Proof.
  intros Hf Hnd. unfold filter_alerts.
  now rewrite filter_loop_ok.
Qed.
End Filter.

Lemma getitem_body alert payload :
  py_getitem alert "body" = Ok payload -> fixture_body alert = Some payload.
Proof.
  destruct alert; simpl; try discriminate.
  destruct (dict_lookup kv "body"); [|discriminate].
  intros E. now inversion E.
Qed.

Lemma insert_item_perm x l : Permutation (insert_item x l) (x :: l).
Proof.
  induction l as [|y l IH]; simpl; [reflexivity|].
  destruct (fst x <=? fst y)%string; [reflexivity|].
  rewrite IH. apply perm_swap.
Qed.

Lemma sorted_items_perm d : Permutation (sorted_items d) d.
Proof.
  induction d as [|x d IH]; simpl; [reflexivity|].
  rewrite insert_item_perm. now constructor.
Qed.

Lemma insert_item_hdrel x y l :
  by_name y x -> HdRel by_name y l -> HdRel by_name y (insert_item x l).
Proof.
  intros Hyx Hl. destruct l as [|z l]; simpl.
  - now constructor.
  - destruct (fst x <=? fst z)%string; constructor; auto.
    now inversion Hl.
Qed.

Lemma insert_item_sorted x l :
  Sorted by_name l -> Sorted by_name (insert_item x l).
Proof.
  induction 1 as [|y l Hs IH Hhd]; simpl.
  - repeat constructor.
  - destruct (fst x <=? fst y)%string eqn:E.
    + constructor; [now constructor | now constructor].
    + constructor; [exact IH|]. apply insert_item_hdrel; [|exact Hhd].
      unfold by_name. destruct (String.leb_total (fst x) (fst y)); congruence.
Qed.

Lemma sorted_items_sorted d : Sorted by_name (sorted_items d).
Proof.
  induction d as [|x d IH]; simpl; [constructor|].
  now apply insert_item_sorted.
Qed.

Lemma sorted_items_in d x : In x (sorted_items d) <-> In x d.
Proof.
  split; apply Permutation_in;
    [apply sorted_items_perm | symmetry; apply sorted_items_perm].
Qed.

Section Posts.
Variable w : world.
Variable a : args.

(** Whatever the fixture and the world, a step posts at most the body of
    its own fixture. *)
Lemma send_alert_emits name alert :
  emits (posts_one_of (args_webhook a) [(name, alert)])
        (send_alert w (args_webhook a) alert name).
Proof.
  unfold send_alert. apply emits_bind_lift. intros payload Hp.
  apply getitem_body in Hp.
  apply emits_try_except.
  - apply emits_bind.
    + apply emits_requests_post. simpl. exists name, alert, payload.
      repeat split; simpl; auto.
    + intros r. destruct (accepted (status_code r));
        repeat (apply emits_bind; [|intros]);
        try apply emits_lift; try apply emits_print;
        try apply emits_ret; exact I.
  - intros e. repeat (apply emits_bind; [|intros]);
      try apply emits_lift; try apply emits_print;
      try apply emits_ret; exact I.
Qed.

Lemma send_step_emits filtered res name alert :
  emits (posts_one_of (args_webhook a) [(name, alert)])
        (send_step w a filtered res (name, alert)).
Proof.
  unfold send_step. destruct (args_dry_run a).
  - repeat (apply emits_bind; [|intros]);
      try apply emits_lift; try apply emits_print;
      try apply emits_ret; exact I.
  - apply emits_bind; [apply send_alert_emits|]. intros sent.
    apply emits_bind; [|intros; apply emits_ret].
    destruct (_ && _); [apply emits_time_sleep; exact I|apply emits_ret].
Qed.

Lemma send_loop_emits filtered items res :
  emits (posts_one_of (args_webhook a) items)
        (for_each items res (send_step w a filtered)).
Proof.
  apply emits_for_each. intros acc [name alert] Hin.
  apply (emits_weaken (posts_one_of (args_webhook a) [(name, alert)]));
    [|apply send_step_emits].
  intros [rq| | | |]; simpl; auto.
  intros (n & al & b & [E|[]] & Hb & Hrq). inversion E; subst n al.
  exists name, alert, b. auto.
Qed.
End Posts.

Lemma example_files_sendable :
  Forall (fun kv => sendable (snd kv)) example_files.
Proof.
  repeat constructor; eexists _, _, _; repeat split; reflexivity.
Qed.

End ReplayerFacts.

(* ================================================================== *)
(** * send_mock_alerts.py: what the filter selects (C5, C10) *)
(* ================================================================== *)

Module Filtering.
Import Py Eff Props Examples EffFacts DictFacts ReplayerFacts.
Import Replayer.

Lemma load_mock_alerts_in files x :
  In x (load_mock_alerts files) -> In x files.
Proof.
  unfold load_mock_alerts.
  assert (G : forall acc, In x (fold_left
              (fun alerts file => dict_set alerts (fst file) (snd file))
              files acc) -> In x acc \/ In x files).
  { induction files as [|f files IH]; simpl; intros acc H; [now left|].
    destruct (IH _ H) as [H'|H']; [|right; now right].
    destruct (dict_set_in _ _ _ _ H') as [H''| ->]; [now left|].
    right. left. now destruct f. }
  intros H. destruct (G [] H) as [[]|]; assumption.
Qed.

Section Soundness.
Variable lower : string -> string.
Variable a : args.

Lemma category_mismatch_sound alert :
  category_mismatch lower a alert = Ok false ->
  forall c, supplied (args_category a) c ->
            lower (fixture_category alert) = lower c.
Proof.
  unfold category_mismatch, supplied. intros H c [E Hc].
  rewrite E in H. destruct (String.eqb_spec c "") as [Hc'|_];
    [now contradiction Hc|]. simpl in H.
  destruct alert as [| | | | | |d]; simpl in H; try discriminate.
  simpl. destruct (dict_lookup d "category") as [[| | | |s| |]|];
    simpl in H; try discriminate.
  - destruct (String.eqb_spec (lower s) (lower c)) as [Heq|];
      [exact Heq | discriminate].
  - destruct (String.eqb_spec (lower "") (lower c)) as [Heq|];
      [exact Heq | discriminate].
Qed.

Lemma level_mismatch_sound alert :
  level_mismatch a alert = Ok false ->
  forall l, supplied (args_level a) l -> fixture_level alert = Some l.
Proof.
  unfold level_mismatch, supplied. intros H l [E Hl].
  rewrite E in H. destruct (String.eqb_spec l "") as [Hl'|_];
    [now contradiction Hl|]. simpl in H.
  destruct alert as [| | | | | |d]; simpl in H; try discriminate.
  simpl. destruct (dict_lookup d "level") as [[| | | |s| |]|];
    simpl in H; try discriminate.
  destruct (String.eqb_spec s l) as [Heq|];
    [now rewrite Heq | discriminate].
Qed.

Lemma filter_loop_sound items : forall acc res,
  filter_loop lower a items acc = Ok res ->
  forall x, In x res ->
    In x acc \/ (In x items /\ satisfies lower a (fst x) (snd x)).
Proof.
  induction items as [|[name alert] items IH]; simpl; intros acc res H x Hx.
  - inversion H; subst. now left.
  - destruct (type_mismatch a name) eqn:Ht.
    { destruct (IH _ _ H x Hx) as [|[? ?]]; [now left|right]. auto. }
    destruct (category_mismatch lower a alert) as [[|]|] eqn:Hc;
      simpl in H; try discriminate.
    { destruct (IH _ _ H x Hx) as [|[? ?]]; [now left|right]. auto. }
    destruct (level_mismatch a alert) as [[|]|] eqn:Hl;
      simpl in H; try discriminate.
    { destruct (IH _ _ H x Hx) as [|[? ?]]; [now left|right]. auto. }
    destruct (IH _ _ H x Hx) as [Hin|[? ?]]; [|right; auto].
    destruct (dict_set_in _ _ _ _ Hin) as [Hd | ->]; [now left|].
    right. split; [now left|]. simpl. repeat split.
    + now apply type_mismatch_false.
    + now apply category_mismatch_sound.
    + now apply level_mismatch_sound.
Qed.

Lemma filter_alerts_sound alerts filtered :
  filter_alerts lower a alerts = Ok filtered ->
  forall name alert, In (name, alert) filtered ->
    In (name, alert) alerts /\ satisfies lower a name alert.
Proof.
  intros H name alert Hin.
  destruct (filter_loop_sound _ _ _ H _ Hin) as [[]|]. assumption.
Qed.

(** Whatever the fixtures and the world, [main] posts only bodies of
    loaded fixtures that satisfy the filters. *)
Lemma main_emits w files :
  emits (posts_selected lower a (load_mock_alerts files))
        (main lower w a files).
Proof.
  unfold main. destruct (load_mock_alerts files) as [|x alerts] eqn:Hload.
  - apply emits_bind; [apply emits_print; exact I|intros; apply emits_ret].
  - apply emits_bind_lift. intros filtered Hf.
    destruct filtered as [|y filtered'] eqn:Hfl.
    + apply emits_bind; [apply emits_print; exact I|intros; apply emits_ret].
    + rewrite <- Hfl in *. clear Hfl.
      repeat (apply emits_bind; [apply emits_print; exact I|intros _]).
      apply emits_bind.
      { destruct (args_dry_run a);
          [apply emits_print; exact I | apply emits_ret]. }
      intros _. apply emits_bind.
      * apply (emits_weaken
                 (posts_one_of (args_webhook a) (sorted_items filtered)));
          [|apply send_loop_emits].
        intros [rq| | | |]; simpl; auto.
        intros (n & al & b & Hin & Hb & Hrq).
        apply (proj1 (sorted_items_in _ _)) in Hin.
        destruct (filter_alerts_sound _ _ Hf _ _ Hin).
        exists n, al, b. auto.
      * intros res.
        repeat (apply emits_bind; [apply emits_print; exact I|intros _]).
        apply emits_bind; [|intros; apply emits_ret].
        destruct (negb _); [apply emits_print; exact I | apply emits_ret].
Qed.
End Soundness.

(** On fixtures the filter can read, the loop returns exactly the loaded
    fixtures that satisfy the supplied predicates. *)
Lemma filter_alerts_exact (lower : string -> string) (a : args)
      (files : list (string * json)) :
  Forall (fun file => fixture_like (snd file)) files ->
  exists filtered,
    filter_alerts lower a (load_mock_alerts files) = Ok filtered /\
    (forall name alert,
        In (name, alert) filtered <->
        In (name, alert) (load_mock_alerts files) /\
        satisfies lower a name alert).
Proof.
  intros Hfiles.
  assert (Hlike : Forall (fun kv => fixture_like (snd kv))
                         (load_mock_alerts files)).
  { apply Forall_forall. intros x Hx. apply load_mock_alerts_in in Hx.
    rewrite Forall_forall in Hfiles. now apply Hfiles. }
  exists (filter (keepb lower a) (load_mock_alerts files)).
  split; [apply filter_alerts_ok; [exact Hlike|apply load_mock_alerts_nodup]|].
  intros name alert. rewrite filter_In.
  split; intros [Hin Hk]; split; auto;
    apply keepb_satisfies; auto;
    rewrite Forall_forall in Hlike; exact (Hlike _ Hin).
Qed.

(** C5. For every set of loaded fixtures and every combination of the
    [--type], [--category] and [--level] options, the filtered subset is
    exactly the set of loaded fixtures that satisfy all the supplied
    predicates (exact name, category equal once lowercased, exact level),
    and every POST of the run carries the body of a fixture of that subset.
    An option counts as supplied when it is given and not the empty
    string, which is what the code tests. *)
Theorem filter_selects_exactly (lower : string -> string) (a : args)
        (files : list (string * json)) :
  Forall (fun file => fixture_like (snd file)) files ->
  exists filtered,
    filter_alerts lower a (load_mock_alerts files) = Ok filtered /\
    (forall name alert,
        In (name, alert) filtered <->
        In (name, alert) (load_mock_alerts files) /\
        satisfies lower a name alert) /\
    (forall w rq,
        In rq (posts (snd (run lower w a files))) ->
        exists name alert body,
          In (name, alert) filtered /\
          fixture_body alert = Some body /\
          rq = webhook_request (args_webhook a) body).
Proof.
  intros Hfiles.
  destruct (filter_alerts_exact lower a files Hfiles)
    as (filtered & Hok & Hiff).
  exists filtered. split; [exact Hok|]. split; [exact Hiff|].
  intros w rq Hrq. unfold run in Hrq.
  destruct (main_emits lower a w files []) as (t & Et & Ft).
  destruct (main lower w a files []) as [r tr]. simpl in *. subst tr.
  rewrite Forall_forall in Ft.
  assert (Hev : In (EvPost rq) t).
  { clear -Hrq. induction t as [|e t IH]; simpl in *; [contradiction|].
    destruct e; simpl in Hrq; auto. destruct Hrq as [->|]; auto. }
  destruct (Ft _ Hev) as (n & al & b & Hin & Hsat & Hb & E).
  exists n, al, b. repeat split; auto. apply Hiff. auto.
Qed.

Lemma example_files_fixture_like :
  Forall (fun file => fixture_like (snd file)) example_files.
Proof.
  repeat constructor; eexists; (split; [reflexivity|]); right; eexists;
    reflexivity.
Qed.

Lemma filter_selects_exactly_witness :
  Forall (fun file => fixture_like (snd file)) example_files /\
  exists filtered,
    Replayer.filter_alerts ascii_lower level_error
                           (Replayer.load_mock_alerts example_files)
    = Ok filtered /\
    (forall name alert,
        In (name, alert) filtered <->
        In (name, alert) (Replayer.load_mock_alerts example_files) /\
        satisfies ascii_lower level_error name alert) /\
    (forall w rq,
        In rq (posts (snd (Replayer.run ascii_lower w level_error
                                        example_files))) ->
        exists name alert body,
          In (name, alert) filtered /\
          fixture_body alert = Some body /\
          rq = webhook_request (Replayer.args_webhook level_error) body).
Proof.
  split; [exact example_files_fixture_like|].
  exact (filter_selects_exactly ascii_lower level_error example_files
           example_files_fixture_like).
Defined.

Lemma opt_truthy_supplied o :
  opt_truthy o = true <-> exists v, supplied o v.
Proof.
  unfold opt_truthy, supplied. destruct o as [s|].
  - destruct (String.eqb_spec s "") as [E|N]; simpl.
    + split; [discriminate|]. intros (v & Ev & Hv). inversion Ev; subst.
      now contradiction Hv.
    + split; [|reflexivity]. intros _. exists s. now split.
  - split; [discriminate|]. intros (v & Ev & _). discriminate.
Qed.

(** C10. Filtering is total on fixtures with missing fields.  A fixture
    without a category is compared as if its category were the empty
    string, so a supplied category filter always skips it; a fixture
    without a level is skipped by a supplied level filter; the filter loop
    returns without raising, and keeps such a fixture exactly when it
    satisfies the predicates that are supplied. *)
Theorem filtering_total_on_missing_fields (lower : string -> string)
        (a : args) (files : list (string * json)) :
  (forall c, c <> "" -> lower c <> lower "") ->
  Forall (fun file => fixture_like (snd file)) files ->
  exists filtered,
    filter_alerts lower a (load_mock_alerts files) = Ok filtered /\
    forall name d, In (name, JObj d) (load_mock_alerts files) ->
      (dict_lookup d "category" = None ->
         fixture_category (JObj d) = "" /\
         category_mismatch lower a (JObj d)
           = Ok (opt_truthy (args_category a)) /\
         (opt_truthy (args_category a) = true ->
          ~ In (name, JObj d) filtered)) /\
      (dict_lookup d "level" = None ->
         level_mismatch a (JObj d) = Ok (opt_truthy (args_level a)) /\
         (opt_truthy (args_level a) = true ->
          ~ In (name, JObj d) filtered)) /\
      (In (name, JObj d) filtered <-> satisfies lower a name (JObj d)).
Proof.
  intros Hlower Hfiles.
  destruct (filter_alerts_exact lower a files Hfiles)
    as (filtered & Hok & Hiff).
  exists filtered. split; [exact Hok|]. intros name d Hin.
  split; [|split].
  - intros Hnone. split; [simpl; now rewrite Hnone|]. split.
    + unfold category_mismatch, opt_truthy.
      destruct (args_category a) as [c|]; [|reflexivity].
      destruct (String.eqb_spec c "") as [E|N]; simpl; [reflexivity|].
      rewrite Hnone. simpl.
      destruct (String.eqb_spec (lower "") (lower c)) as [E|_];
        [|reflexivity].
      exfalso. apply (Hlower c N). now symmetry.
    + intros Hs Hf. apply opt_truthy_supplied in Hs. destruct Hs as (c & Hc).
      apply Hiff in Hf. destruct Hf as (_ & _ & Hcat & _).
      specialize (Hcat c Hc). simpl in Hcat. rewrite Hnone in Hcat.
      destruct Hc as [_ Hc]. apply (Hlower c Hc). now symmetry.
  - intros Hnone. split.
    + unfold level_mismatch, opt_truthy.
      destruct (args_level a) as [l|]; [|reflexivity].
      destruct (String.eqb_spec l "") as [E|N]; simpl; [reflexivity|].
      now rewrite Hnone.
    + intros Hs Hf. apply opt_truthy_supplied in Hs. destruct Hs as (l & Hl).
      apply Hiff in Hf. destruct Hf as (_ & _ & _ & Hlev).
      specialize (Hlev l Hl). simpl in Hlev. rewrite Hnone in Hlev.
      discriminate.
  - rewrite Hiff. tauto.
Qed.

Lemma ascii_lower_keeps_nonempty c : c <> "" -> ascii_lower c <> ascii_lower "".
Proof. destruct c; [congruence | discriminate]. Qed.

Lemma partial_files_fixture_like :
  Forall (fun file => fixture_like (snd file)) partial_files.
Proof.
  repeat constructor; eexists; (split; [reflexivity|]);
    first [left; reflexivity | right; eexists; reflexivity].
Qed.

Lemma filtering_total_on_missing_fields_witness :
  (forall c, c <> "" -> ascii_lower c <> ascii_lower "") /\
  Forall (fun file => fixture_like (snd file)) partial_files /\
  exists filtered,
    Replayer.filter_alerts ascii_lower storage_errors
                           (Replayer.load_mock_alerts partial_files)
    = Ok filtered /\
    forall name d,
      In (name, JObj d) (Replayer.load_mock_alerts partial_files) ->
      (dict_lookup d "category" = None ->
         fixture_category (JObj d) = "" /\
         Replayer.category_mismatch ascii_lower storage_errors (JObj d)
           = Ok (opt_truthy (Replayer.args_category storage_errors)) /\
         (opt_truthy (Replayer.args_category storage_errors) = true ->
          ~ In (name, JObj d) filtered)) /\
      (dict_lookup d "level" = None ->
         Replayer.level_mismatch storage_errors (JObj d)
           = Ok (opt_truthy (Replayer.args_level storage_errors)) /\
         (opt_truthy (Replayer.args_level storage_errors) = true ->
          ~ In (name, JObj d) filtered)) /\
      (In (name, JObj d) filtered <->
       satisfies ascii_lower storage_errors name (JObj d)).
Proof.
  split; [exact ascii_lower_keeps_nonempty|].
  split; [exact partial_files_fixture_like|].
  exact (filtering_total_on_missing_fields ascii_lower storage_errors
           partial_files ascii_lower_keeps_nonempty
           partial_files_fixture_like).
Defined.

End Filtering.

(* ================================================================== *)
(** * send_mock_alerts.py: dry-run mode *)
(* ================================================================== *)

Module DryRun.
Import Py Eff Props Examples EffFacts DictFacts ReplayerFacts.
Import Replayer.

Section Dry.
Variable w : world.
Variable a : args.
Hypothesis Hdry : args_dry_run a = true.

Lemma dry_step filtered res item t :
  sendable (snd item) ->
  send_step w a filtered res item t
  = (Ok (Results (S (success res)) (failed res)), t ++ dry_events item).
Proof.
  destruct item as [name alert]. simpl.
  intros (d & level & body & -> & Hl & Hb).
  unfold send_step, dry_events, level_of, body_of. rewrite Hdry.
  unfold bind, lift, print, emit, ret. simpl. rewrite Hl, Hb. simpl.
  now rewrite <- app_assoc.
Qed.

Lemma dry_loop filtered items : forall res t,
  Forall (fun kv => sendable (snd kv)) items ->
  for_each items res (send_step w a filtered) t
  = (Ok (Results (List.length items + success res) (failed res)),
     t ++ flat_map dry_events items).
Proof.
  induction items as [|item items IH]; intros res t Hs.
  - simpl. unfold ret. rewrite app_nil_r. now destruct res.
  - inversion Hs as [|? ? Hi Hs']; subst.
    cbn [for_each]. unfold bind at 1. rewrite dry_step by assumption.
    rewrite IH by assumption. cbn [success failed flat_map].
    rewrite <- app_assoc, Nat.add_succ_r. reflexivity.
Qed.
End Dry.

Lemma would_send_lines items :
  filter is_would_send (prints (flat_map dry_events items))
  = map (fun kv => would_send_line (fst kv) (level_of (snd kv))) items.
Proof.
  induction items as [|item items IH]; simpl; [reflexivity|].
  now rewrite IH.
Qed.

Lemma posts_dry_events items : posts (flat_map dry_events items) = [].
Proof.
  induction items as [|item items IH]; [reflexivity|].
  unfold dry_events in *. simpl. exact IH.
Qed.

Lemma dry_main (lower : string -> string) (w : world) (a : args)
      (files : list (string * json)) (filtered : dict) :
  args_dry_run a = true ->
  filter_alerts lower a (load_mock_alerts files) = Ok filtered ->
  filtered <> [] ->
  Forall (fun kv => sendable (snd kv)) filtered ->
  exists header footer,
    main lower w a files []
    = (Ok 0%Z, header ++ flat_map dry_events (sorted_items filtered) ++ footer)
    /\ posts header = [] /\ posts footer = []
    /\ filter is_would_send (prints header) = []
    /\ filter is_would_send (prints footer) = [].
Proof.
  intros Hdry Hf Hne Hs. unfold main.
  destruct (load_mock_alerts files) as [|x alerts] eqn:Hload.
  { exfalso. apply Hne. unfold filter_alerts in Hf. simpl in Hf.
    congruence. }
  unfold bind at 1. unfold lift at 1. rewrite Hf.
  destruct filtered as [|y fl]; [now contradiction Hne|].
  cbv iota. remember (y :: fl) as filtered eqn:Hfl. rewrite Hdry.
  assert (Hs' : Forall (fun kv => sendable (snd kv)) (sorted_items filtered)).
  { apply Forall_forall. intros kv Hkv.
    apply (proj1 (sorted_items_in _ _)) in Hkv.
    rewrite Forall_forall in Hs. now apply Hs. }
  unfold bind, print, emit, ret. cbn [trace_of with_trace Traced_trace].
  rewrite (dry_loop w a Hdry filtered _ _ _ Hs').
  cbn [negb failed success Nat.eqb fst snd exit_code].
  repeat rewrite <- app_assoc. cbn [app].
  match goal with
  | |- exists h f, (_, ?e1 :: ?e2 :: ?e3 :: ?e4 :: ?e5 :: _ ++ ?f') = _ /\ _ =>
      exists [e1; e2; e3; e4; e5], f'
  end.
  repeat split; reflexivity.
Qed.

End DryRun.

(* ================================================================== *)
(** * send_mock_alerts.py: sending for real (C4) *)
(* ================================================================== *)

Module Sending.
Import Py Eff Props Examples EffFacts DictFacts ReplayerFacts.
Import Replayer.

Section Send.
Variable w : world.
Variable a : args.
Hypothesis Hsend : args_dry_run a = false.
Hypothesis Htransport : forall h rq, transport_outcome (w_post w h rq).
Hypothesis Hsleep : forall h, w_sleep w h (args_delay a) = None.

Lemma send_alert_run url name d level body t :
  dict_lookup d "level" = Some level ->
  dict_lookup d "body" = Some body ->
  exists line,
    send_alert w url (JObj d) name t
    = (Ok (post_accepted (w_post w t (webhook_request url body))),
       t ++ [EvPost (webhook_request url body); EvPrint line]).
Proof.
  intros Hl Hb. unfold send_alert.
  unfold bind at 1. unfold lift at 1. simpl py_getitem. rewrite Hb.
  unfold try_except, bind, requests_post, lift, print, emit, ret.
  cbn [trace_of with_trace Traced_trace py_getitem].
  fold (webhook_request url body). rewrite Hl.
  pose proof (Htransport t (webhook_request url body)) as Ht.
  destruct (w_post w t (webhook_request url body)) as [e|r]; simpl in *.
  - rewrite Ht. rewrite <- app_assoc. eexists. reflexivity.
  - rewrite <- accepted_spec.
    destruct (accepted (status_code r)); rewrite <- app_assoc;
      eexists; reflexivity.
Qed.

Lemma send_step_run filtered res name alert t :
  sendable alert ->
  exists body t',
    fixture_body alert = Some body /\
    send_step w a filtered res (name, alert) t
    = (Ok (counted (w_post w t (webhook_request (args_webhook a) body)) res),
       t ++ EvPost (webhook_request (args_webhook a) body) :: t') /\
    posts t' = [].
Proof.
  intros (d & level & body & -> & Hl & Hb).
  destruct (send_alert_run (args_webhook a) name d level body t Hl Hb)
    as (line & Hrun).
  exists body. unfold send_step. rewrite Hsend.
  unfold bind at 1. rewrite Hrun. unfold counted.
  destruct (PrimFloat.ltb 0 (args_delay a) && negb (name =? last_key filtered)).
  - unfold bind, time_sleep, ret. rewrite Hsleep.
    cbn [trace_of with_trace Traced_trace].
    rewrite <- !app_assoc. eexists. split; [exact Hb|].
    split; [simpl; destruct (post_accepted _); reflexivity|reflexivity].
  - unfold bind, ret. eexists. split; [exact Hb|].
    split; [simpl; destruct (post_accepted _); reflexivity|reflexivity].
Qed.

Lemma send_loop_run filtered items : forall res t,
  Forall (fun kv => sendable (snd kv)) items ->
  exists res' t',
    for_each items res (send_step w a filtered) t = (Ok res', t ++ t') /\
    posts t' = map (fun kv => webhook_request (args_webhook a)
                                              (body_of (snd kv))) items /\
    (success res' + failed res'
     = success res + failed res + List.length items)%nat.
Proof.
  induction items as [|[name alert] items IH]; intros res t Hs.
  - exists res, []. simpl. unfold ret. rewrite app_nil_r. auto.
  - inversion Hs as [|? ? Hi Hs']; subst. simpl in Hi.
    destruct (send_step_run filtered res name alert t Hi)
      as (body & t1 & Hbody & Hstep & Hp1).
    cbn [for_each]. unfold bind at 1. rewrite Hstep.
    destruct (IH (counted (w_post w t (webhook_request (args_webhook a) body)) res)
                 (t ++ EvPost (webhook_request (args_webhook a) body) :: t1) Hs')
      as (res' & t2 & Hloop & Hlen & Hsum).
    rewrite Hloop. exists res', (EvPost (webhook_request (args_webhook a) body) :: t1 ++ t2).
    split; [now rewrite <- app_assoc|]. split.
    + cbn [posts map snd]. rewrite posts_app, Hp1, Hlen.
      unfold body_of. now rewrite Hbody.
    + rewrite Hsum. unfold counted. destruct (post_accepted _); simpl; lia.
Qed.
End Send.

(** C4 (the code departs from the claim).  With two fixtures loaded in the
    order [disk_failing], [backup_failed] and a delay of one second, the
    run sends [backup_failed], then [disk_failing] at once, and pauses
    after this last send: the pause is skipped after the fixture that was
    loaded last, not after the one that is sent last. *)
Theorem delay_skipped_after_last_loaded_fixture :
  schedule (snd (Replayer.run ascii_lower accepting_world send_all
                              unsorted_files))
  = [fixture_body backup_failed; fixture_body disk_failing; None].
Proof. vm_compute. reflexivity. Qed.

End Sending.

(* ================================================================== *)
(** * trigger_alerts_api.py: one request (C8) *)
(* ================================================================== *)

Module Requests.
Import Py Eff Props ApiProps Examples EffFacts.
Import ApiClient.

Section Request.
Variable w : world.
Variable self : trigger.

Lemma raise_for_status_cases r :
  (raise_for_status r = Ok tt /\ ~ (400 <= status_code r < 600)%Z) \/
  (raise_for_status r = Raise (Exn HTTPError (http_error r)) /\
   (400 <= status_code r < 600)%Z).
Proof.
  unfold raise_for_status.
  destruct (Z.leb_spec 400 (status_code r));
    destruct (Z.ltb_spec (status_code r) 600); simpl;
    [right | left | left | left]; split; auto; lia.
Qed.

(** One call of [_request]: exactly one POST, and the answer of the
    world turned into the returned value. *)
Lemma _request_run api path method version params s :
  let rq := request_for self api path method version params (session_id s) in
  _request w self api path method version params s
  = (request_result (w_post w (st_trace s) rq),
     State (st_trace s ++ [EvPost rq]) (session_id s)).
Proof.
  intros rq. unfold _request, bind, get_session_id, try_except,
    requests_post, lift, ret.
  cbn [trace_of with_trace Traced_state].
  fold (request_data api method version params (session_id s)).
  fold (request_for self api path method version params (session_id s)).
  fold rq. unfold request_result.
  destruct (w_post w (st_trace s) rq) as [e|r];
    [now destruct (is_request_exception e)|].
  destruct (raise_for_status r) as [[]|e] eqn:Hr.
  - destruct (json_body r) as [j|e]; [reflexivity|].
    now destruct (is_request_exception e).
  - unfold raise_for_status in Hr.
    destruct ((400 <=? status_code r)%Z && (status_code r <? 600)%Z);
      inversion Hr; subst. reflexivity.
Qed.
End Request.

(** C8. Every request of the client goes through [_request].  When the
    exchange fails at the transport level (connection error, timeout, HTTP
    error status), [_request] returns, without raising, the Call Result
    [{"success": False, "error": <reason>}], where the reason is the text
    of the failure. *)
Theorem transport_failure_becomes_call_result
        (w : world) (self : trigger) (api path method : string)
        (version : Z) (params : list (string * json)) (s : state)
        (reason : string) :
  transport_failure
    (w_post w (st_trace s)
            (request_for self api path method version params (session_id s)))
    reason ->
  fst (_request w self api path method version params s)
  = Ok (JObj [("success", JBool false); ("error", JStr reason)]).
Proof.
  intros Hfail. rewrite _request_run. cbn [fst].
  unfold transport_failure, request_result in *.
  destruct (w_post w _ _) as [e|r].
  - destruct Hfail as [Hcls ->]. unfold is_request_exception.
    destruct Hcls as [-> | [-> | [-> | ->]]]; reflexivity.
  - destruct Hfail as [Hst ->].
    destruct (raise_for_status_cases r) as [[_ Hn]|[-> _]];
      [contradiction | reflexivity].
Qed.

Lemma transport_failure_becomes_call_result_witness :
  transport_failure
    (w_post unreachable_world (ApiClient.st_trace ApiClient.initial)
            (request_for nas "SYNO.Core.Notification.Push" "entry.cgi"
                         "send_test" 1 []
                         (ApiClient.session_id ApiClient.initial)))
    "connection refused" /\
  fst (ApiClient._request unreachable_world nas
         "SYNO.Core.Notification.Push" "entry.cgi" "send_test" 1 []
         ApiClient.initial)
  = Ok (JObj [("success", JBool false);
              ("error", JStr "connection refused")]).
Proof.
  assert (H : transport_failure
                (w_post unreachable_world (ApiClient.st_trace ApiClient.initial)
                   (request_for nas "SYNO.Core.Notification.Push" "entry.cgi"
                      "send_test" 1 []
                      (ApiClient.session_id ApiClient.initial)))
                "connection refused").
  { simpl. split; [left; reflexivity | reflexivity]. }
  split; [exact H|].
  exact (transport_failure_becomes_call_result unreachable_world nas
           "SYNO.Core.Notification.Push" "entry.cgi" "send_test" 1 []
           ApiClient.initial "connection refused" H).
Defined.

End Requests.

(* ================================================================== *)
(** * trigger_alerts_api.py: what the session operations emit *)
(* ================================================================== *)

Module Quiet.
Import Py Eff Props ApiProps Examples EffFacts Requests.
Import ApiClient.

Section Combinators.
Variable Q : event -> Prop.

Lemma quiet_ret {A} (a : A) : quiet Q (ret a).
Proof. intros s. exists []. simpl. rewrite app_nil_r. auto. Qed.

Lemma quiet_lift {A} (r : result A) : quiet Q (lift r).
Proof. intros s. exists []. simpl. rewrite app_nil_r. auto. Qed.

Lemma quiet_bind {A B} (c : M state A) (k : A -> M state B) :
  quiet Q c -> (forall a, quiet Q (k a)) -> quiet Q (bind c k).
Proof.
  intros Hc Hk s. unfold bind.
  destruct (Hc s) as (t1 & E1 & S1 & F1).
  destruct (c s) as [[a|e] s1]; simpl in *.
  - destruct (Hk a s1) as (t2 & E2 & S2 & F2).
    exists (t1 ++ t2). rewrite E2, E1, S2, S1, app_assoc.
    repeat split. apply Forall_app; auto.
  - exists t1. auto.
Qed.

Lemma quiet_emit (e : event) : Q e -> quiet Q (emit e).
Proof. intros He s. exists [e]. simpl. auto. Qed.

Lemma quiet_print (t : text) : Q (EvPrint t) -> quiet Q (print t).
Proof. apply quiet_emit. Qed.

Lemma quiet_for_each {X R} (xs : list X) (body : R -> X -> M state R) :
  (forall acc x, quiet Q (body acc x)) ->
  forall acc, quiet Q (for_each xs acc body).
Proof.
  intros Hb. induction xs as [|x xs IH]; intros acc; simpl.
  - apply quiet_ret.
  - apply quiet_bind; [apply Hb | intros acc'; apply IH].
Qed.

Lemma quiet_time_sleep (w : world) (d : float) :
  Q (EvSleep d) -> quiet Q (time_sleep w d).
Proof.
  intros Hq s. unfold time_sleep.
  destruct (w_sleep w (trace_of s) d); simpl.
  - exists []. rewrite app_nil_r. auto.
  - exists [EvSleep d]. auto.
Qed.

Lemma quiet_request (w : world) (self : trigger) api path method version
      params :
  (forall sid, Q (EvPost (request_for self api path method version
                                      params sid))) ->
  quiet Q (_request w self api path method version params).
Proof.
  intros Hq s. rewrite _request_run. simpl. eexists. split; [reflexivity|].
  split; [reflexivity|]. constructor; auto.
Qed.
End Combinators.

Lemma quiet_weaken {A} (Q Q' : event -> Prop) (c : M state A) :
  (forall e, Q e -> Q' e) -> quiet Q c -> quiet Q' c.
Proof.
  intros HQ Hc s. destruct (Hc s) as (t & E & S' & F).
  exists t. repeat split; auto. eapply Forall_impl; eauto.
Qed.

(** The API name of a request built by [_request], for each parameter
    list the client uses. *)
Ltac api_of_request :=
  intros; unfold allowed, api_of, form_field, request_for, request_data;
  cbn [rq_body];
  match goal with
  | |- context [truthy ?sid] => destruct (truthy sid)
  end; simpl; assumption.

Ltac quiet_step :=
  first
    [ apply quiet_ret
    | apply quiet_lift
    | apply quiet_print; exact I
    | apply quiet_emit; simpl; assumption
    | apply quiet_time_sleep; exact I
    | apply quiet_request; api_of_request
    | apply quiet_for_each; intros
    | apply quiet_bind; [|intros]
    | match goal with
      | |- quiet _ (if ?b then _ else _) => destruct b
      | |- quiet _ (let (_, _) := ?x in _) => destruct x
      end ].

Ltac quiet_auto := repeat quiet_step.

Section Operations.
Variable lower : string -> string.
Variable w : world.
Variable self : trigger.
Variable okcall : string -> bool.
Variable okapi : option json -> bool.
Let Q := allowed okcall okapi.

Lemma quiet_test_push_notification :
  okcall "test_push_notification" = true ->
  okapi (Some (JStr "SYNO.Core.Notification.Push")) = true ->
  quiet Q (test_push_notification w self).
Proof. intros. unfold test_push_notification, report. quiet_auto. Qed.

Lemma quiet_test_webhook_notification profile_id :
  okcall "test_webhook_notification" = true ->
  okapi (Some (JStr "SYNO.Core.Notification.Push.Webhook.Provider")) = true ->
  quiet Q (test_webhook_notification w self profile_id).
Proof. intros. unfold test_webhook_notification, report. quiet_auto. Qed.

Lemma quiet_list_webhook_providers :
  okcall "list_webhook_providers" = true ->
  okapi (Some (JStr "SYNO.Core.Notification.Push.Webhook.Provider")) = true ->
  quiet Q (list_webhook_providers w self).
Proof. intros. unfold list_webhook_providers. quiet_auto. Qed.

Lemma quiet_test_sms_notification :
  okcall "test_sms_notification" = true ->
  okapi (Some (JStr "SYNO.Core.Notification.SMS")) = true ->
  quiet Q (test_sms_notification w self).
Proof. intros. unfold test_sms_notification, report. quiet_auto. Qed.

Lemma quiet_get_system_health :
  okcall "get_system_health" = true ->
  okapi (Some (JStr "SYNO.Core.System.Status")) = true ->
  quiet Q (get_system_health w self).
Proof. intros. unfold get_system_health, report. quiet_auto. Qed.

Lemma quiet_get_active_notifications :
  okcall "get_active_notifications" = true ->
  okapi (Some (JStr "SYNO.Core.DSMNotify")) = true ->
  quiet Q (get_active_notifications w self).
Proof. intros. unfold get_active_notifications. quiet_auto. Qed.

Lemma quiet_list_backup_tasks :
  okcall "list_backup_tasks" = true ->
  okapi (Some (JStr "SYNO.Backup.Task")) = true ->
  quiet Q (list_backup_tasks w self).
Proof. intros. unfold list_backup_tasks. quiet_auto. Qed.

Lemma quiet_get_notification_config :
  okcall "get_notification_config" = true ->
  okapi (Some (JStr "SYNO.Core.Notification.Push.Conf")) = true ->
  okapi (Some (JStr "SYNO.Core.Notification.Mail.Conf")) = true ->
  okapi (Some (JStr "SYNO.Core.Notification.Webhook")) = true ->
  quiet Q (get_notification_config w self).
Proof. intros. unfold get_notification_config. quiet_auto. Qed.

Lemma quiet_discover_notification_apis :
  okcall "discover_notification_apis" = true ->
  okcall "get_api_info" = true ->
  okapi (Some (JStr "SYNO.API.Info")) = true ->
  quiet Q (discover_notification_apis lower w self).
Proof.
  intros. unfold discover_notification_apis, get_api_info. quiet_auto.
Qed.

Lemma quiet_run_all_tests delay :
  okcall "run_all_tests" = true ->
  okcall "list_webhook_providers" = true ->
  okcall "test_webhook_notification" = true ->
  okcall "test_push_notification" = true ->
  okcall "test_sms_notification" = true ->
  okcall "get_system_health" = true ->
  okcall "get_active_notifications" = true ->
  okapi (Some (JStr "SYNO.Core.Notification.Push.Webhook.Provider")) = true ->
  okapi (Some (JStr "SYNO.Core.Notification.Push")) = true ->
  okapi (Some (JStr "SYNO.Core.Notification.SMS")) = true ->
  okapi (Some (JStr "SYNO.Core.System.Status")) = true ->
  okapi (Some (JStr "SYNO.Core.DSMNotify")) = true ->
  quiet Q (run_all_tests w self delay).
Proof.
  intros. unfold run_all_tests.
  apply quiet_bind; [quiet_auto|]. intros _.
  apply quiet_bind; [now apply quiet_list_webhook_providers|].
  intros providers.
  apply quiet_bind; [quiet_auto|]. intros ok.
  apply quiet_bind.
  { destruct (truthy ok); [|apply quiet_ret].
    apply quiet_bind; [quiet_auto|]. intros data.
    apply quiet_bind; [quiet_auto|]. intros provider_list.
    apply quiet_bind; [quiet_auto|]. intros ps.
    apply quiet_for_each. intros results provider.
    apply quiet_bind; [quiet_auto|]. intros profile_id.
    apply quiet_bind; [now apply quiet_test_webhook_notification|].
    intros r. quiet_auto. }
  intros results.
  apply quiet_bind; [now apply quiet_test_push_notification|]. intros r1.
  apply quiet_bind; [quiet_auto|]. intros _.
  apply quiet_bind; [now apply quiet_test_sms_notification|]. intros r2.
  apply quiet_bind; [quiet_auto|]. intros _.
  apply quiet_bind; [now apply quiet_get_system_health|]. intros r3.
  apply quiet_bind; [now apply quiet_get_active_notifications|]. intros r4.
  apply quiet_ret.
Qed.
End Operations.

End Quiet.

(* ================================================================== *)
(** * trigger_alerts_api.py: the session (C2, C3) *)
(* ================================================================== *)

Module Session.
Import Py Eff Props ApiProps Examples EffFacts Requests Quiet.
Import ApiClient.

Lemma allowed_in_session e : allowed session_call session_api e -> in_session e.
Proof.
  destruct e as [rq| | | |m]; simpl; auto.
  - unfold is_auth, session_api. destruct (api_of rq) as [[]|]; auto.
    intros H. now apply negb_true_iff in H.
  - unfold session_call. intros H. apply andb_true_iff in H.
    destruct H as [H1 H2]. apply negb_true_iff in H1, H2.
    split; intros ->; discriminate.
Qed.

Lemma quiet_session_body lower w self a :
  quiet in_session (session_body lower w self a).
Proof.
  apply (quiet_weaken (allowed session_call session_api));
    [exact allowed_in_session|].
  unfold session_body. destruct (args_discover a); [|destruct (args_config a)].
  - apply quiet_bind; [|intros; apply quiet_ret].
    apply quiet_discover_notification_apis; reflexivity.
  - apply quiet_bind; [apply quiet_get_notification_config; reflexivity|].
    intros. quiet_auto.
  - apply quiet_bind; [apply quiet_run_all_tests; reflexivity|]. intros.
    apply quiet_bind; [apply quiet_list_backup_tasks; reflexivity|]. intros.
    quiet_auto.
Qed.

Lemma login_request_is_login self sid :
  is_login_request (login_request self sid).
Proof.
  unfold is_login_request, login_request, api_of, form_field, request_for,
    request_data. cbn [rq_body]. destruct (truthy sid); split; reflexivity.
Qed.

Lemma logout_request_is_logout self sid :
  is_logout_request (logout_request self sid).
Proof.
  unfold is_logout_request, logout_request, api_of, form_field, request_for,
    request_data. cbn [rq_body]. destruct (truthy sid); split; reflexivity.
Qed.

Section LoginLogout.
Variable w : world.
Variable self : trigger.

(** [login] enters, prints, sends the login request and prints again;
    nothing else. *)
Lemma login_run s :
  exists r p sid,
    login w self s
    = (r, State (st_trace s
                 ++ [EvCall "login";
                     EvPrint [Lit "Logging in to "; Str (host self);
                              Lit "..."];
                     EvPost (login_request self (session_id s))] ++ p)
                sid)
    /\ posts p = [] /\ calls p = []
    /\ (r <> Ok true -> sid = session_id s).
Proof.
  unfold login. unfold bind at 1. unfold emit at 1.
  cbn [trace_of with_trace Traced_state st_trace session_id].
  unfold bind at 1. unfold print at 1, emit at 1.
  cbn [trace_of with_trace Traced_state st_trace session_id].
  unfold bind at 1. rewrite _request_run.
  cbn [st_trace session_id]. fold (login_request self (session_id s)).
  rewrite <- !app_assoc. cbn [app].
  destruct (request_result _) as [result|e].
  2:{ exists (Raise e), [], (session_id s).
      repeat split; auto. }
  unfold bind, lift, set_session_id, print, emit, ret.
  cbn [trace_of with_trace Traced_state st_trace session_id].
  destruct (py_get result "success" JNull) as [ok|e].
  2:{ exists (Raise e), [], (session_id s).
      repeat split; auto. }
  destruct (truthy ok).
  - destruct (py_getitem result "data") as [data|e].
    2:{ exists (Raise e), [], (session_id s).
        repeat split; auto. }
    destruct (py_getitem data "sid") as [sid|e].
    2:{ exists (Raise e), [], (session_id s).
        repeat split; auto. }
    exists (Ok true), [EvPrint [Lit "  ✓ Login successful"]], sid.
    cbn [st_trace session_id]. rewrite <- ?app_assoc. cbn [app].
    repeat split; auto. intros H. now contradiction H.
  - destruct (py_get result "error" (JStr "Unknown error")) as [err|e].
    2:{ exists (Raise e), [], (session_id s).
        repeat split; auto. }
    exists (Ok false), [EvPrint [Lit "  ✗ Login failed: "; Val err]],
      (session_id s).
    cbn [st_trace session_id]. rewrite <- ?app_assoc. cbn [app].
    repeat split; auto.
Qed.

(** [logout] enters, and sends the logout request exactly when it holds
    a session token. *)
Lemma logout_run s :
  exists r fin sid,
    logout w self s = (r, State (st_trace s ++ EvCall "logout" :: fin) sid)
    /\ calls fin = []
    /\ posts fin = if truthy (session_id s)
                   then [logout_request self (session_id s)] else [].
Proof.
  unfold logout. unfold bind at 1. unfold emit at 1.
  cbn [trace_of with_trace Traced_state st_trace session_id].
  unfold bind at 1. unfold get_session_id at 1. cbn [session_id].
  destruct (truthy (session_id s)).
  - unfold bind at 1. rewrite _request_run. cbn [st_trace session_id].
    fold (logout_request self (session_id s)).
    rewrite <- !app_assoc. cbn [app].
    destruct (request_result _) as [result|e].
    + unfold bind, set_session_id, print, emit.
      cbn [trace_of with_trace Traced_state st_trace session_id].
      rewrite <- !app_assoc. cbn [app].
      eexists _, [_; _], _. repeat split.
    + eexists _, [_], _. repeat split.
  - unfold ret. exists (Ok tt), [], (session_id s). repeat split.
Qed.
End LoginLogout.

(** [main], cut at the call of [login] and at the [try] block. *)
Lemma main_unfold lower w a :
  main lower w a initial
  = match login w (trigger_of w a) (login_state a) with
    | (Ok true, s1) =>
        match try_finally (session_body lower w (trigger_of w a) a)
                          (logout w (trigger_of w a)) s1 with
        | (Ok _, s2) => (Ok 0%Z, s2)
        | (Raise e, s2) => (Raise e, s2)
        end
    | (Ok false, s1) => (Ok 1%Z, s1)
    | (Raise e, s1) => (Raise e, s1)
    end.
Proof.
  unfold main, login_state, startup_trace, trigger_of, password_of, port_of,
    initial.
  unfold bind at 1.
  destruct (args_password a) as [p|]; cbn [opt_truthy].
  - destruct (String.eqb_spec p "") as [->|Hp]; cbn [negb].
    + unfold getpass at 1. cbn [trace_of with_trace Traced_state st_trace session_id app].
      do 7 (unfold bind at 1; unfold print at 1, emit at 1;
            cbn [trace_of with_trace Traced_state st_trace session_id app]).
      unfold bind at 1.
      destruct (login _ _ _) as [[[|]|e] s1]; reflexivity.
    + unfold ret at 1.
      do 7 (unfold bind at 1; unfold print at 1, emit at 1;
            cbn [trace_of with_trace Traced_state st_trace session_id app]).
      unfold bind at 1.
      destruct (login _ _ _) as [[[|]|e] s1]; reflexivity.
  - unfold getpass at 1. cbn [trace_of with_trace Traced_state st_trace session_id app].
    do 7 (unfold bind at 1; unfold print at 1, emit at 1;
          cbn [trace_of with_trace Traced_state st_trace session_id app]).
    unfold bind at 1.
    destruct (login _ _ _) as [[[|]|e] s1]; reflexivity.
Qed.

Lemma in_session_no_logout body :
  Forall in_session body -> count_occ string_dec (calls body) "logout" = 0%nat.
Proof.
  induction 1 as [|e body He _ IH]; [reflexivity|].
  destruct e as [rq|d|t|p|m]; simpl; auto.
  destruct He as [_ Hm].
  destruct (string_dec m "logout") as [->|_]; [now contradiction Hm|exact IH].
Qed.

Lemma startup_trace_silent a :
  posts (startup_trace a) = [] /\ calls (startup_trace a) = [].
Proof.
  unfold startup_trace. destruct (opt_truthy (args_password a)); split;
    reflexivity.
Qed.

Lemma quiet_emits {A} Q (c : M state A) : quiet Q c -> emits Q c.
Proof.
  intros Hc s. destruct (Hc s) as (t & E & _ & F). exists t. auto.
Qed.

Section NoMail.
Variable lower : string -> string.
Variable w : world.
Let Q := allowed not_mail_call not_mail_api.

Lemma no_mail_request self api path method version params :
  (forall sid, not_mail_api
                 (api_of (request_for self api path method version
                                      params sid)) = true) ->
  emits Q (_request w self api path method version params).
Proof.
  intros H. apply quiet_emits, quiet_request. exact H.
Qed.

Lemma no_mail_login self : emits Q (login w self).
Proof.
  unfold login.
  apply emits_bind; [now apply emits_emit|]. intros _.
  apply emits_bind; [now apply emits_print|]. intros _.
  apply emits_bind.
  { apply no_mail_request. intros sid.
    unfold api_of, form_field, request_for, request_data. cbn [rq_body].
    destruct (truthy sid); reflexivity. }
  intros result.
  apply emits_bind; [apply emits_lift|]. intros ok.
  destruct (truthy ok).
  - apply emits_bind; [apply emits_lift|]. intros data.
    apply emits_bind; [apply emits_lift|]. intros sid.
    apply emits_bind.
    { intros s. exists []. simpl. rewrite app_nil_r. auto. }
    intros _. apply emits_bind; [now apply emits_print|]. intros _.
    apply emits_ret.
  - apply emits_bind; [apply emits_lift|]. intros err.
    apply emits_bind; [now apply emits_print|]. intros _.
    apply emits_ret.
Qed.

Lemma no_mail_logout self : emits Q (logout w self).
Proof.
  unfold logout.
  apply emits_bind; [now apply emits_emit|]. intros _.
  apply emits_bind.
  { intros s. exists []. simpl. rewrite app_nil_r. auto. }
  intros sid. destruct (truthy sid); [|apply emits_ret].
  apply emits_bind.
  { apply no_mail_request. intros sid'.
    unfold api_of, form_field, request_for, request_data. cbn [rq_body].
    destruct (truthy sid'); reflexivity. }
  intros _. apply emits_bind.
  { intros s. exists []. simpl. rewrite app_nil_r. auto. }
  intros _. now apply emits_print.
Qed.

Lemma no_mail_session_body self a :
  emits Q (session_body lower w self a).
Proof.
  apply quiet_emits. unfold session_body.
  destruct (args_discover a); [|destruct (args_config a)].
  - apply quiet_bind; [|intros; apply quiet_ret].
    apply quiet_discover_notification_apis; reflexivity.
  - apply quiet_bind; [apply quiet_get_notification_config; reflexivity|].
    intros. quiet_auto.
  - apply quiet_bind; [apply quiet_run_all_tests; reflexivity|]. intros.
    apply quiet_bind; [apply quiet_list_backup_tasks; reflexivity|]. intros.
    quiet_auto.
Qed.

Lemma no_mail_main a : emits Q (main lower w a).
Proof.
  unfold main.
  apply emits_bind.
  { destruct (opt_truthy (args_password a));
      [apply emits_ret | now apply emits_getpass]. }
  intros password.
  do 7 (apply emits_bind; [now apply emits_print|]; intros _).
  apply emits_bind; [apply no_mail_login|]. intros logged_in.
  destruct logged_in; cbn [negb]; [|apply emits_ret].
  apply emits_bind; [|intros; apply emits_ret].
  apply emits_try_finally; [|apply no_mail_logout].
  apply (no_mail_session_body _ a).
Qed.
End NoMail.

(** C3 (the code departs from the claim).  No run of the API client, in
    any mode and against any server, enters [test_mail_notification] or
    calls the API of the mail test: [run_all_tests] leaves its ["mail"]
    slot at [None]. *)
Theorem test_mail_is_never_called (lower : string -> string) (w : world)
        (a : args) :
  ~ In "test_mail_notification" (calls (snd (run lower w a))) /\
  Forall (fun rq => api_of rq <> Some (JStr "SYNO.Core.Notification.Mail"))
         (posts (snd (run lower w a))).
Proof.
  destruct (no_mail_main lower w a initial) as (t & Et & Ft).
  assert (Ht : snd (run lower w a) = t).
  { unfold run. destruct (main lower w a initial) as [r s]. exact Et. }
  rewrite Ht. clear Et Ht. split.
  - induction Ft as [|e t He _ IH]; [intros []|].
    destruct e as [rq|d|x|p|m]; simpl; auto.
    intros [E|Hin]; [subst m; discriminate He | auto].
  - induction Ft as [|e t He _ IH]; [constructor|].
    destruct e as [rq|d|x|p|m]; simpl; auto.
    constructor; [|exact IH]. simpl in He. intros E. rewrite E in He.
    discriminate He.
Qed.

(** C2 (the code departs from the claim).  Against a server that accepts
    the login and refuses every other call, the default run reports the
    failed calls and still exits with status 0. *)
Theorem exit_status_ignores_failed_calls :
  fst (run ascii_lower refusing_world default_args) = 0%Z /\
  In failed_line (snd (run ascii_lower refusing_world default_args)) /\
  In (EvPrint [Lit "  Successful: "; Num 0])
     (snd (run ascii_lower refusing_world default_args)).
Proof.
  vm_compute. repeat split; repeat (first [left; reflexivity | right]).
Qed.

End Session.

(* ================================================================== *)
(** * trigger_alerts_api.py: discovery (C6) *)
(* ================================================================== *)

Module Discovery.
Import Py Eff Props ApiProps Examples EffFacts Requests Quiet.
Import ApiClient.

Lemma prefix_spec k : forall s,
  String.prefix k s = true <-> exists q, s = (k ++ q)%string.
Proof.
  induction k as [|c k IH]; intros s.
  - split; [|now destruct s]. intros _. now exists s.
  - destruct s as [|c' s]; simpl.
    + split; [discriminate|]. intros [q Hq]. discriminate.
    + destruct (ascii_dec c c') as [->|Hne].
      * rewrite IH. split; intros [q Hq]; exists q; congruence.
      * split; [discriminate|]. intros [q Hq]. congruence.
Qed.

Lemma str_contains_spec k : forall s,
  str_contains k s = true <->
  exists before after, s = (before ++ k ++ after)%string.
Proof.
  induction s as [|c s IH].
  - change (str_contains k "") with (String.prefix k "" || false).
    rewrite orb_false_r, prefix_spec. split.
    + intros [q Hq]. now exists "", q.
    + intros (p & q & H). destruct p as [|c p]; [now exists q|].
      discriminate.
  - change (str_contains k (String c s))
      with (String.prefix k (String c s) || str_contains k s).
    rewrite orb_true_iff, prefix_spec, IH. split.
    + intros [[q Hq]|(p & q & H)].
      * now exists "", q.
      * exists (String c p), q. simpl. now rewrite H.
    + intros (p & q & H). destruct p as [|c' p]; simpl in H.
      * left. now exists q.
      * right. exists p, q. congruence.
Qed.

Section Discover.
Variable lower : string -> string.
Variable w : world.
Variable self : trigger.

Lemma is_notification_api_spec name :
  is_notification_api lower name = true <->
  exists keyword, In keyword keywords /\ contains_ci lower keyword name.
Proof.
  unfold is_notification_api, contains_ci. rewrite existsb_exists.
  split; intros (k & Hk & H); exists k; split; auto;
    now apply str_contains_spec.
Qed.

(** The collecting loop: state untouched, entries appended in catalog
    order. *)
Lemma collect_loop items : forall acc (s : state),
  (forall name v, In (name, v) items ->
                  is_notification_api lower name = true ->
                  exists d, v = JObj d) ->
  for_each items acc (fun (acc : list json) item =>
    let (api_name, api_data) := (item : string * json) in
    if is_notification_api lower api_name then
      bind (lift (py_get api_data "path" JNull)) (fun path =>
      bind (lift (py_get api_data "minVersion" JNull)) (fun minv =>
      bind (lift (py_get api_data "maxVersion" JNull)) (fun maxv =>
      ret (acc ++ [JObj [("name", JStr api_name); ("path", path);
                         ("minVersion", minv); ("maxVersion", maxv)]]))))
    else ret acc) s
  = (Ok (acc ++ map catalog_entry
                    (filter (fun kv => is_notification_api lower (fst kv))
                            items)), s).
Proof.
  induction items as [|[name v] items IH]; intros acc s Hd.
  - simpl. unfold ret. now rewrite app_nil_r.
  - cbn [for_each filter fst]. unfold bind at 1.
    destruct (is_notification_api lower name) eqn:Hn.
    + destruct (Hd name v (or_introl eq_refl) Hn) as [d ->].
      unfold bind, lift, ret. cbn [py_get].
      rewrite IH by (intros n' v' Hin; apply Hd; now right).
      cbn [map]. now rewrite <- app_assoc.
    + unfold ret. apply IH. intros n' v' Hin. apply Hd. now right.
Qed.

(** The listing loop never raises on entries built by the collecting
    loop. *)
Lemma listing_loop (items : dict) : forall s : state,
  Forall (fun kv => exists d, snd kv = JObj d) items ->
  exists s',
    for_each (map catalog_entry items) tt (fun _ api =>
      bind (lift (py_getitem api "name")) (fun name =>
      bind (lift (py_getitem api "minVersion")) (fun minv =>
      bind (lift (py_getitem api "maxVersion")) (fun maxv =>
      print [Lit "    - "; Val name; Lit " (v"; Val minv; Lit "-";
             Val maxv; Lit ")"])))) s
    = (Ok tt, s').
Proof.
  induction items as [|[name v] items IH]; intros s Hf.
  - exists s. reflexivity.
  - inversion Hf as [|? ? [d Hd] Hf']; subst. simpl in Hd. subst v.
    cbn [map for_each]. unfold bind at 1.
    unfold catalog_entry at 1, annotated. cbn [fst snd].
    unfold bind at 1 2 3, lift at 1 2 3, print at 1, emit at 1.
    cbn [py_getitem dict_lookup String.eqb Ascii.eqb Bool.eqb andb].
    simpl dict_lookup. cbv iota. apply IH. exact Hf'.
Qed.
End Discover.

Lemma discover_run lower w self s api_info ok items :
  fst (get_api_info w self (discover_state s)) = Ok api_info ->
  py_get api_info "success" JNull = Ok ok ->
  truthy ok = true ->
  py_get api_info "data" (JObj []) = Ok (JObj items) ->
  (forall name v, In (name, v) items ->
                  is_notification_api lower name = true ->
                  exists d, v = JObj d) ->
  fst (discover_notification_apis lower w self s)
  = Ok (map catalog_entry
            (filter (fun kv => is_notification_api lower (fst kv)) items)).
Proof.
  intros Hinfo Hok Ht Hdata Hdict.
  unfold discover_notification_apis.
  unfold bind at 1. unfold emit at 1.
  cbn [trace_of with_trace Traced_state st_trace session_id].
  unfold bind at 1. unfold print at 1, emit at 1.
  cbn [trace_of with_trace Traced_state st_trace session_id].
  rewrite <- app_assoc. cbn [app]. fold (discover_state s).
  unfold bind at 1.
  destruct (get_api_info w self (discover_state s)) as [r s1].
  cbn [fst] in Hinfo. subst r.
  unfold bind at 1. unfold lift at 1. rewrite Hok, Ht. cbn [negb].
  unfold bind at 1. unfold lift at 1. rewrite Hdata.
  unfold bind at 1. unfold lift at 1. cbn [py_items].
  unfold bind at 1. rewrite collect_loop by exact Hdict. cbn [app].
  unfold bind at 1. unfold print at 1, emit at 1.
  unfold bind at 1.
  match goal with
  | |- context [for_each (map catalog_entry ?l) tt ?f ?st] =>
      destruct (listing_loop l st) as [s' Hlist]
  end.
  { apply Forall_forall. intros [name v] Hin. apply filter_In in Hin.
    destruct Hin as [Hin Hn]. simpl in *. eapply Hdict; eauto. }
  rewrite Hlist. reflexivity.
Qed.

(** C6. When the catalog query succeeds, discovery returns, in catalog
    order, one entry for each catalog item whose API name, lowercased,
    contains one of "notif", "alert", "push", "mail", "sms", "webhook", and
    no other entry; the entry carries the name of the API, its path and its
    minimal and maximal version. *)
Theorem discovery_selects_by_keyword
        (lower : string -> string) (w : world) (self : trigger) (s : state)
        (api_info ok : json) (items : dict) :
  fst (get_api_info w self (discover_state s)) = Ok api_info ->
  py_get api_info "success" JNull = Ok ok ->
  truthy ok = true ->
  py_get api_info "data" (JObj []) = Ok (JObj items) ->
  (forall name v, In (name, v) items ->
                  is_notification_api lower name = true ->
                  exists d, v = JObj d) ->
  exists apis,
    fst (discover_notification_apis lower w self s) = Ok apis /\
    (forall name d,
        In (name, JObj d) items ->
        (In (annotated name d) apis <->
         exists keyword,
           In keyword ["notif"; "alert"; "push"; "mail"; "sms"; "webhook"] /\
           contains_ci lower keyword name)) /\
    (forall entry,
        In entry apis ->
        exists name d,
          In (name, JObj d) items /\
          entry = JObj [("name", JStr name);
                        ("path", match dict_lookup d "path" with
                                 | Some v => v | None => JNull end);
                        ("minVersion", match dict_lookup d "minVersion" with
                                       | Some v => v | None => JNull end);
                        ("maxVersion", match dict_lookup d "maxVersion" with
                                       | Some v => v | None => JNull end)]).
Proof.
  intros Hinfo Hok Ht Hdata Hdict.
  eexists. split; [eapply discover_run; eauto|]. split.
  - intros name d Hin. rewrite <- (is_notification_api_spec lower name).
    rewrite in_map_iff. split.
    + intros ([n v] & Hentry & Hf). apply filter_In in Hf.
      destruct Hf as [Hin' Hn]. simpl in Hn.
      destruct (Hdict n v Hin' Hn) as [d' ->].
      unfold catalog_entry, annotated in Hentry. simpl in Hentry.
      inversion Hentry; subst. exact Hn.
    + intros Hn. exists (name, JObj d). split; [reflexivity|].
      apply filter_In. split; assumption.
  - intros entry Hin. apply in_map_iff in Hin.
    destruct Hin as ([n v] & Hentry & Hf). apply filter_In in Hf.
    destruct Hf as [Hin' Hn]. simpl in Hn.
    destruct (Hdict n v Hin' Hn) as [d' ->].
    exists n, d'. split; [exact Hin'|]. now subst entry.
Qed.

Lemma catalog_entries_are_dicts name v :
  In (name, v) catalog ->
  ApiClient.is_notification_api ascii_lower name = true ->
  exists d, v = JObj d.
Proof.
  intros [E|[E|[]]] _; inversion E; eexists; reflexivity.
Qed.

Lemma discovery_selects_by_keyword_witness :
  exists apis,
    fst (ApiClient.discover_notification_apis ascii_lower catalog_world nas
           ApiClient.initial) = Ok apis /\
    (forall name d,
        In (name, JObj d) catalog ->
        (In (annotated name d) apis <->
         exists keyword,
           In keyword ["notif"; "alert"; "push"; "mail"; "sms"; "webhook"] /\
           contains_ci ascii_lower keyword name)) /\
    (forall entry,
        In entry apis ->
        exists name d,
          In (name, JObj d) catalog /\
          entry = JObj [("name", JStr name);
                        ("path", match dict_lookup d "path" with
                                 | Some v => v | None => JNull end);
                        ("minVersion", match dict_lookup d "minVersion" with
                                       | Some v => v | None => JNull end);
                        ("maxVersion", match dict_lookup d "maxVersion" with
                                       | Some v => v | None => JNull end)]).
Proof.
  exact (discovery_selects_by_keyword ascii_lower catalog_world nas
           ApiClient.initial catalog_answer (JBool true) catalog
           eq_refl eq_refl eq_refl eq_refl catalog_entries_are_dicts).
Defined.

End Discovery.

(* ================================================================== *)
(** * Further properties and the spec's examples *)
(* ================================================================== *)

Module SpecExamples.
Import Py Eff Props ApiProps Examples EffFacts ReplayerFacts.

(** X1. The sending loop visits the filtered fixtures in ascending order
    of name: [sorted(filtered.items())] holds the same items as
    [filtered], each adjacent pair in order. *)
Theorem sending_order_is_sorted_by_name (filtered : dict) :
  Sorted by_name (Replayer.sorted_items filtered) /\
  Permutation (Replayer.sorted_items filtered) filtered.
Proof.
  split; [apply sorted_items_sorted | apply sorted_items_perm].
Qed.

(** X4. When fixtures are loaded and none passes the filters, the run
    prints one line, performs no POST and exits with 1. *)
Theorem no_match_exits_without_sending (lower : string -> string)
        (w : world) (a : Replayer.args) (files : list (string * json)) :
  Replayer.load_mock_alerts files <> [] ->
  Replayer.filter_alerts lower a (Replayer.load_mock_alerts files) = Ok [] ->
  Replayer.run lower w a files
  = (1%Z, [EvPrint [Lit "No alerts match the specified filters"]]).
Proof.
  intros Hne Hf. unfold Replayer.run, Replayer.main.
  destruct (Replayer.load_mock_alerts files) as [|x alerts];
    [now contradiction Hne|].
  unfold bind at 1. unfold lift at 1. rewrite Hf. reflexivity.
Qed.

Lemma no_match_exits_without_sending_witness :
  Replayer.load_mock_alerts example_files <> [] /\
  Replayer.filter_alerts ascii_lower no_such_type
                         (Replayer.load_mock_alerts example_files) = Ok [] /\
  Replayer.run ascii_lower accepting_world no_such_type example_files
  = (1%Z, [EvPrint [Lit "No alerts match the specified filters"]]).
Proof.
  assert (H1 : Replayer.load_mock_alerts example_files <> [])
    by discriminate.
  assert (H2 : Replayer.filter_alerts ascii_lower no_such_type
                 (Replayer.load_mock_alerts example_files) = Ok [])
    by reflexivity.
  repeat (split; [assumption|]).
  exact (no_match_exits_without_sending ascii_lower accepting_world
           no_such_type example_files H1 H2).
Defined.

End SpecExamples.

(* ================================================================== *)
(** * send_mock_alerts.py: counting, pausing, edge cases *)
(* ================================================================== *)

Module ReplayerRuns.
Import Py Eff Props Examples EffFacts DictFacts ReplayerFacts Behaviour.
Import Replayer.

Lemma accepted_posts_app w t1 : forall h t2,
  accepted_posts w h (t1 ++ t2)
  = (accepted_posts w h t1 + accepted_posts w (h ++ t1) t2)%nat.
Proof.
  induction t1 as [|e t1 IH]; intros h t2; simpl.
  - now rewrite app_nil_r.
  - rewrite IH, <- app_assoc. simpl. lia.
Qed.

Lemma rejected_posts_app w t1 : forall h t2,
  rejected_posts w h (t1 ++ t2)
  = (rejected_posts w h t1 + rejected_posts w (h ++ t1) t2)%nat.
Proof.
  induction t1 as [|e t1 IH]; intros h t2; simpl.
  - now rewrite app_nil_r.
  - rewrite IH, <- app_assoc. simpl. lia.
Qed.

Lemma no_posts_counts w t : forall h,
  posts t = [] ->
  accepted_posts w h t = 0%nat /\ rejected_posts w h t = 0%nat.
Proof.
  induction t as [|e t IH]; intros h Hp; simpl; [auto|].
  destruct e as [rq|d|x|p|m]; simpl in Hp; try discriminate;
    match goal with
    | |- context [accepted_posts w ?h' t] =>
        destruct (IH h' Hp) as [-> ->]; auto
    end.
Qed.

Lemma schedule_app t1 t2 : schedule (t1 ++ t2) = schedule t1 ++ schedule t2.
Proof.
  induction t1 as [|e t1 IH]; simpl; [reflexivity|].
  destruct e; simpl; rewrite ?IH; auto.
  destruct (rq_body rq); simpl; now rewrite ?IH.
Qed.

Section SendTrace.
Variable w : world.
Variable a : args.
Hypothesis Hsend : args_dry_run a = false.
Hypothesis Htransport : forall h rq, transport_outcome (w_post w h rq).
Hypothesis Hsleep : forall h, w_sleep w h (args_delay a) = None.

Lemma send_step_trace filtered res name alert t :
  sendable alert ->
  let rq := webhook_request (args_webhook a) (body_of alert) in
  exists line,
    send_step w a filtered res (name, alert) t
    = (Ok (counted (w_post w t rq) res),
       t ++ EvPost rq :: EvPrint line
            :: (if pause_due a filtered name
                then [EvSleep (args_delay a)] else [])).
Proof.
  intros (d & level & body & -> & Hl & Hb) rq.
  destruct (Sending.send_alert_run w Htransport (args_webhook a) name d level
              body t Hl Hb) as (line & Hrun).
  assert (Hrq : rq = webhook_request (args_webhook a) body).
  { unfold rq, body_of, fixture_body. now rewrite Hb. }
  rewrite Hrq. exists line. unfold send_step. rewrite Hsend.
  unfold bind at 1. rewrite Hrun. unfold counted, pause_due.
  destruct (PrimFloat.ltb 0 (args_delay a) && negb (name =? last_key filtered)).
  - unfold bind, time_sleep, ret. rewrite Hsleep.
    cbn [trace_of with_trace Traced_trace].
    rewrite <- !app_assoc. cbn [app].
    destruct (post_accepted _); reflexivity.
  - unfold bind, ret.
    destruct (post_accepted _); reflexivity.
Qed.

Lemma send_loop_trace filtered items : forall res t,
  Forall (fun kv => sendable (snd kv)) items ->
  exists res' t',
    for_each items res (send_step w a filtered) t = (Ok res', t ++ t') /\
    success res' = (success res + accepted_posts w t t')%nat /\
    failed res' = (failed res + rejected_posts w t t')%nat /\
    schedule t'
    = flat_map (fun kv => Some (body_of (snd kv))
                          :: if pause_due a filtered (fst kv)
                             then [None] else []) items.
Proof.
  induction items as [|[name alert] items IH]; intros res t Hs.
  - exists res, []. simpl. unfold ret. rewrite app_nil_r.
    repeat split; auto.
  - inversion Hs as [|? ? Hi Hs']; subst. simpl in Hi.
    destruct (send_step_trace filtered res name alert t Hi) as (line & Hstep).
    cbn [for_each]. unfold bind at 1. rewrite Hstep.
    set (rq := webhook_request (args_webhook a) (body_of alert)) in *.
    set (rest := EvPrint line
                 :: (if pause_due a filtered name
                     then [EvSleep (args_delay a)] else [])) in *.
    destruct (IH (counted (w_post w t rq) res) (t ++ EvPost rq :: rest) Hs')
      as (res' & t2 & Hloop & Hsucc & Hfail & Hsched).
    rewrite Hloop. exists res', (EvPost rq :: rest ++ t2).
    split; [now rewrite <- app_assoc|].
    assert (Hrest : posts rest = []).
    { unfold rest. simpl. now destruct (pause_due a filtered name). }
    destruct (no_posts_counts w rest (t ++ [EvPost rq]) Hrest) as [Ha Hr].
    cbn [accepted_posts rejected_posts].
    rewrite accepted_posts_app, rejected_posts_app, Ha, Hr, Hsucc, Hfail.
    rewrite <- !app_assoc. cbn [app]. unfold counted.
    split; [destruct (post_accepted _); simpl; lia|].
    split; [destruct (post_accepted _); simpl; lia|].
    cbn [schedule rq_body webhook_request rq flat_map fst snd].
    rewrite schedule_app, Hsched. unfold rest.
    destruct (pause_due a filtered name); reflexivity.
Qed.

(** [main] when it sends for real. *)
Lemma send_main lower files filtered :
  filter_alerts lower a (load_mock_alerts files) = Ok filtered ->
  filtered <> [] ->
  Forall (fun kv => sendable (snd kv)) filtered ->
  exists header body,
    let sent := accepted_posts w header body in
    let lost := rejected_posts w header body in
    main lower w a files []
    = (Ok (if (lost =? 0)%nat then 0%Z else 1%Z),
       header ++ body
       ++ [EvPrint [Lit rule]; EvPrint [Lit "Summary"]; EvPrint [Lit rule];
           EvPrint [Lit "  Sent: "; Num (Z.of_nat sent)];
           EvPrint [Lit "  Failed: "; Num (Z.of_nat lost)];
           EvPrint [Lit "Check your n8n workflow for the received alerts!"]])
    /\ posts header = [] /\ schedule header = []
    /\ (sent + lost = List.length filtered)%nat
    /\ posts body = map (fun kv => webhook_request (args_webhook a)
                                                   (body_of (snd kv)))
                        (sorted_items filtered)
    /\ schedule body
       = flat_map (fun kv => Some (body_of (snd kv))
                             :: if pause_due a filtered (fst kv)
                                then [None] else [])
                  (sorted_items filtered).
Proof.
  intros Hf Hne Hs. unfold main.
  destruct (load_mock_alerts files) as [|x alerts] eqn:Hload.
  { exfalso. apply Hne. unfold filter_alerts in Hf. simpl in Hf.
    congruence. }
  unfold bind at 1. unfold lift at 1. rewrite Hf.
  destruct filtered as [|y fl]; [now contradiction Hne|].
  cbv iota. remember (y :: fl) as fltd eqn:Hfl. rewrite Hsend.
  assert (Hs' : Forall (fun kv => sendable (snd kv)) (sorted_items fltd)).
  { apply Forall_forall. intros kv Hkv.
    apply (proj1 (sorted_items_in _ _)) in Hkv.
    rewrite Forall_forall in Hs. now apply Hs. }
  do 4 (unfold bind at 1; unfold print at 1, emit at 1;
        cbn [trace_of with_trace Traced_trace app]).
  unfold bind at 1. unfold ret at 1. cbv iota.
  unfold bind at 1.
  match goal with
  | |- context [for_each _ _ _ ?h] =>
      destruct (send_loop_trace fltd (sorted_items fltd) (Results 0 0) h Hs')
        as (res' & t' & Hloop & Hsucc & Hfail & Hsched);
      destruct (Sending.send_loop_run w a Hsend Htransport Hsleep fltd
                  (sorted_items fltd) (Results 0 0) h Hs')
        as (res2 & t2 & Hloop2 & Hposts & Hsum);
      exists h, t'
  end.
  rewrite Hloop in Hloop2. inversion Hloop2 as [[Hres Ht]].
  subst res2 t2.
  rewrite Hloop. cbn [success failed] in *.
  unfold bind, print, emit, ret. cbn [trace_of with_trace Traced_trace negb].
  rewrite <- !app_assoc. cbn [app]. cbn zeta.
  rewrite Hsucc, Hfail in Hsum. cbn [Nat.add] in *.
  rewrite <- Hsucc, <- Hfail.
  rewrite (Permutation_length (sorted_items_perm fltd)) in Hsum.
  repeat split; auto. lia.
Qed.
End SendTrace.

(** A real run over fixtures that have a level and a body: what it sends,
    what it counts and what it reports. *)
Lemma send_run (lower : string -> string) (w : world) (a : args)
      (files : list (string * json)) (filtered : dict) :
  args_dry_run a = false ->
  (forall h rq, transport_outcome (w_post w h rq)) ->
  (forall h, w_sleep w h (args_delay a) = None) ->
  filter_alerts lower a (load_mock_alerts files) = Ok filtered ->
  filtered <> [] ->
  Forall (fun kv => sendable (snd kv)) filtered ->
  let trace := snd (run lower w a files) in
  let sent := accepted_posts w [] trace in
  let lost := rejected_posts w [] trace in
  posts trace
  = map (fun kv => webhook_request (args_webhook a) (body_of (snd kv)))
        (sorted_items filtered) /\
  (sent + lost = List.length filtered)%nat /\
  In (EvPrint [Lit "  Sent: "; Num (Z.of_nat sent)]) trace /\
  In (EvPrint [Lit "  Failed: "; Num (Z.of_nat lost)]) trace /\
  fst (run lower w a files) = (if (lost =? 0)%nat then 0 else 1)%Z.
Proof.
  intros Hsend Htr Hsl Hf Hne Hs.
  destruct (send_main w a Hsend Htr Hsl lower files filtered Hf Hne Hs)
    as (header & body & Hmain & Hph & _ & Hsum & Hposts & _).
  cbv zeta in Hmain. intros trace sent lost.
  set (footer := [EvPrint [Lit rule]; _; _; _; _; _]) in Hmain.
  assert (Hrun : run lower w a files
                 = ((if (rejected_posts w header body =? 0)%nat
                     then 0 else 1)%Z, header ++ body ++ footer)).
  { unfold run. now rewrite Hmain. }
  assert (Htrace : trace = header ++ body ++ footer).
  { unfold trace. now rewrite Hrun. }
  assert (Hpf : posts footer = []) by reflexivity.
  destruct (no_posts_counts w header [] Hph) as [Ha0 Hr0].
  destruct (no_posts_counts w footer (header ++ body) Hpf) as [Ha1 Hr1].
  assert (Hsent : sent = accepted_posts w header body).
  { unfold sent. rewrite Htrace, accepted_posts_app, Ha0.
    rewrite accepted_posts_app. change ([] ++ header) with header.
    rewrite Ha1. lia. }
  assert (Hlost : lost = rejected_posts w header body).
  { unfold lost. rewrite Htrace, rejected_posts_app, Hr0.
    rewrite rejected_posts_app. change ([] ++ header) with header.
    rewrite Hr1. lia. }
  rewrite Hsent, Hlost, Hrun, Htrace.
  split.
  { rewrite !posts_app, Hph, Hpf, app_nil_r. exact Hposts. }
  split; [exact Hsum|].
  unfold footer.
  repeat split; apply in_or_app; right; apply in_or_app; right; simpl; auto 10.
Qed.

End ReplayerRuns.

Module ReplayerMore.
Import Py Eff Props Examples EffFacts DictFacts ReplayerFacts Behaviour.
Import ReplayerRuns MoreExamples.
Import Replayer.

(** X2. The summary of a real run counts the POSTs.  When the Alert
    Replayer sends for real, to a webhook that answers every POST with a
    response or a transport-level exception, the number it prints after
    [Sent:] is the number of POSTs of the run that came back with status
    200, 201, 202 or 204, the number after [Failed:] is the number of the
    other POSTs, the two add up to the number of selected fixtures, and the
    exit status is 0 exactly when no POST failed. *)
Theorem summary_counts_the_posts (lower : string -> string) (w : world)
        (a : args) (files : list (string * json)) (filtered : dict) :
  args_dry_run a = false ->
  (forall h rq, transport_outcome (w_post w h rq)) ->
  (forall h, w_sleep w h (args_delay a) = None) ->
  filter_alerts lower a (load_mock_alerts files) = Ok filtered ->
  filtered <> [] ->
  Forall (fun kv => sendable (snd kv)) filtered ->
  let trace := snd (run lower w a files) in
  let sent := accepted_posts w [] trace in
  let lost := rejected_posts w [] trace in
  (sent + lost = List.length filtered)%nat /\
  In (EvPrint [Lit "  Sent: "; Num (Z.of_nat sent)]) trace /\
  In (EvPrint [Lit "  Failed: "; Num (Z.of_nat lost)]) trace /\
  fst (run lower w a files) = (if (lost =? 0)%nat then 0 else 1)%Z.
Proof.
  intros Hsend Htr Hsl Hf Hne Hs trace sent lost.
  destruct (send_run lower w a files filtered Hsend Htr Hsl Hf Hne Hs)
    as (_ & Hsum & Hsent & Hlost & Hexit).
  auto.
Qed.

Lemma summary_counts_the_posts_witness :
  let trace := snd (Replayer.run ascii_lower accepting_world send_all
                                 example_files) in
  let sent := accepted_posts accepting_world [] trace in
  let lost := rejected_posts accepting_world [] trace in
  (sent + lost = List.length example_files)%nat /\
  In (EvPrint [Lit "  Sent: "; Num (Z.of_nat sent)]) trace /\
  In (EvPrint [Lit "  Failed: "; Num (Z.of_nat lost)]) trace /\
  fst (Replayer.run ascii_lower accepting_world send_all example_files)
  = (if (lost =? 0)%nat then 0 else 1)%Z.
Proof.
  apply (summary_counts_the_posts ascii_lower accepting_world send_all
           example_files example_files).
  - reflexivity.
  - intros h rq. exact I.
  - reflexivity.
  - reflexivity.
  - discriminate.
  - exact example_files_sendable.
Defined.

(** ** The pause between sends *)

Lemma filter_loop_nodup lower a items : forall acc res,
  filter_loop lower a items acc = Ok res ->
  NoDup (dict_keys acc) -> NoDup (dict_keys res).
Proof.
  induction items as [|[name alert] items IH]; simpl; intros acc res H Hnd.
  - now inversion H; subst.
  - destruct (type_mismatch a name); [now apply (IH acc)|].
    destruct (category_mismatch lower a alert) as [[|]|]; simpl in H;
      try discriminate; [now apply (IH acc)|].
    destruct (level_mismatch a alert) as [[|]|]; simpl in H;
      try discriminate; [now apply (IH acc)|].
    apply (IH _ _ H). now apply dict_set_nodup.
Qed.

Lemma name_lt_leb x y : name_lt x y -> (fst x <=? fst y)%string = true.
Proof.
  unfold name_lt, String.ltb, String.leb.
  now destruct (fst x ?= fst y)%string.
Qed.

Lemma sorted_items_id l : Sorted name_lt l -> sorted_items l = l.
Proof.
  induction 1 as [|x l Hs IH Hhd]; simpl; [reflexivity|].
  rewrite IH. destruct Hhd as [|y l' Hxy]; simpl; [reflexivity|].
  now rewrite (name_lt_leb _ _ Hxy).
Qed.

Lemma last_in {A} (l : list A) (d : A) : l <> [] -> In (last l d) l.
Proof.
  induction l as [|x l IH]; [congruence|]. intros _.
  destruct l as [|y l]; [now left|]. right. apply IH. discriminate.
Qed.

Lemma paced_schedule (positive : bool) (l : dict) : forall d,
  NoDup (dict_keys l) ->
  flat_map (fun kv => Some (body_of (snd kv))
                      :: if positive && negb (fst kv =? last (dict_keys l) d)
                         then [None] else []) l
  = if positive then paced (map (fun kv => body_of (snd kv)) l)
    else map (fun kv => Some (body_of (snd kv))) l.
Proof.
  induction l as [|x l IH]; intros d Hnd.
  - now destruct positive.
  - inversion Hnd as [|? ? Hx Hnd']; subst.
    destruct l as [|y l].
    + simpl. rewrite String.eqb_refl, andb_false_r. now destruct positive.
    + change (last (dict_keys (x :: y :: l)) d)
        with (last (dict_keys (y :: l)) d).
      match goal with
      | |- flat_map ?f _ = _ =>
          change (flat_map f (x :: y :: l)) with (f x ++ flat_map f (y :: l))
      end.
      rewrite (IH d Hnd').
      assert (Hne : (fst x =? last (dict_keys (y :: l)) d) = false).
      { apply String.eqb_neq. intros E. apply Hx. rewrite E.
        apply last_in. discriminate. }
      rewrite Hne. destruct positive; reflexivity.
Qed.

(** X3. When the selected fixtures were loaded in ascending order of
    name (the order in which they are sent) and the delay is positive, the
    run pauses after every send but the last: sends and pauses alternate,
    with no pause at the end.  With a delay that is not positive there is
    no pause at all. *)
Theorem pause_between_sends_when_loaded_in_order
        (lower : string -> string) (w : world) (a : args)
        (files : list (string * json)) (filtered : dict) :
  args_dry_run a = false ->
  (forall h rq, transport_outcome (w_post w h rq)) ->
  (forall h, w_sleep w h (args_delay a) = None) ->
  filter_alerts lower a (load_mock_alerts files) = Ok filtered ->
  filtered <> [] ->
  Forall (fun kv => sendable (snd kv)) filtered ->
  Sorted name_lt filtered ->
  schedule (snd (run lower w a files))
  = if PrimFloat.ltb 0 (args_delay a)
    then paced (map (fun kv => body_of (snd kv)) filtered)
    else map (fun kv => Some (body_of (snd kv))) filtered.
Proof.
  intros Hsend Htr Hsl Hf Hne Hs Hsorted.
  destruct (send_main w a Hsend Htr Hsl lower files filtered Hf Hne Hs)
    as (header & body & Hmain & _ & Hsh & _ & _ & Hsched).
  cbv zeta in Hmain. unfold run. rewrite Hmain. cbn [snd].
  rewrite !schedule_app, Hsh, Hsched, (sorted_items_id _ Hsorted).
  cbn [schedule app]. rewrite app_nil_r.
  unfold pause_due, last_key. apply paced_schedule.
  apply (filter_loop_nodup lower a _ [] filtered Hf). constructor.
Qed.

Lemma pause_between_sends_when_loaded_in_order_witness :
  schedule (snd (Replayer.run ascii_lower accepting_world send_all
                              sorted_files))
  = if PrimFloat.ltb 0 (Replayer.args_delay send_all)
    then paced (map (fun kv => body_of (snd kv)) sorted_files)
    else map (fun kv => Some (body_of (snd kv))) sorted_files.
Proof.
  apply (pause_between_sends_when_loaded_in_order ascii_lower accepting_world
           send_all sorted_files sorted_files).
  - reflexivity.
  - intros h rq. exact I.
  - reflexivity.
  - reflexivity.
  - discriminate.
  - repeat constructor; eexists _, _, _; repeat split; reflexivity.
  - repeat constructor.
Defined.

(** ** Incomplete fixtures *)

(** X5. A fixture that lacks its ["body"] or its ["level"] aborts the
    sending loop with a [KeyError], and the fixtures after it are not sent.
    Without a body nothing is posted for it; with a body but without a
    level the body is posted first and the [KeyError] comes when the
    report line is formatted, so the POST is made and never counted. *)
Theorem incomplete_fixture_aborts_the_sending_loop
        (w : world) (a : args) (filtered : dict) (res : results)
        (name : string) (d : dict) (rest : dict) (t : list event) :
  args_dry_run a = false ->
  (forall rq, transport_outcome (w_post w t rq)) ->
  dict_lookup d "level" = None \/ dict_lookup d "body" = None ->
  for_each ((name, JObj d) :: rest) res (send_step w a filtered) t
  = match dict_lookup d "body" with
    | None => (Raise (Exn KeyError "body"), t)
    | Some body =>
        (Raise (Exn KeyError "level"),
         t ++ [EvPost (webhook_request (args_webhook a) body)])
    end.
Proof.
  intros Hsend Htr Hmiss. cbn [for_each]. unfold bind at 1.
  unfold send_step. rewrite Hsend. unfold bind at 1.
  unfold send_alert. unfold bind at 1. unfold lift at 1.
  cbn [py_getitem]. destruct (dict_lookup d "body") as [body|] eqn:Hb;
    [|reflexivity].
  destruct Hmiss as [Hl|]; [|discriminate].
  unfold try_except, bind, requests_post, lift, print, emit, ret.
  cbn [trace_of with_trace Traced_trace py_getitem].
  fold (webhook_request (args_webhook a) body). rewrite Hl.
  pose proof (Htr (webhook_request (args_webhook a) body)) as Ht.
  destruct (w_post w t (webhook_request (args_webhook a) body)) as [e|r];
    simpl in *.
  - now rewrite Ht.
  - now destruct (accepted (status_code r)).
Qed.

Lemma incomplete_fixture_aborts_the_sending_loop_witness :
  for_each [("no_level", JObj [("body", JStr "payload")]);
            ("server_offline", server_offline)]
           (Results 0 0)
           (send_step accepting_world send_all example_files) []
  = (Raise (Exn KeyError "level"),
     [EvPost (webhook_request (args_webhook send_all) (JStr "payload"))]).
Proof.
  apply (incomplete_fixture_aborts_the_sending_loop accepting_world send_all
           example_files (Results 0 0) "no_level"
           [("body", JStr "payload")] [("server_offline", server_offline)] []).
  - reflexivity.
  - intros rq. exact I.
  - left. reflexivity.
Defined.

(** ** What a run never does *)

Ltac emits_auto :=
  repeat first
    [ apply emits_ret
    | apply emits_lift
    | apply emits_print; exact I
    | apply emits_requests_post; exact I
    | apply emits_time_sleep; exact I
    | apply emits_try_except; [|intros]
    | apply emits_for_each; intros
    | apply emits_bind; [|intros]
    | match goal with
      | |- emits _ (if ?b then _ else _) => destruct b
      | |- emits _ (let (_, _) := ?x in _) => destruct x
      | |- emits _ (match ?x with [] => _ | _ :: _ => _ end) => destruct x
      end ].

Lemma dry_main_emits lower w a files :
  args_dry_run a = true -> emits is_print (main lower w a files).
Proof.
  intros Hdry. unfold main, send_step. rewrite Hdry. emits_auto.
Qed.

(** X6. In dry-run mode a run only prints: whatever the fixture files
    hold (complete alerts or not) and whatever the world would answer, the
    trace has no POST, no pause and no other event than [print]. *)
Theorem dry_run_only_prints (lower : string -> string) (w : world)
        (a : args) (files : list (string * json)) :
  args_dry_run a = true ->
  Forall is_print (snd (run lower w a files)).
Proof.
  intros Hdry. unfold run.
  destruct (dry_main_emits lower w a files Hdry []) as (t & Et & Ft).
  destruct (main lower w a files []) as [r tr]. simpl in *. now subst tr.
Qed.

Lemma dry_run_only_prints_witness :
  Forall is_print (snd (Replayer.run ascii_lower unreachable_world
                                     dry_run_all partial_files)).
Proof.
  apply (dry_run_only_prints ascii_lower unreachable_world dry_run_all
           partial_files).
  reflexivity.
Defined.

Lemma idle_main_emits lower w a files :
  PrimFloat.ltb 0 (args_delay a) = false ->
  emits not_sleep (main lower w a files).
Proof.
  intros Hd. unfold main, send_step, send_alert. rewrite Hd.
  cbn [andb]. emits_auto.
Qed.

(** X7. With a delay that is not greater than zero ([--delay 0], a
    negative delay, NaN) no run ever pauses, whatever the fixtures and the
    answers of the webhook. *)
Theorem no_pause_without_a_positive_delay (lower : string -> string)
        (w : world) (a : args) (files : list (string * json)) :
  PrimFloat.ltb 0 (args_delay a) = false ->
  Forall not_sleep (snd (run lower w a files)).
Proof.
  intros Hd. unfold run.
  destruct (idle_main_emits lower w a files Hd []) as (t & Et & Ft).
  destruct (main lower w a files []) as [r tr]. simpl in *. now subst tr.
Qed.

Lemma no_pause_without_a_positive_delay_witness :
  Forall not_sleep (snd (Replayer.run ascii_lower accepting_world
                                      no_delay example_files)).
Proof.
  apply (no_pause_without_a_positive_delay ascii_lower accepting_world
           no_delay example_files).
  reflexivity.
Defined.

(** ** Loading and selecting *)

Lemma fold_dict_set_fresh (files : list (string * json)) : forall acc,
  NoDup (dict_keys acc ++ map fst files) ->
  fold_left (fun alerts file => dict_set alerts (fst file) (snd file))
            files acc
  = acc ++ files.
Proof.
  induction files as [|[k v] files IH]; intros acc Hnd; simpl.
  - now rewrite app_nil_r.
  - simpl in Hnd. rewrite dict_set_fresh.
    + rewrite IH; [now rewrite <- app_assoc|].
      unfold dict_keys in *. rewrite map_app, <- app_assoc. exact Hnd.
    + apply NoDup_remove_2 in Hnd. intros Hin. apply Hnd.
      apply in_or_app. now left.
Qed.

(** X8. [load_mock_alerts] returns the fixtures under their file stems
    in the order [glob] lists the files: with distinct stems (as the files
    of one directory have) the loaded dict is the list of files itself. *)
Theorem loading_keeps_the_directory_order (files : list (string * json)) :
  NoDup (map fst files) -> load_mock_alerts files = files.
Proof.
  intros Hnd. unfold load_mock_alerts. now rewrite fold_dict_set_fresh.
Qed.

Lemma loading_keeps_the_directory_order_witness :
  Replayer.load_mock_alerts unsorted_files = unsorted_files.
Proof.
  apply (loading_keeps_the_directory_order unsorted_files).
  repeat constructor; simpl; intuition discriminate.
Defined.

Lemma unfiltered_loop lower a items : forall acc,
  opt_truthy (args_type a) = false ->
  opt_truthy (args_category a) = false ->
  opt_truthy (args_level a) = false ->
  NoDup (dict_keys acc ++ dict_keys items) ->
  filter_loop lower a items acc = Ok (acc ++ items).
Proof.
  intros acc Ht Hc Hl. revert acc.
  induction items as [|[name alert] items IH]; intros acc Hnd; simpl.
  - now rewrite app_nil_r.
  - assert (E1 : type_mismatch a name = false).
    { unfold type_mismatch. unfold opt_truthy in Ht.
      destruct (args_type a); [now rewrite Ht|reflexivity]. }
    assert (E2 : category_mismatch lower a alert = Ok false).
    { unfold category_mismatch. unfold opt_truthy in Hc.
      destruct (args_category a); [now rewrite Hc|reflexivity]. }
    assert (E3 : level_mismatch a alert = Ok false).
    { unfold level_mismatch. unfold opt_truthy in Hl.
      destruct (args_level a); [now rewrite Hl|reflexivity]. }
    rewrite E1, E2, E3. simpl. rewrite dict_set_fresh.
    + rewrite IH; [now rewrite <- app_assoc|].
      unfold dict_keys in *. rewrite map_app, <- app_assoc. exact Hnd.
    + simpl in Hnd. apply NoDup_remove_2 in Hnd. intros Hin. apply Hnd.
      apply in_or_app. now left.
Qed.

(** X9. When none of [--type], [--category], [--level] is given, or
    each one given is the empty string, the filter loop selects every
    loaded fixture, in load order, and never raises: it does not look into
    the fixtures, which may be any JSON value. *)
Theorem without_filters_every_fixture_is_selected
        (lower : string -> string) (a : args)
        (files : list (string * json)) :
  opt_truthy (args_type a) = false ->
  opt_truthy (args_category a) = false ->
  opt_truthy (args_level a) = false ->
  filter_alerts lower a (load_mock_alerts files) = Ok (load_mock_alerts files).
Proof.
  intros Ht Hc Hl. unfold filter_alerts.
  rewrite (unfiltered_loop lower a _ [] Ht Hc Hl); [reflexivity|].
  apply load_mock_alerts_nodup.
Qed.

Lemma without_filters_every_fixture_is_selected_witness :
  Replayer.filter_alerts ascii_lower empty_filters
                         (Replayer.load_mock_alerts malformed_files)
  = Ok (Replayer.load_mock_alerts malformed_files).
Proof.
  apply (without_filters_every_fixture_is_selected ascii_lower empty_filters
           malformed_files); reflexivity.
Defined.

End ReplayerMore.

(* ================================================================== *)
(** * send_mock_alerts.py: what a send counts, what dry-run prints
      (C7, C9) *)
(* ================================================================== *)

Module ReplayerRules.
Import Py Eff Props Examples EffFacts DictFacts ReplayerFacts Behaviour.
Import ReplayerRuns ReplayerMore MoreExamples.
Import Replayer.

(** C7 (amended).  When the Alert Replayer sends for real, to a webhook
    that answers every POST with a response or a transport-level
    exception: for every fixture that has a level and a body, the send
    POSTs the body once; an answer with status 200, 201, 202 or 204 adds
    one to the success counter and leaves the failure counter, any other
    status or a transport exception adds one to the failure counter only;
    and the send returns normally whatever the answer.  So no answer ends
    the run: over a selection of such fixtures it makes one POST per
    fixture, in order of name, and reports as [Sent] the number of accepted
    POSTs and as [Failed] the number of the others, which add up to the
    size of the selection. *)
Theorem send_outcome_counted_and_run_continues (w : world) (a : args) :
  args_dry_run a = false ->
  (forall h rq, transport_outcome (w_post w h rq)) ->
  (forall h, w_sleep w h (args_delay a) = None) ->
  (forall filtered res name alert t,
      sendable alert ->
      exists body t',
        fixture_body alert = Some body /\
        let rq := webhook_request (args_webhook a) body in
        send_step w a filtered res (name, alert) t
        = (Ok (if post_accepted (w_post w t rq)
               then Results (S (success res)) (failed res)
               else Results (success res) (S (failed res))),
           t ++ EvPost rq :: t') /\
        posts t' = []) /\
  (forall lower files filtered,
      filter_alerts lower a (load_mock_alerts files) = Ok filtered ->
      filtered <> [] ->
      Forall (fun kv => sendable (snd kv)) filtered ->
      let trace := snd (run lower w a files) in
      let sent := accepted_posts w [] trace in
      let lost := rejected_posts w [] trace in
      (exists order,
          Permutation order filtered /\ Sorted by_name order /\
          posts trace
          = map (fun kv => webhook_request (args_webhook a)
                                           (body_of (snd kv)))
                order) /\
      (sent + lost = List.length filtered)%nat /\
      In (EvPrint [Lit "  Sent: "; Num (Z.of_nat sent)]) trace /\
      In (EvPrint [Lit "  Failed: "; Num (Z.of_nat lost)]) trace).
Proof.
  intros Hsend Htr Hsl. split.
  - intros filtered res name alert t Hal.
    destruct (Sending.send_step_run w a Hsend Htr Hsl filtered res name alert
                t Hal) as (body & t' & Hb & Hstep & Hp).
    exists body, t'. auto.
  - intros lower files filtered Hf Hne Hs trace sent lost.
    destruct (send_run lower w a files filtered Hsend Htr Hsl Hf Hne Hs)
      as (Hposts & Hsum & Hsent & Hlost & _).
    split; [|auto].
    exists (sorted_items filtered).
    split; [apply sorted_items_perm|]. split; [apply sorted_items_sorted|].
    exact Hposts.
Qed.

Lemma send_outcome_counted_and_run_continues_witness :
  let trace := snd (run ascii_lower flaky_world send_all example_files) in
  let sent := accepted_posts flaky_world [] trace in
  let lost := rejected_posts flaky_world [] trace in
  (exists body t',
      fixture_body server_offline = Some body /\
      let rq := webhook_request (args_webhook send_all) body in
      send_step flaky_world send_all example_files (Results 0 0)
                ("server_offline", server_offline) []
      = (Ok (if post_accepted (w_post flaky_world [] rq)
             then Results 1 0 else Results 0 1),
         [] ++ EvPost rq :: t') /\
      posts t' = []) /\
  (exists order,
      Permutation order example_files /\ Sorted by_name order /\
      posts trace
      = map (fun kv => webhook_request (args_webhook send_all)
                                       (body_of (snd kv)))
            order) /\
  (sent + lost = List.length example_files)%nat /\
  In (EvPrint [Lit "  Sent: "; Num (Z.of_nat sent)]) trace /\
  In (EvPrint [Lit "  Failed: "; Num (Z.of_nat lost)]) trace.
Proof.
  assert (H1 : args_dry_run send_all = false) by reflexivity.
  assert (H2 : forall h rq, transport_outcome (w_post flaky_world h rq)).
  { intros h rq. simpl. now destruct (posts h). }
  assert (H3 : forall h, w_sleep flaky_world h (args_delay send_all) = None)
    by reflexivity.
  destruct (send_outcome_counted_and_run_continues flaky_world send_all
              H1 H2 H3) as [Hstep Hrun].
  split.
  - apply (Hstep example_files (Results 0 0) "server_offline" server_offline
                 []).
    eexists _, _, _. repeat split; reflexivity.
  - apply (Hrun ascii_lower example_files example_files).
    + reflexivity.
    + discriminate.
    + exact example_files_sendable.
Defined.

(** C7, as stated for every fixture sent, fails on a fixture without a
    ["level"]: its body is posted, the webhook answers 200, and the
    [KeyError] raised while the report line is formatted ends the loop and
    the run: the POST is never counted, no summary is printed, and the
    fixture after it is not sent. *)
Lemma level_less_fixture_is_posted_and_never_counted :
  let rq := webhook_request (args_webhook send_all)
                            (JObj [("event", JStr "disk failing")]) in
  let header :=
    [EvPrint [Lit rule];
     EvPrint [Lit "Sending "; Num 2; Lit " mock alert(s) to webhook"];
     EvPrint [Lit "Webhook: ";
              Str (String.substring 0 60 (args_webhook send_all));
              Lit "..."];
     EvPrint [Lit rule]] in
  filter_alerts ascii_lower send_all (load_mock_alerts level_less_files)
  = Ok level_less_files /\
  w_post accepting_world header rq = PostReturns (Response 200 (Ok JNull) "") /\
  for_each (sorted_items level_less_files) (Results 0 0)
           (send_step accepting_world send_all level_less_files) header
  = (Raise (Exn KeyError "level"), header ++ [EvPost rq]) /\
  run ascii_lower accepting_world send_all level_less_files
  = (1%Z, header ++ [EvPost rq]).
Proof. vm_compute. repeat split. Qed.

Lemma prints_only_no_posts t : Forall is_print t -> posts t = [].
Proof.
  induction 1 as [|e t He _ IH]; [reflexivity|].
  destruct e; simpl in *; try contradiction; exact IH.
Qed.

(** C9 (amended).  In dry-run mode no run performs a POST, whatever the
    fixtures hold.  When each fixture of the non-empty selection has a
    level and a body, the run prints exactly one "Would send" line per
    fixture of the selection, in order of name, and ends with status 0. *)
Theorem dry_run_reports_without_sending (lower : string -> string)
        (w : world) (a : args) (files : list (string * json))
        (filtered : dict) :
  args_dry_run a = true ->
  filter_alerts lower a (load_mock_alerts files) = Ok filtered ->
  filtered <> [] ->
  let trace := snd (run lower w a files) in
  let lines := filter is_would_send (prints trace) in
  posts trace = [] /\
  (Forall (fun kv => sendable (snd kv)) filtered ->
   (exists order,
       Permutation order filtered /\ Sorted by_name order /\
       lines = map (fun kv => would_send_line (fst kv) (level_of (snd kv)))
                   order) /\
   List.length lines = List.length filtered /\
   fst (run lower w a files) = 0%Z).
Proof.
  intros Hdry Hf Hne trace lines. split.
  - apply prints_only_no_posts. unfold trace, run.
    destruct (dry_main_emits lower w a files Hdry []) as (t & Et & Ft).
    destruct (main lower w a files []) as [r tr]. simpl in *. now subst tr.
  - intros Hs.
    destruct (DryRun.dry_main lower w a files filtered Hdry Hf Hne Hs)
      as (header & footer & Hmain & Hp1 & Hp2 & Hw1 & Hw2).
    assert (Hlines : lines
                     = map (fun kv => would_send_line (fst kv)
                                                      (level_of (snd kv)))
                           (sorted_items filtered)).
    { unfold lines, trace, run. rewrite Hmain. cbn [snd].
      rewrite !prints_app, !filter_app, Hw1, Hw2, app_nil_r.
      apply DryRun.would_send_lines. }
    split; [|split].
    + exists (sorted_items filtered).
      split; [apply sorted_items_perm|]. split; [apply sorted_items_sorted|].
      exact Hlines.
    + rewrite Hlines, length_map.
      apply Permutation_length, sorted_items_perm.
    + unfold run. now rewrite Hmain.
Qed.

Lemma dry_run_reports_without_sending_witness :
  let trace := snd (run ascii_lower accepting_world dry_run_all
                        example_files) in
  let lines := filter is_would_send (prints trace) in
  posts trace = [] /\
  (exists order,
      Permutation order example_files /\ Sorted by_name order /\
      lines = map (fun kv => would_send_line (fst kv) (level_of (snd kv)))
                  order) /\
  List.length lines = List.length example_files /\
  fst (run ascii_lower accepting_world dry_run_all example_files) = 0%Z.
Proof.
  assert (H1 : args_dry_run dry_run_all = true) by reflexivity.
  assert (H2 : filter_alerts ascii_lower dry_run_all
                 (load_mock_alerts example_files) = Ok example_files)
    by reflexivity.
  assert (H3 : example_files <> []) by discriminate.
  destruct (dry_run_reports_without_sending ascii_lower accepting_world
              dry_run_all example_files example_files H1 H2 H3)
    as [Hposts Hlines].
  split; [exact Hposts|]. exact (Hlines example_files_sendable).
Defined.

(** C9, as stated for every selection, fails when a fixture lacks a
    field: dry-run mode reads ["level"] and ["body"] to print its two
    lines.  With a first fixture without ["level"] the run stops before any
    "Would send" line, with one without ["body"] after the first such line:
    the two selected fixtures get no line, or one. *)
Lemma dry_run_stops_at_an_incomplete_fixture :
  let trace := snd (run ascii_lower accepting_world dry_run_all
                        level_less_files) in
  let trace' := snd (run ascii_lower accepting_world dry_run_all
                         body_less_files) in
  filter_alerts ascii_lower dry_run_all (load_mock_alerts level_less_files)
  = Ok level_less_files /\
  filter_alerts ascii_lower dry_run_all (load_mock_alerts body_less_files)
  = Ok body_less_files /\
  List.length level_less_files = 2%nat /\
  List.length body_less_files = 2%nat /\
  filter is_would_send (prints trace) = [] /\
  filter is_would_send (prints trace')
  = [would_send_line "disk_failing" (JStr "WARN")] /\
  fst (run ascii_lower accepting_world dry_run_all body_less_files) = 1%Z /\
  run ascii_lower accepting_world dry_run_all level_less_files
  = (1%Z,
     [EvPrint [Lit rule];
      EvPrint [Lit "Sending "; Num 2; Lit " mock alert(s) to webhook"];
      EvPrint [Lit "Webhook: ";
               Str (String.substring 0 60 (args_webhook dry_run_all));
               Lit "..."];
      EvPrint [Lit rule];
      EvPrint [Lit "[DRY RUN - Not actually sending]"]]).
Proof. vm_compute. repeat split. Qed.

End ReplayerRules.

(* ================================================================== *)
(** * trigger_alerts_api.py: the session token *)
(* ================================================================== *)

Module Carries.
Import Py Eff Eff.Notations Props ApiProps Examples EffFacts Requests.
Import ApiBehaviour.
Import ApiClient.
Local Open Scope py_scope.

Lemma dict_lookup_set_same d k v : dict_lookup (dict_set d k v) k = Some v.
Proof.
  induction d as [|[k' v'] d IH]; simpl.
  - now rewrite String.eqb_refl.
  - destruct (String.eqb_spec k' k) as [->|Hne]; simpl.
    + now rewrite String.eqb_refl.
    + destruct (String.eqb_spec k' k); [contradiction|exact IH].
Qed.

Lemma dict_lookup_set_other d k k' v :
  k' <> k -> dict_lookup (dict_set d k' v) k = dict_lookup d k.
Proof.
  intros Hne. induction d as [|[k0 v0] d IH]; simpl.
  - destruct (String.eqb_spec k' k); [contradiction|reflexivity].
  - destruct (String.eqb_spec k0 k') as [->|Hn0]; simpl.
    + destruct (String.eqb_spec k' k); [contradiction|reflexivity].
    + destruct (String.eqb_spec k0 k); [reflexivity|exact IH].
Qed.

Lemma dict_of_lookup_other (items : list (string * json)) k : forall acc,
  ~ In k (map fst items) ->
  dict_lookup (fold_left (fun d kv => dict_set d (fst kv) (snd kv)) items acc)
              k
  = dict_lookup acc k.
Proof.
  induction items as [|[k' v] items IH]; intros acc Hk; simpl; [reflexivity|].
  rewrite IH by (intros H; apply Hk; now right).
  apply dict_lookup_set_other. intros ->. apply Hk. now left.
Qed.

Lemma built_by_client self sid rq :
  built_by self sid rq ->
  client_request self rq /\ form_field rq "_sid" = sid_field sid.
Proof.
  intros (api & path & method & version & params & Hp & ->).
  split; [repeat split; exists path; reflexivity|].
  unfold form_field, request_for, request_data, sid_field. cbn [rq_body].
  destruct (truthy sid); [apply dict_lookup_set_same|].
  unfold dict_of. rewrite dict_of_lookup_other; [reflexivity|].
  simpl. intros [H|[H|[H|H]]]; try discriminate. contradiction.
Qed.

Section Combinators.
Variable self : trigger.

Lemma carries_ret {A} (a : A) : carries self (ret a).
Proof. intros s. exists []. simpl. rewrite app_nil_r. auto. Qed.

Lemma carries_lift {A} (r : result A) : carries self (lift r).
Proof. intros s. exists []. simpl. rewrite app_nil_r. auto. Qed.

Lemma carries_bind {A B} (c : M state A) (k : A -> M state B) :
  carries self c -> (forall a, carries self (k a)) -> carries self (bind c k).
Proof.
  intros Hc Hk s. unfold bind.
  destruct (Hc s) as (t1 & E1 & S1 & F1).
  destruct (c s) as [[a|e] s1]; simpl in *.
  - destruct (Hk a s1) as (t2 & E2 & S2 & F2).
    exists (t1 ++ t2). rewrite E2, E1, S2, S1, app_assoc.
    repeat split. apply Forall_app. rewrite S1 in F2. auto.
  - exists t1. auto.
Qed.

Lemma carries_emit (m : string) : carries self (emit (EvCall m)).
Proof.
  intros s. exists [EvCall m]. simpl. repeat split. now repeat constructor.
Qed.

Lemma carries_print (t : text) : carries self (print t).
Proof.
  intros s. exists [EvPrint t]. simpl. repeat split. now repeat constructor.
Qed.

Lemma carries_for_each {X R} (xs : list X) (body : R -> X -> M state R) :
  (forall acc x, carries self (body acc x)) ->
  forall acc, carries self (for_each xs acc body).
Proof.
  intros Hb. induction xs as [|x xs IH]; intros acc; simpl.
  - apply carries_ret.
  - apply carries_bind; [apply Hb | intros acc'; apply IH].
Qed.

Lemma carries_time_sleep (w : world) (d : float) :
  carries self (time_sleep w d).
Proof.
  intros s. unfold time_sleep.
  destruct (w_sleep w (trace_of s) d); simpl.
  - exists []. rewrite app_nil_r. auto.
  - exists [EvSleep d]. repeat split. now repeat constructor.
Qed.

Lemma carries_request (w : world) api path method version params :
  ~ In "_sid" (map fst params) ->
  carries self (_request w self api path method version params).
Proof.
  intros Hp s. rewrite _request_run. simpl. eexists. split; [reflexivity|].
  split; [reflexivity|]. constructor; [|constructor].
  exists api, path, method, version, params. auto.
Qed.
End Combinators.

Ltac carries_step :=
  first
    [ apply carries_ret
    | apply carries_lift
    | apply carries_print
    | apply carries_emit
    | apply carries_time_sleep
    | apply carries_request; simpl; intuition discriminate
    | apply carries_for_each; intros
    | apply carries_bind; [|intros]
    | match goal with
      | |- carries _ (if ?b then _ else _) => destruct b
      | |- carries _ (let (_, _) := ?x in _) => destruct x
      end ].

Ltac carries_auto := repeat carries_step.

Lemma carries_session_body lower w self a :
  carries self (session_body lower w self a).
Proof.
  unfold session_body, discover_notification_apis, get_api_info,
    get_notification_config, run_all_tests, list_backup_tasks,
    list_webhook_providers, test_webhook_notification,
    test_push_notification, test_sms_notification, get_system_health,
    get_active_notifications, report.
  carries_auto.
Qed.

End Carries.

Module SessionToken.
Import Py Eff Eff.Notations Props ApiProps Examples EffFacts Requests.
Import ApiBehaviour Carries Session.
Import ApiClient.
Local Open Scope py_scope.

Section Exact.
Variable w : world.
Variable self : trigger.

Lemma login_exact s :
  let sent := login_history self s ++ [EvPost (login_request self (session_id s))] in
  login w self s
  = match login_answer w self s with
    | Raise e => (Raise e, State sent (session_id s))
    | Ok result =>
        match py_get result "success" JNull with
        | Raise e => (Raise e, State sent (session_id s))
        | Ok ok =>
            if truthy ok then
              match py_getitem result "data" with
              | Raise e => (Raise e, State sent (session_id s))
              | Ok data =>
                  match py_getitem data "sid" with
                  | Raise e => (Raise e, State sent (session_id s))
                  | Ok sid =>
                      (Ok true,
                       State (sent ++ [EvPrint [Lit "  ✓ Login successful"]])
                             sid)
                  end
              end
            else
              match py_get result "error" (JStr "Unknown error") with
              | Raise e => (Raise e, State sent (session_id s))
              | Ok err =>
                  (Ok false,
                   State (sent ++ [EvPrint [Lit "  ✗ Login failed: ";
                                            Val err]])
                         (session_id s))
              end
        end
    end.
Proof.
  intros sent. unfold sent, login_answer, login_history, login.
  unfold bind at 1. unfold emit at 1.
  cbn [trace_of with_trace Traced_state st_trace session_id].
  unfold bind at 1. unfold print at 1, emit at 1.
  cbn [trace_of with_trace Traced_state st_trace session_id].
  unfold bind at 1. rewrite _request_run.
  cbn [st_trace session_id]. fold (login_request self (session_id s)).
  rewrite <- !app_assoc. cbn [app].
  destruct (request_result _) as [result|e]; [|reflexivity].
  unfold bind, lift, set_session_id, print, emit, ret.
  cbn [trace_of with_trace Traced_state st_trace session_id].
  destruct (py_get result "success" JNull) as [ok|e]; [|reflexivity].
  destruct (truthy ok).
  - destruct (py_getitem result "data") as [data|e]; [|reflexivity].
    destruct (py_getitem data "sid") as [sid|e]; [|reflexivity].
    cbn [st_trace session_id]. rewrite <- ?app_assoc. reflexivity.
  - destruct (py_get result "error" (JStr "Unknown error")) as [err|e];
      [|reflexivity].
    cbn [st_trace session_id]. rewrite <- ?app_assoc. reflexivity.
Qed.

Lemma logout_exact s :
  logout w self s
  = if truthy (session_id s) then
      match logout_answer w self s with
      | Ok _ =>
          (Ok tt,
           State (logout_history s
                  ++ [EvPost (logout_request self (session_id s));
                      EvPrint [Lit "Logged out"]])
                 JNull)
      | Raise e =>
          (Raise e,
           State (logout_history s
                  ++ [EvPost (logout_request self (session_id s))])
                 (session_id s))
      end
    else (Ok tt, State (logout_history s) (session_id s)).
Proof.
  unfold logout_answer, logout_history, logout.
  unfold bind at 1. unfold emit at 1.
  cbn [trace_of with_trace Traced_state st_trace session_id].
  unfold bind at 1. unfold get_session_id at 1. cbn [session_id].
  destruct (truthy (session_id s)); [|reflexivity].
  unfold bind at 1. rewrite _request_run. cbn [st_trace session_id].
  fold (logout_request self (session_id s)).
  destruct (request_result _) as [result|e]; [|reflexivity].
  unfold bind, set_session_id, print, emit.
  cbn [trace_of with_trace Traced_state st_trace session_id].
  rewrite <- !app_assoc. reflexivity.
Qed.
End Exact.

(** X12. [login] returns [True] only when the answer is an object whose
    ["success"] is truthy and whose ["data"]["sid"] exists, and the session
    token is then that [sid]; when it returns [False] the answer is an
    object that does not report a success; and whenever it does not return
    [True] (it returns [False] or raises) the session token is left as it
    was. *)
Theorem login_stores_the_token_only_on_success
        (w : world) (self : trigger) (s : state) :
  let s' := snd (login w self s) in
  match fst (login w self s) with
  | Ok true =>
      exists d ok data sid,
        login_answer w self s = Ok (JObj d) /\
        dict_lookup d "success" = Some ok /\ truthy ok = true /\
        dict_lookup d "data" = Some data /\
        py_getitem data "sid" = Ok sid /\
        session_id s' = sid
  | Ok false =>
      refused (login_answer w self s) /\ session_id s' = session_id s
  | Raise _ => session_id s' = session_id s
  end.
Proof.
  rewrite login_exact. cbv zeta.
  destruct (login_answer w self s) as [result|e]; [|reflexivity].
  destruct result as [| | | | | |d]; try reflexivity.
  cbn [py_get py_getitem].
  destruct (dict_lookup d "success") as [ok|] eqn:Hok.
  - destruct (truthy ok) eqn:Ht.
    + destruct (dict_lookup d "data") as [data|] eqn:Hd; [|reflexivity].
      destruct (py_getitem data "sid") as [sid|e] eqn:Hs; [|reflexivity].
      cbn [fst snd session_id]. exists d, ok, data, sid.
      repeat split; auto.
    + cbn [fst snd session_id]. split; [|reflexivity].
      exists d. rewrite Hok. auto.
  - cbn [truthy fst snd session_id]. split; [|reflexivity].
    exists d. rewrite Hok. auto.
Qed.

Lemma request_result_failure o reason :
  transport_failure o reason -> request_result o = Ok (failure reason).
Proof.
  unfold transport_failure, request_result. destruct o as [e|r].
  - intros [Hcls ->]. unfold is_request_exception.
    destruct Hcls as [-> | [-> | [-> | ->]]]; reflexivity.
  - intros [Hst ->].
    destruct (raise_for_status_cases r) as [[_ Hn]|[-> _]];
      [contradiction | reflexivity].
Qed.

Lemma run_cases lower w a :
  run lower w a
  = match login w (trigger_of w a) (login_state a) with
    | (Ok true, s1) =>
        match try_finally (session_body lower w (trigger_of w a) a)
                          (logout w (trigger_of w a)) s1 with
        | (Ok _, s2) => (0%Z, st_trace s2)
        | (Raise e, s2) => (1%Z, st_trace s2)
        end
    | (_, s1) => (1%Z, st_trace s1)
    end.
Proof.
  unfold run. rewrite main_unfold.
  destruct (login _ _ _) as [[[|]|e] s1]; try reflexivity.
  destruct (try_finally _ _ _) as [[u|e] s2]; reflexivity.
Qed.

(** X13. When the login request fails at the transport level (the
    connection fails, the request times out, the server answers with an
    HTTP error status), the run prints [Login failed:] with the reason,
    makes no other request, does not enter [logout] and exits with status
    1. *)
Theorem unreachable_nas_ends_the_run_at_login
        (lower : string -> string) (w : world) (a : args) (reason : string) :
  let self := trigger_of w a in
  transport_failure
    (w_post w (login_history self (login_state a)) (login_request self JNull))
    reason ->
  run lower w a
  = (1%Z,
     login_history self (login_state a)
     ++ [EvPost (login_request self JNull);
         EvPrint [Lit "  ✗ Login failed: "; Val (JStr reason)]]).
Proof.
  intros self Hfail. rewrite run_cases. fold self.
  rewrite login_exact. cbv zeta. unfold login_answer.
  cbn [login_state session_id] in *.
  rewrite (request_result_failure _ _ Hfail). cbn.
  now rewrite <- app_assoc.
Qed.

Lemma unreachable_nas_ends_the_run_at_login_witness :
  run ascii_lower unreachable_world default_args
  = (1%Z,
     login_history (trigger_of unreachable_world default_args)
                   (login_state default_args)
     ++ [EvPost (login_request (trigger_of unreachable_world default_args)
                               JNull);
         EvPrint [Lit "  ✗ Login failed: ";
                  Val (JStr "connection refused")]]).
Proof.
  apply (unreachable_nas_ends_the_run_at_login ascii_lower unreachable_world
           default_args "connection refused").
  simpl. split; [left; reflexivity | reflexivity].
Defined.

(** X14. [logout] returns normally whatever answer [_request] gives
    it (a refusal or a transport failure included); it raises only when
    [_request] itself raises.  After a [logout] that returned, the client
    holds no session token and a second [logout] sends nothing.  After a
    [logout] that raised, the token is still there. *)
Theorem logout_forgets_the_token (w : world) (self : trigger) (s : state) :
  let s1 := snd (logout w self s) in
  fst (logout w self s)
  = (if truthy (session_id s)
     then match logout_answer w self s with
          | Ok _ => Ok tt
          | Raise e => Raise e
          end
     else Ok tt) /\
  match fst (logout w self s) with
  | Ok _ =>
      truthy (session_id s1) = false /\
      logout w self s1
      = (Ok tt, State (st_trace s1 ++ [EvCall "logout"]) (session_id s1))
  | Raise _ => session_id s1 = session_id s
  end.
Proof.
  cbv zeta. rewrite (logout_exact w self s).
  destruct (truthy (session_id s)) eqn:Ht.
  - destruct (logout_answer w self s) as [j|e]; cbn [fst snd session_id].
    + split; [reflexivity|]. split; [reflexivity|].
      now rewrite logout_exact.
    + auto.
  - cbn [fst snd session_id]. split; [reflexivity|]. split; [exact Ht|].
    rewrite logout_exact. cbn [session_id]. now rewrite Ht.
Qed.

Lemma session_posts self sid t :
  Forall (session_event self sid) t -> Forall (built_by self sid) (posts t).
Proof.
  induction 1 as [|e t He _ IH]; [constructor|].
  destruct e; simpl; auto.
Qed.

Lemma session_prompts self sid t :
  Forall (session_event self sid) t -> prompts t = [].
Proof.
  induction 1 as [|e t He _ IH]; [reflexivity|].
  destruct e; simpl; auto. contradiction.
Qed.

Lemma prompts_app t1 t2 : prompts (t1 ++ t2) = prompts t1 ++ prompts t2.
Proof.
  induction t1 as [|e t1 IH]; simpl; [reflexivity|].
  destruct e; simpl; now rewrite ?IH.
Qed.

Lemma login_request_built self sid : built_by self sid (login_request self sid).
Proof.
  eexists _, _, _, _, _. split; [|reflexivity].
  simpl. intuition discriminate.
Qed.

Lemma logout_request_built self sid :
  built_by self sid (logout_request self sid).
Proof.
  eexists _, _, _, _, _. split; [|reflexivity].
  simpl. intuition discriminate.
Qed.

(** The trace of a run, cut at the login request and at [logout]. *)
Lemma run_trace lower w a :
  let self := trigger_of w a in
  let token := session_id (snd (login w self (login_state a))) in
  exists p rest,
    snd (run lower w a)
    = startup_trace a
      ++ [EvCall "login";
          EvPrint [Lit "Logging in to "; Str (host self); Lit "..."];
          EvPost (login_request self JNull)]
      ++ p ++ rest /\
    posts p = [] /\ prompts p = [] /\
    Forall (built_by self token) (posts rest) /\ prompts rest = [].
Proof.
  intros self token. rewrite run_cases. fold self. unfold token.
  rewrite login_exact. cbv zeta. unfold login_history.
  cbn [login_state st_trace session_id].
  set (sent := (startup_trace a ++ _) ++ _).
  assert (Hsent : sent = startup_trace a
                         ++ [EvCall "login";
                             EvPrint [Lit "Logging in to "; Str (host self);
                                      Lit "..."];
                             EvPost (login_request self JNull)])
    by (unfold sent; now rewrite <- app_assoc).
  assert (Hstop : forall r : list event,
             posts r = [] -> prompts r = [] ->
             exists p rest,
               sent ++ r
               = startup_trace a
                 ++ [EvCall "login";
                     EvPrint [Lit "Logging in to "; Str (host self);
                              Lit "..."];
                     EvPost (login_request self JNull)]
                 ++ p ++ rest /\
               posts p = [] /\ prompts p = [] /\
               Forall (built_by self JNull) (posts rest) /\
               prompts rest = []).
  { intros r Hp Hq. exists r, [].
    rewrite Hsent, app_nil_r, <- app_assoc. repeat split; auto. }
  pose proof (Hstop [] eq_refl eq_refl) as Hstop0.
  rewrite app_nil_r in Hstop0.
  destruct (login_answer w self _) as [result|e]; [|exact Hstop0].
  destruct (py_get result "success" JNull) as [ok|e]; [|exact Hstop0].
  destruct (truthy ok).
  - destruct (py_getitem result "data") as [data|e]; [|exact Hstop0].
    destruct (py_getitem data "sid") as [sid|e]; [|exact Hstop0].
    cbn [snd session_id].
    set (s1 := State (sent ++ [EvPrint [Lit "  ✓ Login successful"]]) sid).
    unfold try_finally.
    destruct (carries_session_body lower w self a s1) as (body & Eb & Sb & Fb).
    destruct (session_body lower w self a s1) as [rb s2]. cbn [snd] in *.
    rewrite (logout_exact w self s2). rewrite Sb.
    cbn [s1 session_id st_trace] in *.
    exists [EvPrint [Lit "  ✓ Login successful"]].
    assert (Hb : Forall (built_by self sid) (posts body))
      by now apply session_posts.
    assert (Hq : prompts body = []) by now apply (session_prompts self sid).
    destruct (truthy sid).
    + destruct (logout_answer w self s2) as [j|e].
      * exists (body ++ [EvCall "logout"; EvPost (logout_request self sid);
                         EvPrint [Lit "Logged out"]]).
        split.
        { destruct rb; cbn [snd st_trace]; unfold logout_history;
            rewrite Eb, Hsent, <- !app_assoc; reflexivity. }
        rewrite posts_app, prompts_app, Hq. cbn [posts prompts app].
        repeat split; auto. apply Forall_app. split; [exact Hb|].
        constructor; [apply logout_request_built|constructor].
      * exists (body ++ [EvCall "logout"; EvPost (logout_request self sid)]).
        split.
        { cbn [snd st_trace]; unfold logout_history;
            rewrite Eb, Hsent, <- !app_assoc; reflexivity. }
        rewrite posts_app, prompts_app, Hq. cbn [posts prompts app].
        repeat split; auto. apply Forall_app. split; [exact Hb|].
        constructor; [apply logout_request_built|constructor].
    + exists (body ++ [EvCall "logout"]).
      split.
      { destruct rb; cbn [snd st_trace]; unfold logout_history;
          rewrite Eb, Hsent, <- !app_assoc; reflexivity. }
      rewrite posts_app, prompts_app, Hq. cbn [posts prompts app].
      rewrite app_nil_r. repeat split; auto.
  - destruct (py_get result "error" (JStr "Unknown error")) as [err|e];
      [|exact Hstop0].
    exact (Hstop [EvPrint [Lit "  ✗ Login failed: "; Val err]]
                 eq_refl eq_refl).
Qed.

(** X10. In every run of the API client the first POST is the login
    request and carries no [_sid] field; every later POST (the session
    calls and the logout request) carries [_sid] equal to the token that
    [login] stored, or no [_sid] field when that token is falsy.  Every
    POST of the run goes to [base_url/<path>] as form data, without
    headers, with certificate verification off and a timeout of 30
    seconds. *)
Theorem every_request_carries_the_session_token
        (lower : string -> string) (w : world) (a : args) :
  let self := trigger_of w a in
  let token := session_id (snd (login w self (login_state a))) in
  exists later,
    posts (snd (run lower w a)) = login_request self JNull :: later /\
    form_field (login_request self JNull) "_sid" = None /\
    Forall (fun rq => form_field rq "_sid" = sid_field token) later /\
    Forall (client_request self) (posts (snd (run lower w a))).
Proof.
  intros self token.
  destruct (run_trace lower w a) as (p & rest & Et & Hp & _ & Hr & _).
  fold self token in Et, Hr. rewrite Et.
  destruct (startup_trace_silent a) as [Hp0 _].
  rewrite !posts_app, Hp0, Hp. cbn [posts app].
  exists (posts rest). split; [reflexivity|].
  destruct (built_by_client self JNull _ (login_request_built self JNull))
    as [Hc0 Hs0].
  split; [exact Hs0|]. split.
  - eapply Forall_impl; [|exact Hr]. intros rq Hrq.
    now destruct (built_by_client self token rq Hrq).
  - constructor; [exact Hc0|].
    eapply Forall_impl; [|exact Hr]. intros rq Hrq.
    now destruct (built_by_client self token rq Hrq).
Qed.

(** X11. The password is prompted for exactly when [--password] is
    absent or empty, once, before anything else happens; the login request
    goes to [http(s)://host:port/webapi/auth.cgi], with [https] exactly
    under [--secure] and the port of [--port], or 5001 under [--secure] and
    5000 otherwise when [--port] is absent or 0; its [account] is [--user]
    and its [passwd] is the given, or else the typed, password. *)
Theorem login_request_comes_from_the_command_line
        (lower : string -> string) (w : world) (a : args) :
  let given := opt_truthy (args_password a) in
  let prompt := [Lit "Enter password for "; Str (args_user a); Lit ": "] in
  let default_port := (if args_secure a then 5001 else 5000)%Z in
  let port := match args_port a with
              | Some p => if (p =? 0)%Z then default_port else p
              | None => default_port
              end in
  prompts (snd (run lower w a)) = (if given then [] else [prompt]) /\
  (if given then True
   else hd_error (snd (run lower w a)) = Some (EvGetpass prompt)) /\
  exists lrq later,
    posts (snd (run lower w a)) = lrq :: later /\
    rq_url lrq
    = [Lit (if args_secure a then "https" else "http"); Lit "://";
       Str (args_host a); Lit ":"; Num port; Lit "/webapi"; Lit "/";
       Str "auth.cgi"] /\
    form_field lrq "account" = Some (JStr (args_user a)) /\
    form_field lrq "passwd"
    = Some (JStr (match args_password a with
                  | Some p => if given then p else w_getpass w []
                  | None => w_getpass w []
                  end)).
Proof.
  intros given prompt default_port port.
  destruct (run_trace lower w a) as (p & rest & Et & Hp & Hq & Hr & Hs).
  rewrite Et. destruct (startup_trace_silent a) as [Hp0 _].
  rewrite !prompts_app, !posts_app, Hp0, Hp, Hq, Hs.
  cbn [posts prompts app]. unfold startup_trace. fold given prompt.
  split; [now destruct given|]. split; [now destruct given|].
  eexists _, _. split; [reflexivity|].
  unfold login_request, request_for, form_field, trigger_of, init,
    password_of, port_of. cbn [rq_url rq_body base_url app username password].
  fold default_port port.
  repeat split. unfold given, opt_truthy.
  destruct (args_password a) as [pw|]; [|reflexivity].
  now destruct (pw =? "").
Qed.

End SessionToken.

(* ================================================================== *)
(** * trigger_alerts_api.py: login first, logout last (C1) *)
(* ================================================================== *)

Module SessionRules.
Import Py Eff Props ApiProps ApiBehaviour Examples EffFacts Requests Quiet.
Import Session Carries SessionToken.
Import ApiClient.

(** What [login] does, read off the answer to its request: it returns
    [True] and stores the token exactly when the answer grants one. *)
Lemma login_by_answer w self s :
  let sent := login_history self s
              ++ [EvPost (login_request self (session_id s))] in
  match granted (login_answer w self s) with
  | Some sid =>
      login w self s
      = (Ok true,
         State (sent ++ [EvPrint [Lit "  ✓ Login successful"]]) sid)
  | None =>
      exists r p,
        login w self s = (r, State (sent ++ p) (session_id s)) /\
        r <> Ok true /\ posts p = [] /\ calls p = []
  end.
Proof.
  intros sent. rewrite login_exact. fold sent. unfold granted.
  destruct (login_answer w self s) as [result|e].
  2:{ exists (Raise e), []. rewrite app_nil_r. repeat split; discriminate. }
  destruct result as [| | | | | |d];
    try (eexists (Raise _), []; rewrite app_nil_r;
         repeat split; discriminate).
  cbn [py_get py_getitem]. fold (success_of d).
  destruct (truthy (success_of d)).
  - destruct (dict_lookup d "data") as [data|].
    2:{ eexists (Raise _), []. rewrite app_nil_r. repeat split; discriminate. }
    destruct data as [| | | | | |data]; cbn [py_getitem];
      try (eexists (Raise _), []; rewrite app_nil_r;
           repeat split; discriminate).
    destruct (dict_lookup data "sid") as [sid|]; [reflexivity|].
    eexists (Raise _), []. rewrite app_nil_r. repeat split; discriminate.
  - eexists (Ok false), [_]. repeat split; discriminate.
Qed.

Lemma login_history_silent self a :
  posts (login_history self (login_state a)) = [] /\
  calls (login_history self (login_state a)) = ["login"].
Proof.
  unfold login_history, login_state. cbn [st_trace].
  destruct (startup_trace_silent a) as [Hp Hc].
  now rewrite posts_app, calls_app, Hp, Hc.
Qed.

(** C1.  In every run of the API client, against any server: nothing is
    sent before the login request, which is the first POST.  If the answer
    to it does not grant a session (a refusal such as [{"success": false}],
    a transport failure, or any answer without a truthy ["success"] and a
    ["data"]["sid"]), the run ends there: the login request is its only
    POST, [login] the only method entered, and the exit status is 1.  If
    the answer grants a session, every event from there to the entry into
    [logout] belongs to the session proper (no call of the authentication
    API, no second [login], no [logout]), and [logout] is entered exactly
    once, last, whether the session calls returned or raised; it sends the
    logout request, once, exactly when the granted token is truthy. *)
Theorem session_discipline (lower : string -> string) (w : world) (a : args) :
  let self := trigger_of w a in
  let before := login_history self (login_state a) in
  let lrq := login_request self JNull in
  let answer := login_answer w self (login_state a) in
  let trace := snd (run lower w a) in
  posts before = [] /\ calls before = ["login"] /\
  is_login_request lrq /\
  match granted answer with
  | None =>
      (exists p, trace = before ++ EvPost lrq :: p /\
                 posts p = [] /\ calls p = []) /\
      posts trace = [lrq] /\
      calls trace = ["login"] /\
      fst (run lower w a) = 1%Z
  | Some sid =>
      exists body fin,
        trace = before
                ++ EvPost lrq :: EvPrint [Lit "  ✓ Login successful"]
                :: body ++ EvCall "logout" :: fin /\
        Forall in_session body /\
        calls fin = [] /\
        posts fin = (if truthy sid then [logout_request self sid] else []) /\
        is_logout_request (logout_request self sid) /\
        count_occ string_dec (calls trace) "logout" = 1%nat
  end.
Proof.
  intros self before lrq answer trace.
  destruct (login_history_silent self a) as [Hp0 Hc0]. fold before in Hp0, Hc0.
  split; [exact Hp0|]. split; [exact Hc0|].
  split; [apply login_request_is_login|].
  pose proof (login_by_answer w self (login_state a)) as Hl.
  cbv zeta in Hl. fold answer in Hl.
  change (session_id (login_state a)) with JNull in Hl.
  fold before lrq in Hl.
  unfold trace. rewrite run_cases. fold self.
  destruct (granted answer) as [sid|].
  - rewrite Hl. unfold try_finally.
    set (s1 := State ((before ++ [EvPost lrq])
                      ++ [EvPrint [Lit "  ✓ Login successful"]]) sid).
    destruct (quiet_session_body lower w self a s1) as (body & Eb & Sb & Fb).
    destruct (session_body lower w self a s1) as [rb s2]. cbn [snd] in *.
    destruct (logout_run w self s2) as (rl & fin & sid' & Hlo & Hcf & Hpf).
    rewrite Hlo. rewrite Sb in Hpf. cbn [s1 session_id st_trace] in *.
    exists body, fin.
    assert (Htr : st_trace s2 ++ EvCall "logout" :: fin
                  = before
                    ++ EvPost lrq :: EvPrint [Lit "  ✓ Login successful"]
                    :: body ++ EvCall "logout" :: fin).
    { rewrite Eb, <- !app_assoc. reflexivity. }
    assert (Hcount : count_occ string_dec
                       (calls (before
                               ++ EvPost lrq
                               :: EvPrint [Lit "  ✓ Login successful"]
                               :: body ++ EvCall "logout" :: fin))
                       "logout" = 1%nat).
    { rewrite calls_app, Hc0. cbn [calls app].
      rewrite calls_app. cbn [calls]. rewrite Hcf.
      rewrite count_occ_cons_neq by discriminate.
      rewrite count_occ_app, (in_session_no_logout body Fb). reflexivity. }
    destruct rl as [[]|e]; [destruct rb|]; cbn [fst snd st_trace];
      rewrite Htr;
      (split; [reflexivity|]); (split; [exact Fb|]); (split; [exact Hcf|]);
      (split; [exact Hpf|]); (split; [apply logout_request_is_logout|]);
      exact Hcount.
  - destruct Hl as (r & p & Hlogin & Hr & Hp & Hc).
    rewrite Hlogin.
    assert (Hrun : (match r with
                    | Ok true =>
                        match try_finally (session_body lower w self a)
                                (logout w self)
                                (State ((before ++ [EvPost lrq]) ++ p) JNull)
                        with
                        | (Ok _, s2) => (0%Z, st_trace s2)
                        | (Raise e, s2) => (1%Z, st_trace s2)
                        end
                    | _ => (1%Z, (before ++ [EvPost lrq]) ++ p)
                    end)
                   = (1%Z, (before ++ [EvPost lrq]) ++ p)).
    { destruct r as [[|]|e]; [now contradiction Hr|reflexivity|reflexivity]. }
    cbn [st_trace] in *.
    match goal with
    | |- context [snd ?x] => replace x with (1%Z, (before ++ [EvPost lrq]) ++ p)
    end.
    cbn [fst snd]. rewrite <- app_assoc. cbn [app].
    split; [exists p; auto|].
    rewrite posts_app, calls_app, Hp0, Hc0. cbn [posts calls app].
    rewrite Hp, Hc. auto.
Qed.

End SessionRules.

(* ================================================================== *)
(** * trigger_alerts_api.py: failed calls and odd answers *)
(* ================================================================== *)

Module Calls.
Import Py Eff Eff.Notations Props ApiProps Examples EffFacts Requests.
Import ApiBehaviour ApiExamples Carries Session SessionToken.
Import ApiClient.
Local Open Scope py_scope.

(** Runs a method up to the answer of its request. *)
Ltac enter_call :=
  unfold bind at 1; unfold emit at 1;
  cbn [trace_of with_trace Traced_state st_trace session_id];
  unfold bind at 1; unfold print at 1, emit at 1;
  cbn [trace_of with_trace Traced_state st_trace session_id];
  unfold bind at 1; rewrite _request_run;
  cbn [st_trace session_id]; rewrite <- !app_assoc; cbn [app].

Ltac open_call H :=
  cbv [call_answer call_request call_sent failed_line_of
       c_name c_banner c_api c_method c_version c_params
       push_call webhook_call providers_call sms_call health_call
       active_call backup_call] in H |- *.

Ltac refused_call :=
  intros s d H Hf; open_call H;
  enter_call; rewrite H;
  unfold report, bind, lift, print, emit, ret;
  cbn [trace_of with_trace Traced_state st_trace session_id py_get];
  unfold success_of in Hf; rewrite Hf;
  cbn [trace_of with_trace Traced_state st_trace session_id];
  rewrite <- ?app_assoc; reflexivity.

Ltac object_needed :=
  intros s j H Hj; open_call H;
  enter_call; rewrite H;
  unfold report, bind, lift, print, emit, ret;
  destruct j; try contradiction; reflexivity.

Ltac not_auth :=
  unfold is_auth, api_of, form_field, call_request, request_for,
    request_data;
  cbn [rq_body c_api c_method c_version c_params push_call webhook_call
       providers_call sms_call health_call active_call backup_call];
  match goal with
  | |- context [truthy ?sid] => destruct (truthy sid)
  end; reflexivity.

Section Methods.
Variable w : world.
Variable self : trigger.

Lemma test_push_notification_refused :
  reports_failure w self (test_push_notification w self) push_call.
Proof. unfold test_push_notification. refused_call. Qed.

Lemma test_webhook_notification_refused pid :
  reports_failure w self (test_webhook_notification w self pid)
                  (webhook_call pid).
Proof. unfold test_webhook_notification. refused_call. Qed.

Lemma list_webhook_providers_refused :
  reports_failure w self (list_webhook_providers w self) providers_call.
Proof. unfold list_webhook_providers. refused_call. Qed.

Lemma test_sms_notification_refused :
  reports_failure w self (test_sms_notification w self) sms_call.
Proof. unfold test_sms_notification. refused_call. Qed.

Lemma get_system_health_refused :
  reports_failure w self (get_system_health w self) health_call.
Proof. unfold get_system_health. refused_call. Qed.

Lemma get_active_notifications_refused :
  reports_failure w self (get_active_notifications w self) active_call.
Proof. unfold get_active_notifications. refused_call. Qed.

Lemma list_backup_tasks_refused :
  reports_failure w self (list_backup_tasks w self) backup_call.
Proof. unfold list_backup_tasks. refused_call. Qed.

Lemma test_push_notification_object :
  needs_an_object w self (test_push_notification w self) push_call.
Proof. unfold test_push_notification. object_needed. Qed.

Lemma test_webhook_notification_object pid :
  needs_an_object w self (test_webhook_notification w self pid)
                  (webhook_call pid).
Proof. unfold test_webhook_notification. object_needed. Qed.

Lemma list_webhook_providers_object :
  needs_an_object w self (list_webhook_providers w self) providers_call.
Proof. unfold list_webhook_providers. object_needed. Qed.

Lemma test_sms_notification_object :
  needs_an_object w self (test_sms_notification w self) sms_call.
Proof. unfold test_sms_notification. object_needed. Qed.

Lemma get_system_health_object :
  needs_an_object w self (get_system_health w self) health_call.
Proof. unfold get_system_health. object_needed. Qed.

Lemma get_active_notifications_object :
  needs_an_object w self (get_active_notifications w self) active_call.
Proof. unfold get_active_notifications. object_needed. Qed.

Lemma list_backup_tasks_object :
  needs_an_object w self (list_backup_tasks w self) backup_call.
Proof. unfold list_backup_tasks. object_needed. Qed.

Lemma time_sleep_run (delay : float) (s : state) :
  (forall h, w_sleep w h delay = None) ->
  time_sleep w delay s
  = (Ok tt, State (st_trace s ++ [EvSleep delay]) (session_id s)).
Proof.
  intros Hsl. unfold time_sleep. cbn [trace_of with_trace Traced_state].
  now rewrite Hsl.
Qed.

Section Refused.
Hypothesis Href :
  forall h rq, is_auth rq = false -> refused (request_result (w_post w h rq)).

Lemma call_refused c s :
  is_auth (call_request self c (session_id s)) = false ->
  exists d, call_answer w self c s = Ok (JObj d) /\
            truthy (success_of d) = false.
Proof.
  intros Hc. unfold call_answer.
  destruct (Href (st_trace s ++ [EvCall (c_name c); EvPrint (c_banner c)])
                 _ Hc) as (d & E & Hf).
  exists d. auto.
Qed.

Lemma run_all_tests_refused delay s :
  (forall h, w_sleep w h delay = None) ->
  exists d1 d2 d3 d4 d5,
    let sid := session_id s in
    run_all_tests w self delay s
    = (Ok [("webhook", JNull); ("push", JObj d2); ("mail", JNull);
           ("sms", JObj d3); ("health", JObj d4); ("active", JObj d5)],
       State (st_trace s
              ++ [EvCall "run_all_tests"]
              ++ call_sent self providers_call sid ++ [failed_line_of d1]
              ++ call_sent self push_call sid ++ [failed_line_of d2]
              ++ [EvSleep delay]
              ++ call_sent self sms_call sid ++ [failed_line_of d3]
              ++ [EvSleep delay]
              ++ call_sent self health_call sid ++ [failed_line_of d4]
              ++ call_sent self active_call sid ++ [failed_line_of d5])
             sid) /\
    Forall (fun d => truthy (success_of d) = false) [d2; d3; d4; d5].
Proof.
  intros Hsl. unfold run_all_tests.
  unfold bind at 1. unfold emit at 1.
  cbn [trace_of with_trace Traced_state st_trace session_id].
  unfold bind at 1.
  match goal with
  | |- context [list_webhook_providers w self ?s1] =>
      destruct (call_refused providers_call s1 ltac:(not_auth))
        as (d1 & Ha1 & Hf1);
      rewrite (list_webhook_providers_refused s1 d1 Ha1 Hf1)
  end.
  cbn [st_trace session_id].
  unfold bind at 1. unfold lift at 1. cbn [py_get].
  fold (success_of d1). rewrite Hf1.
  unfold bind at 1. unfold ret at 1.
  unfold bind at 1.
  match goal with
  | |- context [test_push_notification w self ?s1] =>
      destruct (call_refused push_call s1 ltac:(not_auth))
        as (d2 & Ha2 & Hf2);
      rewrite (test_push_notification_refused s1 d2 Ha2 Hf2)
  end.
  cbn [st_trace session_id].
  unfold bind at 1. rewrite (time_sleep_run delay _ Hsl).
  cbn [st_trace session_id].
  unfold bind at 1.
  match goal with
  | |- context [test_sms_notification w self ?s1] =>
      destruct (call_refused sms_call s1 ltac:(not_auth))
        as (d3 & Ha3 & Hf3);
      rewrite (test_sms_notification_refused s1 d3 Ha3 Hf3)
  end.
  cbn [st_trace session_id].
  unfold bind at 1. rewrite (time_sleep_run delay _ Hsl).
  cbn [st_trace session_id].
  unfold bind at 1.
  match goal with
  | |- context [get_system_health w self ?s1] =>
      destruct (call_refused health_call s1 ltac:(not_auth))
        as (d4 & Ha4 & Hf4);
      rewrite (get_system_health_refused s1 d4 Ha4 Hf4)
  end.
  cbn [st_trace session_id].
  unfold bind at 1.
  match goal with
  | |- context [get_active_notifications w self ?s1] =>
      destruct (call_refused active_call s1 ltac:(not_auth))
        as (d5 & Ha5 & Hf5);
      rewrite (get_active_notifications_refused s1 d5 Ha5 Hf5)
  end.
  cbn [st_trace session_id]. unfold ret. cbn [dict_set String.eqb Ascii.eqb Bool.eqb].
  exists d1, d2, d3, d4, d5. cbv zeta. split.
  - rewrite <- !app_assoc. reflexivity.
  - repeat constructor; assumption.
Qed.
End Refused.

End Methods.
Lemma success_count_refused (values : list json) :
  Forall (fun v => v = JNull \/
                   exists d, v = JObj d /\ truthy (success_of d) = false)
         values ->
  success_count values = Ok 0%nat.
Proof.
  induction 1 as [|v values Hv _ IH]; [reflexivity|].
  cbn [success_count]. rewrite IH.
  destruct Hv as [->|(d & -> & Hf)]; [reflexivity|].
  destruct (truthy (JObj d)); [|reflexivity].
  cbn [py_get rbind]. fold (success_of d). now rewrite Hf.
Qed.

Lemma api_of_call self c sid :
  ~ In "api" (map fst (c_params c)) ->
  api_of (call_request self c sid) = Some (JStr (c_api c)).
Proof.
  intros Hp. unfold api_of, form_field, call_request, request_for,
    request_data. cbn [rq_body].
  assert (E : dict_lookup
                (dict_of ([("api", JStr (c_api c));
                           ("version", JInt (c_version c));
                           ("method", JStr (c_method c))] ++ c_params c))
                "api" = Some (JStr (c_api c))).
  { unfold dict_of. cbn [app fold_left dict_set fst snd String.eqb Ascii.eqb
                         Bool.eqb].
    rewrite dict_of_lookup_other by exact Hp. reflexivity. }
  destruct (truthy sid); [|exact E].
  rewrite dict_lookup_set_other by discriminate. exact E.
Qed.

Lemma refused_run (lower : string -> string) (w : world) (a : args) :
  let self := trigger_of w a in
  let token := session_id (snd (login w self (login_state a))) in
  args_discover a = false ->
  args_config a = false ->
  fst (login w self (login_state a)) = Ok true ->
  (forall h rq, is_auth rq = false ->
                refused (request_result (w_post w h rq))) ->
  (forall h rq, is_auth rq = true ->
                exists j, request_result (w_post w h rq) = Ok j) ->
  (forall h, w_sleep w h (args_delay a) = None) ->
  exists p d1 d2 d3 d4 d5 d6 fin,
    run lower w a
    = (0%Z,
       (startup_trace a
        ++ [EvCall "login";
            EvPrint [Lit "Logging in to "; Str (host self); Lit "..."];
            EvPost (login_request self JNull)] ++ p)
       ++ ([EvCall "run_all_tests"]
           ++ call_sent self providers_call token ++ [failed_line_of d1]
           ++ call_sent self push_call token ++ [failed_line_of d2]
           ++ [EvSleep (args_delay a)]
           ++ call_sent self sms_call token ++ [failed_line_of d3]
           ++ [EvSleep (args_delay a)]
           ++ call_sent self health_call token ++ [failed_line_of d4]
           ++ call_sent self active_call token ++ [failed_line_of d5])
       ++ (call_sent self backup_call token ++ [failed_line_of d6])
       ++ [EvPrint [Lit rule]; EvPrint [Lit "Summary"]; EvPrint [Lit rule];
           EvPrint [Lit "  Tests completed: "; Num 6];
           EvPrint [Lit "  Successful: "; Num 0];
           EvPrint [Lit "Check your n8n webhook to see captured alerts!"]]
       ++ EvCall "logout" :: fin) /\
    posts p = [] /\ calls p = [] /\ calls fin = [] /\
    posts fin = if truthy token then [logout_request self token] else [].
Proof.
  intros self token Hd Hc Hlogin Href Hauth Hsl.
  rewrite run_cases. fold self. unfold token.
  destruct (login_run w self (login_state a))
    as (r1 & p & sid & Hl & Hp & Hcp & _).
  cbn [login_state st_trace session_id] in Hl.
  rewrite Hl in Hlogin |- *. cbn [fst snd session_id] in *. subst r1.
  exists p.
  unfold try_finally, session_body. rewrite Hd, Hc.
  unfold bind at 1.
  match goal with
  | |- context [run_all_tests w self _ ?s1] =>
      destruct (run_all_tests_refused w self Href (args_delay a) s1 Hsl)
        as (d1 & d2 & d3 & d4 & d5 & Hall & Hfs)
  end.
  cbv zeta in Hall. rewrite Hall. clear Hall.
  cbn [st_trace session_id].
  unfold bind at 1.
  match goal with
  | |- context [list_backup_tasks w self ?s1] =>
      destruct (call_refused w self Href backup_call s1 ltac:(not_auth))
        as (d6 & Ha6 & Hf6);
      rewrite (list_backup_tasks_refused w self s1 d6 Ha6 Hf6)
  end.
  cbn [st_trace session_id].
  do 3 (unfold bind at 1; unfold print at 1, emit at 1;
        cbn [trace_of with_trace Traced_state st_trace session_id]).
  unfold bind at 1. unfold lift at 1.
  rewrite success_count_refused.
  2:{ inversion Hfs as [|? ? H2 Hfs2]; subst.
      inversion Hfs2 as [|? ? H3 Hfs3]; subst.
      inversion Hfs3 as [|? ? H4 Hfs4]; subst.
      inversion Hfs4 as [|? ? H5 _]; subst.
      cbn [map snd].
      repeat (constructor;
              [first [now left
                     | right; eexists; split; [reflexivity|assumption]]|]).
      constructor. }
  do 2 (unfold bind at 1; unfold print at 1, emit at 1;
        cbn [trace_of with_trace Traced_state st_trace session_id]).
  unfold print at 1, emit at 1.
  cbn [trace_of with_trace Traced_state st_trace session_id List.length].
  rewrite logout_exact. cbn [session_id st_trace].
  unfold logout_answer, logout_history. cbn [session_id st_trace].
  exists d1, d2, d3, d4, d5, d6.
  destruct (truthy sid) eqn:Hsid.
  - match goal with
    | |- context [w_post w ?h ?rq] =>
        destruct (Hauth h rq) as (j & Hj);
          [unfold is_auth;
           now rewrite (proj1 (logout_request_is_logout self sid))|];
          rewrite Hj
    end.
    exists [EvPost (logout_request self sid); EvPrint [Lit "Logged out"]].
    split; [|repeat split; auto].
    cbn [st_trace]. rewrite <- !app_assoc. reflexivity.
  - exists []. split; [|repeat split; auto].
    cbn [st_trace]. rewrite <- !app_assoc. reflexivity.
Qed.

(** X15. A failed call never keeps the following ones from running.
    In default mode, after a login that returned [True], on a NAS that
    answers every call of the session with a Call Result that does not
    report a success (this covers transport failures, which [_request]
    turns into such a result), the run enters the methods and calls the
    APIs in the fixed order: provider listing, push test, SMS test, system
    health, active notifications, backup tasks, then [logout]; it reports
    6 tests completed and 0 successful, and exits with status 0. *)
Theorem refused_calls_do_not_stop_the_run
        (lower : string -> string) (w : world) (a : args) :
  let self := trigger_of w a in
  let token := session_id (snd (login w self (login_state a))) in
  let trace := snd (run lower w a) in
  args_discover a = false ->
  args_config a = false ->
  fst (login w self (login_state a)) = Ok true ->
  (forall h rq, is_auth rq = false ->
                refused (request_result (w_post w h rq))) ->
  (forall h rq, is_auth rq = true ->
                exists j, request_result (w_post w h rq) = Ok j) ->
  (forall h, w_sleep w h (args_delay a) = None) ->
  fst (run lower w a) = 0%Z /\
  calls trace
  = ["login"; "run_all_tests"; "list_webhook_providers";
     "test_push_notification"; "test_sms_notification"; "get_system_health";
     "get_active_notifications"; "list_backup_tasks"; "logout"] /\
  map api_of (posts trace)
  = map (fun name => Some (JStr name))
        (["SYNO.API.Auth"; "SYNO.Core.Notification.Push.Webhook.Provider";
          "SYNO.Core.Notification.Push"; "SYNO.Core.Notification.SMS";
          "SYNO.Core.System.Status"; "SYNO.Core.DSMNotify";
          "SYNO.Backup.Task"]
         ++ if truthy token then ["SYNO.API.Auth"] else []) /\
  In (EvPrint [Lit "  Tests completed: "; Num 6]) trace /\
  In (EvPrint [Lit "  Successful: "; Num 0]) trace.
Proof.
  intros self token trace Hd Hc Hlogin Href Hauth Hsl.
  destruct (refused_run lower w a Hd Hc Hlogin Href Hauth Hsl)
    as (p & d1 & d2 & d3 & d4 & d5 & d6 & fin & Hrun & Hp & Hcp & Hcf & Hpf).
  fold self token in Hrun, Hpf. unfold trace. rewrite Hrun. cbn [fst snd].
  pose proof (startup_trace_silent a) as [Hp0 Hc0].
  assert (Hapis : forall c, ~ In "api" (map fst (c_params c)) ->
            map api_of (posts (call_sent self c token))
            = [Some (JStr (c_api c))]).
  { intros c Hc'. cbn [call_sent posts map]. now rewrite api_of_call. }
  assert (Hlogin_api : api_of (login_request self JNull)
                       = Some (JStr "SYNO.API.Auth")) by reflexivity.
  split; [reflexivity|]. split; [|split].
  - repeat rewrite ?calls_app. rewrite Hc0, Hcp. cbn [calls app call_sent].
    rewrite Hcf. reflexivity.
  - change (EvCall "logout" :: fin) with ([EvCall "logout"] ++ fin).
    repeat rewrite ?posts_app, ?map_app. rewrite Hp0, Hp, Hpf.
    rewrite !Hapis by (simpl; intuition discriminate).
    cbn [posts map app failed_line_of c_api push_call providers_call
         sms_call health_call active_call backup_call].
    rewrite Hlogin_api.
    destruct (truthy token); [|reflexivity].
    cbn [map posts app].
    now rewrite (proj1 (logout_request_is_logout self token)).
  - split; do 3 (apply in_or_app; right); apply in_or_app; left;
      simpl; auto 10.
Qed.

Lemma refused_calls_do_not_stop_the_run_witness :
  let trace := snd (run ascii_lower refusing_nas default_args) in
  fst (run ascii_lower refusing_nas default_args) = 0%Z /\
  calls trace
  = ["login"; "run_all_tests"; "list_webhook_providers";
     "test_push_notification"; "test_sms_notification"; "get_system_health";
     "get_active_notifications"; "list_backup_tasks"; "logout"] /\
  map api_of (posts trace)
  = map (fun name => Some (JStr name))
        (["SYNO.API.Auth"; "SYNO.Core.Notification.Push.Webhook.Provider";
          "SYNO.Core.Notification.Push"; "SYNO.Core.Notification.SMS";
          "SYNO.Core.System.Status"; "SYNO.Core.DSMNotify";
          "SYNO.Backup.Task"]
         ++ if truthy
                 (session_id
                    (snd (login refusing_nas
                                (trigger_of refusing_nas default_args)
                                (login_state default_args))))
            then ["SYNO.API.Auth"] else []) /\
  In (EvPrint [Lit "  Tests completed: "; Num 6]) trace /\
  In (EvPrint [Lit "  Successful: "; Num 0]) trace.
Proof.
  apply (refused_calls_do_not_stop_the_run ascii_lower refusing_nas
           default_args).
  - reflexivity.
  - reflexivity.
  - reflexivity.
  - intros h rq Hrq. simpl. rewrite Hrq. exists [("success", JBool false)].
    split; reflexivity.
  - intros h rq Hrq. simpl. rewrite Hrq. eexists. reflexivity.
  - reflexivity.
Defined.

(** X16. The methods that inspect their Call Result need it to be a
    JSON object.  When the server answers 2xx with a body that is valid
    JSON but not an object (a list, a string, [null], a number), each of
    [test_push_notification], [test_webhook_notification],
    [list_webhook_providers], [test_sms_notification],
    [get_system_health], [get_active_notifications] and
    [list_backup_tasks] raises [AttributeError] after it has sent its
    request. *)
Theorem a_call_result_that_is_not_an_object_raises
        (w : world) (self : trigger) (profile_id : json) :
  needs_an_object w self (test_push_notification w self) push_call /\
  needs_an_object w self (test_webhook_notification w self profile_id)
                  (webhook_call profile_id) /\
  needs_an_object w self (list_webhook_providers w self) providers_call /\
  needs_an_object w self (test_sms_notification w self) sms_call /\
  needs_an_object w self (get_system_health w self) health_call /\
  needs_an_object w self (get_active_notifications w self) active_call /\
  needs_an_object w self (list_backup_tasks w self) backup_call.
Proof.
  repeat split.
  - apply test_push_notification_object.
  - apply test_webhook_notification_object.
  - apply list_webhook_providers_object.
  - apply test_sms_notification_object.
  - apply get_system_health_object.
  - apply get_active_notifications_object.
  - apply list_backup_tasks_object.
Qed.

Lemma a_call_result_that_is_not_an_object_raises_witness :
  test_push_notification list_world nas initial
  = (Raise (Exn AttributeError "object has no attribute 'get'"),
     State (call_sent nas push_call JNull) JNull).
Proof.
  apply (proj1 (a_call_result_that_is_not_an_object_raises list_world nas
                  (JInt 1))
               initial (JList [JInt 1])).
  - reflexivity.
  - exact I.
Defined.

End Calls.

Module Modes.
Import Py Eff Eff.Notations Props ApiProps Examples EffFacts Requests.
Import ApiBehaviour ApiExamples Carries Session SessionToken Calls.
Import ApiClient.
Local Open Scope py_scope.

(** X17. [get_notification_config] makes three requests, in the order
    push configuration, mail configuration, webhook list, and returns the
    three Call Results under the keys ["push"], ["mail"], ["webhook"]
    without looking into them: a failed call is stored like a successful
    one. *)
Theorem configuration_stores_the_three_answers_as_they_come
        (w : world) (self : trigger) (s : state) (j1 j2 j3 : json) :
  let sid := session_id s in
  let rq1 := request_for self "SYNO.Core.Notification.Push.Conf" "entry.cgi"
                         "get" 1 [] sid in
  let rq2 := request_for self "SYNO.Core.Notification.Mail.Conf" "entry.cgi"
                         "get" 1 [] sid in
  let rq3 := request_for self "SYNO.Core.Notification.Webhook" "entry.cgi"
                         "list" 1 [] sid in
  let h := st_trace s
           ++ [EvCall "get_notification_config";
               EvPrint [Lit "[CONFIG] Getting notification configuration..."]]
  in
  request_result (w_post w h rq1) = Ok j1 ->
  request_result (w_post w (h ++ [EvPost rq1]) rq2) = Ok j2 ->
  request_result (w_post w (h ++ [EvPost rq1; EvPost rq2]) rq3) = Ok j3 ->
  get_notification_config w self s
  = (Ok [("push", j1); ("mail", j2); ("webhook", j3)],
     State (h ++ [EvPost rq1; EvPost rq2; EvPost rq3]) sid).
Proof.
  intros sid rq1 rq2 rq3 h H1 H2 H3. unfold get_notification_config.
  enter_call. fold sid rq1.
  change (st_trace s ++ _ :: _ :: [EvPost rq1]) with
    (st_trace s ++ [EvCall "get_notification_config";
                    EvPrint [Lit "[CONFIG] Getting notification configuration..."]]
                ++ [EvPost rq1]).
  fold h. rewrite H1.
  unfold bind at 1. rewrite _request_run. cbn [st_trace session_id].
  fold sid rq2. rewrite app_assoc. fold h. rewrite H2.
  unfold bind at 1. rewrite _request_run. cbn [st_trace session_id].
  fold sid rq3. rewrite <- (app_assoc h). cbn [app]. rewrite H3.
  unfold ret. rewrite <- app_assoc. reflexivity.
Qed.

Lemma configuration_stores_the_three_answers_as_they_come_witness :
  get_notification_config unreachable_world nas initial
  = (Ok [("push", failure "connection refused");
         ("mail", failure "connection refused");
         ("webhook", failure "connection refused")],
     State ([EvCall "get_notification_config";
             EvPrint [Lit "[CONFIG] Getting notification configuration..."]]
            ++ [EvPost (request_for nas "SYNO.Core.Notification.Push.Conf"
                                    "entry.cgi" "get" 1 [] JNull);
                EvPost (request_for nas "SYNO.Core.Notification.Mail.Conf"
                                    "entry.cgi" "get" 1 [] JNull);
                EvPost (request_for nas "SYNO.Core.Notification.Webhook"
                                    "entry.cgi" "list" 1 [] JNull)])
           JNull).
Proof.
  apply (configuration_stores_the_three_answers_as_they_come
           unreachable_world nas initial
           (failure "connection refused") (failure "connection refused")
           (failure "connection refused")); reflexivity.
Defined.

(** X18. When the catalog query does not report a success,
    [discover_notification_apis] prints one line and returns the empty
    list after that single request, without raising. *)
Theorem discovery_returns_nothing_when_the_catalog_call_fails
        (lower : string -> string) (w : world) (self : trigger) (s : state)
        (d : dict) :
  let sid := session_id s in
  let rq := request_for self "SYNO.API.Info" "query.cgi" "query" 1
                        [("query", JStr "all")] sid in
  let h := st_trace s
           ++ [EvCall "discover_notification_apis";
               EvPrint [Lit "[DISCOVER] Discovering notification APIs..."];
               EvCall "get_api_info"] in
  request_result (w_post w h rq) = Ok (JObj d) ->
  truthy (success_of d) = false ->
  discover_notification_apis lower w self s
  = (Ok [],
     State (h ++ [EvPost rq; EvPrint [Lit "  ✗ Could not get API info"]])
           sid).
Proof.
  intros sid rq h Ha Hf. unfold discover_notification_apis, get_api_info.
  unfold bind at 1. unfold emit at 1.
  cbn [trace_of with_trace Traced_state st_trace session_id].
  unfold bind at 1. unfold print at 1, emit at 1.
  cbn [trace_of with_trace Traced_state st_trace session_id].
  unfold bind at 1. unfold bind at 1. unfold emit at 1.
  cbn [trace_of with_trace Traced_state st_trace session_id].
  rewrite _request_run. cbn [st_trace session_id].
  rewrite <- !app_assoc. cbn [app]. fold sid rq. fold h. rewrite Ha.
  unfold bind, lift, print, emit, ret.
  cbn [trace_of with_trace Traced_state st_trace session_id py_get].
  fold (success_of d). rewrite Hf. cbn [negb st_trace session_id].
  unfold h. rewrite <- !app_assoc. reflexivity.
Qed.

Lemma discovery_returns_nothing_when_the_catalog_call_fails_witness :
  discover_notification_apis ascii_lower unreachable_world nas initial
  = (Ok [],
     State ([EvCall "discover_notification_apis";
             EvPrint [Lit "[DISCOVER] Discovering notification APIs..."];
             EvCall "get_api_info"]
            ++ [EvPost (request_for nas "SYNO.API.Info" "query.cgi" "query" 1
                                    [("query", JStr "all")] JNull);
                EvPrint [Lit "  ✗ Could not get API info"]])
           JNull).
Proof.
  apply (discovery_returns_nothing_when_the_catalog_call_fails ascii_lower
           unreachable_world nas initial
           [("success", JBool false);
            ("error", JStr "connection refused")]); reflexivity.
Defined.

(** ** What [run_all_tests] returns *)

Section Returns.
Context {A : Type}.

Lemma returns_ret (P : A -> Prop) (a : A) : P a -> returns P (ret a).
Proof. intros Ha s. exact Ha. Qed.

Lemma returns_bind {B} (Pb : B -> Prop) (P : A -> Prop) (c : M state B)
      (k : B -> M state A) :
  returns Pb c -> (forall b, Pb b -> returns P (k b)) -> returns P (bind c k).
Proof.
  intros Hc Hk s. unfold bind. specialize (Hc s).
  destruct (c s) as [[b|e] s1]; simpl in *; [|exact I].
  apply Hk. exact Hc.
Qed.

Lemma returns_any {B} (c : M state B) : returns (fun _ => True) c.
Proof. intros s. now destruct (fst (c s)). Qed.

Lemma returns_for_each {X} (P : A -> Prop) (xs : list X)
      (body : A -> X -> M state A) :
  (forall acc x, P acc -> returns P (body acc x)) ->
  forall acc, P acc -> returns P (for_each xs acc body).
Proof.
  intros Hb. induction xs as [|x xs IH]; intros acc Hacc; simpl.
  - now apply returns_ret.
  - apply (returns_bind P); [now apply Hb | intros acc' H'; now apply IH].
Qed.
End Returns.

Ltac then_any := apply (returns_bind (fun _ => True)); [apply returns_any|].

Lemma six_entries_set results k v :
  six_entries results ->
  In k ["webhook"; "push"; "sms"; "health"; "active"] ->
  six_entries (dict_set results k v).
Proof.
  intros (v1 & v2 & v4 & v5 & v6 & ->) Hk. simpl in Hk.
  destruct Hk as [<-|[<-|[<-|[<-|[<-|[]]]]]]; cbn;
    eexists _, _, _, _, _; reflexivity.
Qed.

Lemma run_all_tests_returns w self delay :
  returns six_entries (run_all_tests w self delay).
Proof.
  unfold run_all_tests.
  then_any. intros _ _. then_any. intros providers _.
  then_any. intros ok _.
  apply (returns_bind six_entries).
  - destruct (truthy ok).
    + then_any. intros data _. then_any. intros provider_list _.
      then_any. intros ps _. apply returns_for_each.
      * intros acc x Hacc. then_any. intros pid _. then_any. intros r _.
        then_any. intros _ _. apply returns_ret.
        apply six_entries_set; simpl; auto.
      * eexists _, _, _, _, _; reflexivity.
    + apply returns_ret. eexists _, _, _, _, _; reflexivity.
  - intros results Hres. then_any. intros r1 _. then_any. intros _ _.
    then_any. intros r2 _. then_any. intros _ _.
    then_any. intros r3 _. then_any. intros r4 _.
    apply returns_ret.
    repeat (apply six_entries_set; [|simpl; auto 10]). exact Hres.
Qed.

Lemma success_count_bound (values : list json) : forall n,
  success_count values = Ok n ->
  (n <= List.length (filter truthy values))%nat.
Proof.
  induction values as [|v values IH]; intros n H; simpl in *.
  - inversion H. lia.
  - destruct (truthy v) eqn:Hv.
    + destruct (py_get v "success" JNull) as [sv|e]; simpl in H;
        [|discriminate].
      destruct (success_count values) as [m|e]; simpl in H; [|discriminate].
      specialize (IH m eq_refl). inversion H; subst. simpl.
      destruct (truthy sv); lia.
    + simpl in H.
      destruct (success_count values) as [m|e]; simpl in H; [|discriminate].
      specialize (IH m eq_refl). inversion H; subst. lia.
Qed.

(** X19. Whenever [run_all_tests] returns, its result has the six keys
    [webhook], [push], [mail], [sms], [health], [active], in this order,
    the value under ["mail"] is [None], and the summary counts at most 5
    successful tests out of the 6 it reports as completed. *)
Theorem the_mail_result_is_always_empty
        (w : world) (self : trigger) (delay : float) (s : state) :
  match fst (run_all_tests w self delay s) with
  | Ok results =>
      dict_keys results
      = ["webhook"; "push"; "mail"; "sms"; "health"; "active"] /\
      dict_lookup results "mail" = Some JNull /\
      match success_count (map snd results) with
      | Ok n => (n <= 5)%nat
      | Raise _ => True
      end
  | Raise _ => True
  end.
Proof.
  pose proof (run_all_tests_returns w self delay s) as H.
  destruct (fst (run_all_tests w self delay s)) as [results|e]; [|exact I].
  destruct H as (v1 & v2 & v4 & v5 & v6 & ->).
  split; [reflexivity|]. split; [reflexivity|].
  destruct (success_count _) as [n|e] eqn:Hn; [|exact I].
  apply success_count_bound in Hn. cbn [map snd] in Hn.
  assert (E : filter truthy [v1; v2; JNull; v4; v5; v6]
              = filter truthy [v1; v2; v4; v5; v6]).
  { simpl. now destruct (truthy v1), (truthy v2). }
  rewrite E in Hn.
  pose proof (filter_length_le truthy [v1; v2; v4; v5; v6]) as Hle.
  simpl List.length in Hle at 2. lia.
Qed.

End Modes.

Module Webhooks.
Import Py Eff Eff.Notations Props ApiProps Examples EffFacts Requests.
Import ApiBehaviour ApiExamples Carries Session SessionToken Calls.
Import ApiClient.
Local Open Scope py_scope.

Lemma sleeps_app t1 t2 : sleeps (t1 ++ t2) = sleeps t1 ++ sleeps t2.
Proof.
  induction t1 as [|e t1 IH]; simpl; [reflexivity|].
  destruct e; simpl; now rewrite ?IH.
Qed.

Lemma providers_of_spec d ps :
  providers_of d = Some ps ->
  exists data provider_list,
    py_get (JObj d) "data" (JObj []) = Ok data /\
    py_get data "list" (JList []) = Ok provider_list /\
    py_len provider_list = Ok (List.length ps) /\
    py_iter provider_list = Ok ps.
Proof.
  unfold providers_of.
  destruct (dict_lookup d "data") as [[| | | | | |data]|] eqn:Hd;
    try discriminate.
  - destruct (dict_lookup data "list") as [[| | | | |l|]|] eqn:Hl;
      try discriminate; intros E; inversion E; subst.
    + exists (JObj data), (JList ps). cbn [py_get]. rewrite Hd, Hl.
      repeat split.
    + exists (JObj data), (JList []). cbn [py_get]. rewrite Hd, Hl.
      repeat split.
  - intros E. inversion E; subst.
    exists (JObj []), (JList []). cbn [py_get]. rewrite Hd. repeat split.
Qed.

Section Loop.
Variable w : world.
Variable self : trigger.
Variable delay : float.
Hypothesis Hsleep : forall h, w_sleep w h delay = None.

Lemma test_webhook_notification_run pid s d :
  call_answer w self (webhook_call pid) s = Ok (JObj d) ->
  exists line,
    test_webhook_notification w self pid s
    = (Ok (JObj d),
       State (st_trace s ++ call_sent self (webhook_call pid) (session_id s)
              ++ [EvPrint line])
             (session_id s)).
Proof.
  intros H. open_call H. unfold test_webhook_notification.
  enter_call. rewrite H.
  unfold report, bind, lift, print, emit, ret.
  cbn [trace_of with_trace Traced_state st_trace session_id py_get].
  destruct (truthy _);
    cbn [trace_of with_trace Traced_state st_trace session_id];
    rewrite <- ?app_assoc; eexists; reflexivity.
Qed.

(** The lines [list_webhook_providers] prints for the providers. *)
Lemma providers_listing (ps : list json) : forall s : state,
  Forall is_object ps ->
  exists lines,
    for_each ps tt (fun _ p =>
      name <- lift (py_get p "target_name" JNull) ;;
      pid <- lift (py_get p "profile_id" JNull) ;;
      print [Lit "    - "; Val name; Lit " (profile_id="; Val pid; Lit ")"]) s
    = (Ok tt, State (st_trace s ++ lines) (session_id s)) /\
    posts lines = [] /\ calls lines = [] /\ sleeps lines = [].
Proof.
  induction ps as [|p ps IH]; intros s Hps.
  - exists []. simpl. unfold ret. rewrite app_nil_r. now destruct s.
  - inversion Hps as [|? ? [d ->] Hps']; subst.
    cbn [for_each]. unfold bind at 1.
    unfold bind, lift, print, emit.
    cbn [trace_of with_trace Traced_state st_trace session_id py_get].
    match goal with
    | |- context [for_each ps tt _ ?s1] =>
        destruct (IH s1 Hps') as (lines & E & Hp & Hc & Hs)
    end.
    unfold bind, lift, print, emit in E.
    cbn [trace_of with_trace Traced_state st_trace session_id] in E.
    rewrite E. cbn [st_trace session_id].
    eexists (_ :: lines). rewrite <- app_assoc. split; [reflexivity|].
    simpl. auto.
Qed.

Lemma list_webhook_providers_run s d ps :
  call_answer w self providers_call s = Ok (JObj d) ->
  truthy (success_of d) = true ->
  providers_of d = Some ps ->
  Forall is_object ps ->
  exists lines,
    list_webhook_providers w self s
    = (Ok (JObj d),
       State (st_trace s ++ call_sent self providers_call (session_id s)
              ++ lines)
             (session_id s)) /\
    posts lines = [] /\ calls lines = [] /\ sleeps lines = [].
Proof.
  intros H Hok Hps Hobj. open_call H. unfold list_webhook_providers.
  enter_call. rewrite H.
  destruct (providers_of_spec d ps Hps) as (data & pl & Hd & Hl & Hn & Hi).
  unfold bind at 1. unfold lift at 1.
  change (py_get (JObj d) "success" JNull) with (Ok (success_of d)).
  cbv beta iota. rewrite Hok.
  unfold bind at 1. unfold bind at 1. unfold lift at 1. rewrite Hd.
  unfold bind at 1. unfold lift at 1. rewrite Hl.
  unfold bind at 1. unfold lift at 1. rewrite Hn.
  unfold bind at 1. unfold print at 1, emit at 1.
  cbn [trace_of with_trace Traced_state st_trace session_id].
  unfold bind at 1. unfold lift at 1. rewrite Hi.
  match goal with
  | |- context [for_each ps tt _ ?s1] =>
      destruct (providers_listing ps s1 Hobj) as (lines & E & Hp & Hc & Hs)
  end.
  rewrite E. cbn [st_trace session_id]. unfold ret.
  eexists (_ :: lines). rewrite <- !app_assoc. split; [reflexivity|].
  simpl. auto.
Qed.

Hypothesis Hwebhook :
  forall h pid sid, exists d,
    request_result (w_post w h (call_request self (webhook_call pid) sid))
    = Ok (JObj d).

Lemma webhook_loop (ps : list json) : forall (results : dict) (s : state),
  Forall is_object ps ->
  exists results' t,
    for_each ps results (fun results provider =>
      profile_id <- lift (py_get provider "profile_id" (JInt 1)) ;;
      r <- test_webhook_notification w self profile_id ;;
      let results := dict_set results "webhook" r in
      time_sleep w delay ;;
      ret results) s
    = (Ok results', State (st_trace s ++ t) (session_id s)) /\
    posts t = map (fun p => call_request self (webhook_call (profile_id_of p))
                                         (session_id s)) ps /\
    calls t = map (fun _ => "test_webhook_notification") ps /\
    sleeps t = map (fun _ => delay) ps.
Proof.
  induction ps as [|p ps IH]; intros results s Hps.
  - exists results, []. simpl. unfold ret. rewrite app_nil_r. now destruct s.
  - inversion Hps as [|? ? [d ->] Hps']; subst.
    cbn [for_each]. unfold bind at 1. unfold bind at 1. unfold lift at 1.
    cbn [py_get]. fold (profile_id_of (JObj d)).
    set (pid := profile_id_of (JObj d)).
    unfold bind at 1.
    destruct (Hwebhook (st_trace s ++ [EvCall (c_name (webhook_call pid));
                                       EvPrint (c_banner (webhook_call pid))])
                       pid (session_id s)) as (dw & Hdw).
    destruct (test_webhook_notification_run pid s dw Hdw) as (line & Hrun).
    rewrite Hrun. unfold bind at 1. rewrite (time_sleep_run w delay _ Hsleep).
    cbn [st_trace session_id]. unfold ret at 1. cbv beta iota zeta.
    match goal with
    | |- context [for_each ps ?r _ ?s1] =>
        destruct (IH r s1 Hps') as (results' & t & E & Hp & Hc & Hs)
    end.
    cbv zeta in E. rewrite E. cbn [st_trace session_id] in *.
    exists results'. eexists. rewrite <- !app_assoc.
    split; [reflexivity|].
    rewrite !posts_app, !calls_app, !sleeps_app, Hp, Hc, Hs.
    repeat split.
Qed.
End Loop.

Lemma starts_with (self : trigger) (e : event) {A B}
      (k1 : unit -> M state A) (k : A -> M state B) (s : state) :
  carries self (k1 tt) -> (forall a, carries self (k a)) ->
  exists rest,
    st_trace (snd (bind (bind (emit e) k1) k s)) = st_trace s ++ e :: rest.
Proof.
  intros H1 Hk. unfold bind at 1. unfold bind at 1. unfold emit at 1.
  cbn [trace_of with_trace Traced_state].
  destruct (H1 (State (st_trace s ++ [e]) (session_id s)))
    as (t1 & E1 & _ & _).
  destruct (k1 tt _) as [[a|x] s2]; cbn [snd st_trace] in *.
  - destruct (Hk a s2) as (t2 & E2 & _ & _).
    exists (t1 ++ t2). rewrite E2, E1, <- !app_assoc. reflexivity.
  - exists t1. rewrite E1, <- app_assoc. reflexivity.
Qed.

(** X20. When the provider listing succeeds, [run_all_tests] tests each
    listed webhook provider once, in listing order, with the provider's
    [profile_id] (1 when the provider has none), pauses after each of these
    tests, and only then goes on to the push test; this holds whatever the
    webhook tests answer, as long as the answers are objects. *)
Theorem one_webhook_test_per_provider
        (w : world) (self : trigger) (delay : float) (s : state)
        (d : dict) (ps : list json) :
  let sid := session_id s in
  let entered := State (st_trace s ++ [EvCall "run_all_tests"]) sid in
  call_answer w self providers_call entered = Ok (JObj d) ->
  truthy (success_of d) = true ->
  providers_of d = Some ps ->
  Forall is_object ps ->
  (forall h pid sid', exists dw,
      request_result (w_post w h (call_request self (webhook_call pid) sid'))
      = Ok (JObj dw)) ->
  (forall h, w_sleep w h delay = None) ->
  exists t rest,
    st_trace (snd (run_all_tests w self delay s))
    = st_trace s ++ t ++ EvCall "test_push_notification" :: rest /\
    posts t
    = call_request self providers_call sid
      :: map (fun p => call_request self (webhook_call (profile_id_of p)) sid)
             ps /\
    calls t
    = "run_all_tests" :: "list_webhook_providers"
      :: map (fun _ => "test_webhook_notification") ps /\
    sleeps t = map (fun _ => delay) ps.
Proof.
  intros sid entered Ha Hok Hps Hobj Hwebhook Hsleep.
  unfold run_all_tests.
  unfold bind at 1. unfold emit at 1.
  cbn [trace_of with_trace Traced_state]. fold sid entered.
  unfold bind at 1.
  destruct (list_webhook_providers_run w self entered d ps Ha Hok Hps Hobj)
    as (lines & Hlist & Hlp & Hlc & Hls).
  rewrite Hlist. cbn [entered st_trace session_id].
  unfold bind at 1. unfold lift at 1.
  change (py_get (JObj d) "success" JNull) with (Ok (success_of d)).
  cbv beta iota. rewrite Hok.
  destruct (providers_of_spec d ps Hps) as (data & pl & Hd & Hl & _ & Hi).
  unfold bind at 1. unfold bind at 1. unfold lift at 1. rewrite Hd.
  unfold bind at 1. unfold lift at 1. rewrite Hl.
  unfold bind at 1. unfold lift at 1. rewrite Hi. cbv zeta.
  match goal with
  | |- context [for_each ps ?r _ ?s1] =>
      destruct (webhook_loop w self delay Hsleep Hwebhook ps r s1 Hobj)
        as (results' & t & E & Hp & Hc & Hs)
  end.
  cbv zeta in E. rewrite E. cbn [st_trace session_id] in *.
  unfold test_push_notification.
  match goal with
  | |- context [bind (bind (emit ?e) ?k1) ?k ?s1] =>
      destruct (starts_with self e k1 k s1) as (rest & Hrest)
  end.
  { unfold report. carries_auto. }
  { intros r. unfold test_sms_notification, get_system_health,
      get_active_notifications, report. carries_auto. }
  rewrite Hrest. cbn [st_trace].
  exists ([EvCall "run_all_tests"]
          ++ call_sent self providers_call sid ++ lines ++ t), rest.
  split; [now rewrite <- !app_assoc|].
  rewrite !posts_app, !calls_app, !sleeps_app, Hlp, Hlc, Hls, Hp, Hc, Hs.
  repeat split.
Qed.

Lemma one_webhook_test_per_provider_witness :
  exists t rest,
    st_trace (snd (run_all_tests two_providers_nas nas 2%float initial))
    = [] ++ t ++ EvCall "test_push_notification" :: rest /\
    posts t
    = call_request nas providers_call JNull
      :: map (fun p => call_request nas (webhook_call (profile_id_of p))
                                    JNull)
             two_providers /\
    calls t
    = "run_all_tests" :: "list_webhook_providers"
      :: map (fun _ => "test_webhook_notification") two_providers /\
    sleeps t = map (fun _ => 2%float) two_providers.
Proof.
  apply (one_webhook_test_per_provider two_providers_nas nas 2%float initial
           [("success", JBool true);
            ("data", JObj [("list", JList two_providers)])]
           two_providers).
  - reflexivity.
  - reflexivity.
  - reflexivity.
  - repeat constructor; eexists; reflexivity.
  - intros h pid sid'. eexists. reflexivity.
  - reflexivity.
Defined.

End Webhooks.

(* ================================================================== *)
(** * trigger_alerts.py: what is run, and the exit status *)
(* ================================================================== *)

Module SshFacts.
Import Py Eff Eff.Notations SshTool SshProps SshExamples.
Local Open Scope py_scope.

Lemma runs_app t1 t2 : runs (t1 ++ t2) = runs t1 ++ runs t2.
Proof.
  induction t1 as [|e t1 IH]; simpl; [reflexivity|].
  destruct e; simpl; now rewrite ?IH.
Qed.

Lemma pauses_app t1 t2 : pauses (t1 ++ t2) = pauses t1 ++ pauses t2.
Proof.
  induction t1 as [|e t1 IH]; simpl; [reflexivity|].
  destruct e; simpl; now rewrite ?IH.
Qed.

Lemma passed_runs_app w t1 : forall h t2,
  passed_runs w h (t1 ++ t2)
  = (passed_runs w h t1 + passed_runs w (h ++ t1) t2)%nat.
Proof.
  induction t1 as [|e t1 IH]; intros h t2; simpl.
  - now rewrite app_nil_r.
  - rewrite IH, <- app_assoc. simpl. lia.
Qed.

Lemma failed_runs_app w t1 : forall h t2,
  failed_runs w h (t1 ++ t2)
  = (failed_runs w h t1 + failed_runs w (h ++ t1) t2)%nat.
Proof.
  induction t1 as [|e t1 IH]; intros h t2; simpl.
  - now rewrite app_nil_r.
  - rewrite IH, <- app_assoc. simpl. lia.
Qed.

Section Appends.
Variable Q : event -> Prop.

Lemma appends_ret {A} (a : A) : appends Q (ret a).
Proof. intros t. exists []. simpl. rewrite app_nil_r. auto. Qed.

Lemma appends_lift {A} (r : result A) : appends Q (lift r).
Proof. intros t. exists []. simpl. rewrite app_nil_r. auto. Qed.

Lemma appends_raise {A} (e : exn) : appends Q (raise (A := A) e).
Proof. intros t. exists []. simpl. rewrite app_nil_r. auto. Qed.

Lemma appends_bind {A B} (c : M (list event) A) (k : A -> M (list event) B) :
  appends Q c -> (forall a, appends Q (k a)) -> appends Q (bind c k).
Proof.
  intros Hc Hk t. unfold bind.
  destruct (Hc t) as (t1 & E1 & F1).
  destruct (c t) as [[a|e] s1]; simpl in *.
  - destruct (Hk a s1) as (t2 & E2 & F2).
    exists (t1 ++ t2). rewrite E2, E1, app_assoc. split; [reflexivity|].
    apply Forall_app; auto.
  - exists t1. auto.
Qed.

Lemma appends_emit (e : event) : Q e -> appends Q (emit e).
Proof. intros He t. exists [e]. simpl. auto. Qed.

Lemma appends_print (x : text) : Q (EvPrint x) -> appends Q (print x).
Proof. apply appends_emit. Qed.

Lemma appends_subprocess_run (w : world) (argv : list text) :
  Q (EvRun argv) -> appends Q (subprocess_run w argv).
Proof. intros He t. exists [EvRun argv]. simpl. auto. Qed.

Lemma appends_time_sleep (w : world) (d : float) :
  Q (EvSleep d) -> appends Q (time_sleep w d).
Proof.
  intros Hq t. unfold time_sleep. destruct (w_sleep w t d); simpl.
  - exists []. rewrite app_nil_r. auto.
  - exists [EvSleep d]. auto.
Qed.

Lemma appends_getpass (w : world) (p : text) :
  Q (EvGetpass p) -> appends Q (getpass w p).
Proof. intros Hq t. exists [EvGetpass p]. simpl. auto. Qed.

Lemma appends_for_each {X R} (xs : list X)
      (body : R -> X -> M (list event) R) :
  (forall acc x, appends Q (body acc x)) ->
  forall acc, appends Q (for_each xs acc body).
Proof.
  intros Hb. induction xs as [|x xs IH]; intros acc; simpl.
  - apply appends_ret.
  - apply appends_bind; [apply Hb | intros acc'; apply IH].
Qed.
End Appends.

Ltac appends_step :=
  first
    [ apply appends_ret
    | apply appends_lift
    | apply appends_raise
    | apply appends_print; exact I
    | apply appends_emit; exact I
    | apply appends_time_sleep; exact I
    | apply appends_getpass; exact I
    | apply appends_for_each; intros
    | apply appends_bind; [|intros]
    | match goal with
      | |- appends _ (if ?b then _ else _) => destruct b
      | |- appends _ (let (_, _) := ?x in _) => destruct x
      | |- appends _ (match ?x with
                      | Completed _ _ _ => _
                      | TimeoutExpired => _
                      | FileNotFoundError => _
                      | RunRaises _ => _
                      end) => destruct x
      end ].

Ltac appends_auto := repeat appends_step.

Lemma run_ssh_command_appends w host user password (command : text)
      (use_sudo : bool) :
  let remote := if use_sudo then sudo command else command in
  remote = probe \/ (exists c, remote = sudo c) ->
  appends (ssh_to host user)
          (run_ssh_command w host user password command use_sudo).
Proof.
  intros remote Hremote. unfold run_ssh_command, run_ssh_without_sshpass.
  fold (sudo command). fold remote.
  apply appends_bind.
  - apply appends_subprocess_run. exists remote. split; [exact Hremote|].
    left. exists password. reflexivity.
  - intros o. destruct o; appends_auto.
    apply appends_subprocess_run. exists remote. split; [exact Hremote|].
    now right.
Qed.

Lemma main_appends strip upper w a :
  appends (ssh_to (host_of a) (user_of a)) (main strip upper w a).
Proof.
  unfold main, test_ssh_connection, list_available_apis,
    send_custom_webhook_test, trigger_notification_test,
    trigger_system_health_check, trigger_backup_event.
  fold (host_of a) (user_of a).
  repeat first
    [ apply run_ssh_command_appends; simpl;
      first [now left | right; eexists; reflexivity]
    | appends_step ].
Qed.

End SshFacts.

Module SshRuns.
Import Py Eff Eff.Notations SshTool SshProps SshExamples SshFacts.
Local Open Scope py_scope.

Lemma run_ssh_command_answered w host user password (command : text)
      (use_sudo : bool) t :
  let remote := if use_sudo then sudo command else command in
  let argv := sshpass_argv host user password remote in
  answered (w_run w t argv) ->
  run_ssh_command w host user password command use_sudo t
  = (Ok (returned (w_run w t argv)), t ++ [EvRun argv]).
Proof.
  intros remote argv Ha. subst argv remote.
  unfold sshpass_argv, sudo in *.
  unfold run_ssh_command, bind, subprocess_run.
  destruct (w_run w t _); try contradiction; reflexivity.
Qed.

Lemma test_ssh_connection_run w host user password t :
  let h := t ++ [EvPrint [Lit "Testing SSH connection to "; Str host;
                          Lit "..."]] in
  let argv := sshpass_argv host user password probe in
  answered (w_run w h argv) ->
  exists line,
    test_ssh_connection w host user password t
    = (Ok (connected (w_run w h argv)), h ++ [EvRun argv; EvPrint line]) /\
    (connected (w_run w h argv) = false ->
     line = [Lit "  ✗ SSH connection failed: ";
             Str (snd (returned (w_run w h argv)))]).
Proof.
  intros h argv Ha. unfold test_ssh_connection.
  unfold bind at 1. unfold print at 1, emit at 1. fold h.
  unfold bind at 1. fold probe.
  rewrite (run_ssh_command_answered w host user password probe false h)
    by exact Ha.
  fold argv. unfold connected, returned.
  destruct (w_run w h argv) as [rc out err| | |]; cbv beta iota.
  - destruct ((rc =? 0)%Z && str_contains "successful" out);
      unfold bind, print, emit, ret; rewrite <- app_assoc;
      eexists; split; try reflexivity; intros; discriminate.
  - cbn [Z.eqb andb]. unfold bind, print, emit, ret. rewrite <- app_assoc.
    eexists; split; reflexivity.
  - cbn [Z.eqb andb]. unfold bind, print, emit, ret. rewrite <- app_assoc.
    eexists; split; reflexivity.
  - cbn [Z.eqb andb]. unfold bind, print, emit, ret. rewrite <- app_assoc.
    eexists; split; reflexivity.
Qed.

Section Answered.
Variable strip : string -> string.
Variable upper : string -> string.
Variable w : world.
Hypothesis Hans : forall h argv, answered (w_run w h argv).

Lemma trigger_notification_test_run host user password name c t :
  let h := t ++ [EvPrint [Lit nl; Lit "["; Str (upper name); Lit "] ";
                          Str (tc_description c)];
                 EvPrint [Lit "  API: "; Str (tc_api c)];
                 EvPrint [Lit "  Method: "; Str (tc_method c)]] in
  let argv := sshpass_argv host user password (test_command c) in
  exists line,
    trigger_notification_test strip upper w host user password name c t
    = (Ok (exit_zero (w_run w h argv)), h ++ [EvRun argv; EvPrint line]).
Proof.
  intros h argv. unfold trigger_notification_test. cbv zeta.
  do 3 (unfold bind at 1; unfold print at 1, emit at 1).
  rewrite <- !app_assoc. cbn [app]. fold h.
  unfold bind at 1.
  rewrite run_ssh_command_answered by apply Hans.
  change (sshpass_argv host user password _) with argv.
  unfold exit_zero, returned.
  destruct (w_run w h argv) as [rc out err| | |]; cbv beta iota;
    try destruct (rc =? 0)%Z; cbn [Z.eqb];
    unfold bind, print, emit, ret; rewrite <- app_assoc;
    eexists; reflexivity.
Qed.

Lemma trigger_system_health_check_run host user password t :
  let h := t ++ [EvPrint [Lit nl;
                          Lit "[HEALTH] Triggering system health check..."]] in
  let argv := sshpass_argv host user password health_command in
  exists line,
    trigger_system_health_check strip w host user password t
    = (Ok tt, h ++ [EvRun argv; EvPrint line]).
Proof.
  intros h argv. unfold trigger_system_health_check. cbv zeta.
  unfold bind at 1; unfold print at 1, emit at 1. fold h.
  unfold bind at 1.
  rewrite run_ssh_command_answered by apply Hans.
  change (sshpass_argv host user password _) with argv.
  unfold returned.
  destruct (w_run w h argv) as [rc out err| | |]; cbv beta iota;
    try destruct (rc =? 0)%Z; cbn [Z.eqb];
    unfold print, emit; rewrite <- app_assoc; eexists; reflexivity.
Qed.

Lemma trigger_backup_event_run host user password t :
  let h := t ++ [EvPrint [Lit nl; Lit "[BACKUP] Checking backup tasks..."]] in
  let argv := sshpass_argv host user password backup_command in
  exists line,
    trigger_backup_event strip w host user password t
    = (Ok tt, h ++ [EvRun argv; EvPrint line]).
Proof.
  intros h argv. unfold trigger_backup_event. cbv zeta.
  unfold bind at 1; unfold print at 1, emit at 1. fold h.
  unfold bind at 1.
  rewrite run_ssh_command_answered by apply Hans.
  change (sshpass_argv host user password _) with argv.
  unfold returned.
  destruct (w_run w h argv) as [rc out err| | |]; cbv beta iota;
    try destruct (rc =? 0)%Z; cbn [Z.eqb];
    unfold print, emit; rewrite <- app_assoc; eexists; reflexivity.
Qed.

Lemma list_available_apis_run host user password t :
  let argv := sshpass_argv host user password discover_command in
  exists t',
    list_available_apis w host user password t = (Ok tt, t ++ t') /\
    runs t' = [argv] /\ pauses t' = [].
Proof.
  intros argv. unfold list_available_apis. cbv zeta.
  do 3 (unfold bind at 1; unfold print at 1, emit at 1).
  unfold bind at 1.
  rewrite run_ssh_command_answered by apply Hans.
  change (sshpass_argv host user password _) with argv.
  unfold returned.
  match goal with
  | |- context [w_run w ?h argv] =>
      destruct (w_run w h argv) as [rc out err| | |]
  end; cbv beta iota;
    try destruct (negb (out =? "")); cbn [String.eqb negb];
    unfold bind, print, emit; rewrite <- !app_assoc; cbn [app];
    eexists; (split; [reflexivity|]); split; reflexivity.
Qed.

Lemma send_custom_webhook_test_exact host user password message t :
  let pre := EvPrint [Lit nl; Lit "[CUSTOM] Sending custom message: ";
                      Str message] in
  let first := sshpass_argv host user password (custom_command message) in
  let second :=
    sshpass_argv host user password (alternative_command message) in
  exists r after,
    send_custom_webhook_test strip w host user password message t
    = (Ok r, (t ++ [pre]) ++ EvRun first :: after) /\
    runs after = (if exit_zero (w_run w (t ++ [pre]) first) then []
                  else [second]) /\
    pauses after = [].
Proof.
  intros pre first second. unfold send_custom_webhook_test. cbv zeta.
  unfold bind at 1; unfold print at 1, emit at 1. fold pre.
  set (h := t ++ [pre]).
  unfold bind at 1.
  rewrite run_ssh_command_answered by apply Hans.
  change (sshpass_argv host user password _) with first.
  assert (Hfail :
    exists r after,
      (print [Lit "  ✗ synodsmnotify failed, trying alternative..."] ;;
       r <- run_ssh_command w host user password
              [Lit "synonotify PKGHasUpgrade "; Lit dq; Lit "{"; Lit dq;
               Lit "title"; Lit dq; Lit ": "; Lit dq; Lit "Test"; Lit dq;
               Lit ", "; Lit dq; Lit "message"; Lit dq; Lit ": "; Lit dq;
               Str message; Lit dq; Lit "}"; Lit dq] true ;;
       let '(code, _, stderr) := r in
       if (code =? 0)%Z then
         print [Lit "  ✓ Alternative notification sent"] ;; ret true
       else
         print [Lit "  ✗ Failed: ";
                Str (if strip stderr =? "" then "Unknown error"
                     else strip stderr)] ;; ret false)
        (h ++ [EvRun first])
      = (Ok r, h ++ EvRun first :: after) /\
      runs after = [second] /\ pauses after = []).
  { unfold bind at 1; unfold print at 1, emit at 1.
    unfold bind at 1.
    rewrite run_ssh_command_answered by apply Hans.
    change (sshpass_argv host user password _) with second.
    unfold returned.
    match goal with
    | |- context [w_run w ?h' second] =>
        destruct (w_run w h' second) as [rc out err| | |]
    end; cbv beta iota; try destruct (rc =? 0)%Z; cbn [Z.eqb];
      unfold bind, print, emit, ret;
      rewrite <- !app_assoc; cbn [app];
      eexists _, _; (split; [reflexivity|]); split; reflexivity. }
  unfold exit_zero, returned.
  destruct (w_run w h first) as [rc out err| | |]; cbv beta iota;
    try exact Hfail.
  destruct (rc =? 0)%Z; [|exact Hfail].
  unfold bind, print, emit, ret.
  rewrite <- !app_assoc. cbn [app].
  eexists _, _; (split; [reflexivity|]); split; reflexivity.
Qed.

Lemma no_runs_counts t : forall h,
  runs t = [] ->
  passed_runs w h t = 0%nat /\ failed_runs w h t = 0%nat.
Proof.
  induction t as [|e t IH]; intros h Hp; simpl; [auto|].
  destruct e; simpl in Hp; try discriminate;
    match goal with
    | |- context [passed_runs w ?h' t] =>
        destruct (IH h' Hp) as [-> ->]; auto
    end.
Qed.

Lemma tests_loop host user password delay tests :
  (forall h, w_sleep w h delay = None) ->
  forall res t,
  exists res' t',
    for_each tests res (fun res item =>
      let (test_name, test_config) := (item : string * test_config) in
      ok <- trigger_notification_test strip upper w host user password
                                      test_name test_config ;;
      let res :=
        if (ok : bool) then Results (S (success res)) (failed res)
        else Results (success res) (S (failed res)) in
      (if PrimFloat.ltb 0 delay then time_sleep w delay else ret tt) ;;
      ret res) t
    = (Ok res', t ++ t') /\
    runs t' = map (fun kc => sshpass_argv host user password
                                          (test_command (snd kc))) tests /\
    pauses t' = (if PrimFloat.ltb 0 delay
                 then map (fun _ => delay) tests else []) /\
    success res' = (success res + passed_runs w t t')%nat /\
    failed res' = (failed res + failed_runs w t t')%nat.
Proof.
  intros Hsleep.
  induction tests as [|[name c] tests IH]; intros res t.
  - exists res, []. simpl. unfold ret. rewrite app_nil_r.
    destruct (PrimFloat.ltb 0 delay); repeat split; auto.
  - cbn [for_each]. unfold bind at 1. unfold bind at 1.
    destruct (trigger_notification_test_run host user password name c t)
      as (line & Hrun).
    cbv zeta in Hrun. rewrite Hrun. clear Hrun.
    set (pre := [EvPrint [Lit nl; Lit "["; Str (upper name); Lit "] ";
                          Str (tc_description c)];
                 EvPrint [Lit "  API: "; Str (tc_api c)];
                 EvPrint [Lit "  Method: "; Str (tc_method c)]]).
    set (argv := sshpass_argv host user password (test_command c)).
    set (ok := exit_zero (w_run w (t ++ pre) argv)).
    set (post := EvPrint line
                 :: (if PrimFloat.ltb 0 delay then [EvSleep delay] else [])).
    set (res1 := if ok then Results (S (success res)) (failed res)
                 else Results (success res) (S (failed res))).
    assert (Hstep :
      ((if PrimFloat.ltb 0 delay then time_sleep w delay else ret tt) ;;
       ret res1) ((t ++ pre) ++ [EvRun argv; EvPrint line])
      = (Ok res1, t ++ pre ++ EvRun argv :: post)).
    { unfold post. destruct (PrimFloat.ltb 0 delay).
      - unfold bind, time_sleep, ret. rewrite Hsleep.
        rewrite <- !app_assoc. reflexivity.
      - unfold bind, ret. rewrite <- !app_assoc. reflexivity. }
    cbv zeta. fold res1. rewrite Hstep.
    destruct (IH res1 (t ++ pre ++ EvRun argv :: post))
      as (res' & t2 & Hloop & Hr & Hp & Hs & Hf).
    cbv zeta in Hloop. rewrite Hloop.
    exists res', (pre ++ EvRun argv :: post ++ t2).
    split; [f_equal; rewrite <- !app_assoc; reflexivity|].
    assert (Hpre : runs pre = []) by reflexivity.
    assert (Hpost : runs post = []).
    { unfold post. now destruct (PrimFloat.ltb 0 delay). }
    destruct (no_runs_counts pre t Hpre) as [Hp1 Hf1].
    destruct (no_runs_counts post ((t ++ pre) ++ [EvRun argv]) Hpost)
      as [Hp2 Hf2].
    split; [|split; [|split]].
    + rewrite runs_app. cbn [runs]. rewrite runs_app, Hpre, Hpost, Hr.
      reflexivity.
    + rewrite pauses_app. cbn [pauses]. rewrite pauses_app, Hp.
      unfold post, pre.
      destruct (PrimFloat.ltb 0 delay); reflexivity.
    + rewrite passed_runs_app, Hp1. cbn [passed_runs].
      rewrite passed_runs_app, Hp2, Hs.
      rewrite <- !app_assoc. cbn [app]. fold ok. unfold res1.
      destruct ok; simpl; lia.
    + rewrite failed_runs_app, Hf1. cbn [failed_runs].
      rewrite failed_runs_app, Hf2, Hf.
      rewrite <- !app_assoc. cbn [app]. fold ok. unfold res1.
      destruct ok; simpl; lia.
Qed.

Lemma counts_total t : forall h,
  (passed_runs w h t + failed_runs w h t = List.length (runs t))%nat.
Proof.
  induction t as [|e t IH]; intros h; simpl; [reflexivity|].
  specialize (IH (h ++ [e])).
  destruct e; simpl; try lia. destruct (exit_zero _); lia.
Qed.
End Answered.
(** The first steps of [main] when a target is given: the password and
    the banner. *)
Ltac start_main w a Hlist Hhost Huser :=
  unfold run, main; rewrite Hlist, Hhost, Huser; cbn [negb orb];
  fold (host_of a) (user_of a);
  unfold bind at 1;
  match goal with
  | |- context [(if opt_truthy (args_password a) then ?c1 else ?c2) []] =>
      replace ((if opt_truthy (args_password a) then c1 else c2) [])
        with (Ok (password_of w a),
              if opt_truthy (args_password a) then []
              else [EvGetpass [Lit "Enter SSH password for ";
                               Str (user_of a); Lit "@"; Str (host_of a);
                               Lit ": "]])
        by (unfold password_of; now destruct (opt_truthy (args_password a)))
  end;
  do 6 (unfold bind at 1; unfold print at 1, emit at 1);
  rewrite <- !app_assoc; cbn [app]; fold (startup a);
  unfold bind at 1.

(** X21. When the connection check does not pass (the command does
    not end with return code 0, its output lacks [successful], or it times
    out), the SSH tool prints the failure and its hints, runs no other
    command and exits with status 1. *)
Theorem a_failed_connection_check_ends_the_run
        (strip upper : string -> string) (w : world) (a : args) :
  args_list a = false ->
  opt_truthy (args_host a) = true ->
  opt_truthy (args_user a) = true ->
  answered (probe_outcome w a) ->
  connected (probe_outcome w a) = false ->
  run strip upper w a
  = (1%Z,
     probe_history a
     ++ [EvRun (probe_argv w a);
         EvPrint [Lit "  ✗ SSH connection failed: ";
                  Str (snd (returned (probe_outcome w a)))];
         EvPrint [Lit nl; Lit "Failed to connect. Please check:"];
         EvPrint [Lit "  - SSH is enabled on your NAS (Control Panel → Terminal & SNMP)"];
         EvPrint [Lit "  - Username and password are correct"];
         EvPrint [Lit "  - The user has admin privileges"]]).
Proof.
  intros Hlist Hhost Huser Ha Hc. start_main w a Hlist Hhost Huser.
  destruct (test_ssh_connection_run w (host_of a) (user_of a)
              (password_of w a) (startup a) Ha) as (line & Hrun & Hline).
  fold (probe_history a) (probe_argv w a) (probe_outcome w a) in Hrun, Hline.
  rewrite Hrun, Hc. rewrite (Hline Hc). cbn [negb].
  unfold bind, print, emit, ret. rewrite <- !app_assoc. reflexivity.
Qed.

Lemma selected_tests a tests :
  selected a = Ok tests ->
  (if args_test a =? "all" then ret NOTIFICATION_TESTS
   else
     config <- lift (lookup_test NOTIFICATION_TESTS (args_test a)) ;;
     ret [(args_test a, config)])
  = ret (S := list event) tests.
Proof.
  unfold selected. destruct (args_test a =? "all").
  - intros E. now inversion E.
  - unfold bind, lift, ret.
    destruct (lookup_test NOTIFICATION_TESTS (args_test a)); simpl;
      intros E; inversion E. reflexivity.
Qed.

(** X22. After a connection check that passed, and without
    [--custom], the SSH tool runs the selected notification tests in the
    order of [NOTIFICATION_TESTS], then the health check and the backup
    check.  [Successful] and [Failed] count the test commands that ended
    with return code 0 and the others (a timeout included); they add up to
    the number of tests; the exit status is 0 exactly when no test
    failed, whatever the health and backup checks give.  With a positive
    delay the run pauses after every test, the last one included. *)
Theorem the_exit_status_counts_the_failed_tests
        (strip upper : string -> string) (w : world) (a : args)
        (tests : list (string * test_config)) :
  let host := host_of a in
  let user := user_of a in
  let password := password_of w a in
  args_list a = false ->
  opt_truthy (args_host a) = true ->
  opt_truthy (args_user a) = true ->
  opt_truthy (args_custom a) = false ->
  selected a = Ok tests ->
  (forall h argv, answered (w_run w h argv)) ->
  (forall h, w_sleep w h (args_delay a) = None) ->
  connected (probe_outcome w a) = true ->
  exists before during after,
    let passed := passed_runs w before during in
    let lost := failed_runs w before during in
    snd (run strip upper w a) = before ++ during ++ after /\
    runs before
    = probe_argv w a
      :: (if args_discover a
          then [sshpass_argv host user password discover_command]
          else []) /\
    runs during
    = map (fun kc => sshpass_argv host user password (test_command (snd kc)))
          tests /\
    runs after
    = [sshpass_argv host user password health_command;
       sshpass_argv host user password backup_command] /\
    pauses before = [] /\
    pauses during = (if PrimFloat.ltb 0 (args_delay a)
                     then map (fun _ => args_delay a) tests else []) /\
    pauses after = [] /\
    (passed + lost = List.length tests)%nat /\
    In (EvPrint [Lit "  Successful: "; Num (Z.of_nat passed)]) after /\
    In (EvPrint [Lit "  Failed:     "; Num (Z.of_nat lost)]) after /\
    fst (run strip upper w a) = (if (lost =? 0)%nat then 0 else 1)%Z.
Proof.
  intros host user password Hlist Hhost Huser Hcustom Hsel Hans Hsleep Hc.
  assert (Hgoal :
    exists before during after,
      run strip upper w a
      = ((if (failed_runs w before during =? 0)%nat then 0 else 1)%Z,
         before ++ during ++ after) /\
      runs before
      = probe_argv w a
        :: (if args_discover a
            then [sshpass_argv host user password discover_command]
            else []) /\
      runs during
      = map (fun kc => sshpass_argv host user password
                                    (test_command (snd kc))) tests /\
      runs after
      = [sshpass_argv host user password health_command;
         sshpass_argv host user password backup_command] /\
      pauses before = [] /\
      pauses during = (if PrimFloat.ltb 0 (args_delay a)
                       then map (fun _ => args_delay a) tests else []) /\
      pauses after = [] /\
      In (EvPrint [Lit "  Successful: ";
                   Num (Z.of_nat (passed_runs w before during))]) after /\
      In (EvPrint [Lit "  Failed:     ";
                   Num (Z.of_nat (failed_runs w before during))]) after).
  { start_main w a Hlist Hhost Huser.
    destruct (test_ssh_connection_run w (host_of a) (user_of a)
                (password_of w a) (startup a) (Hans _ _))
      as (line & Hrun & _).
    fold (probe_history a) (probe_argv w a) (probe_outcome w a) in Hrun.
    rewrite Hrun, Hc. cbn [negb]. clear Hrun.
    fold host user password.
    set (t0 := probe_history a ++ [EvRun (probe_argv w a); EvPrint line]).
    assert (Hdisc : exists t1,
               (if args_discover a
                then list_available_apis w host user password
                else ret tt) t0 = (Ok tt, t0 ++ t1) /\
               runs t1 = (if args_discover a
                          then [sshpass_argv host user password
                                             discover_command]
                          else []) /\
               pauses t1 = []).
    { destruct (args_discover a).
      - apply list_available_apis_run. exact Hans.
      - exists []. unfold ret. rewrite app_nil_r. auto. }
    destruct Hdisc as (t1 & Hd & Hr1 & Hp1).
    unfold bind at 1. rewrite Hd. clear Hd. rewrite Hcustom.
    rewrite (selected_tests a tests Hsel).
    unfold bind at 1. unfold ret at 1. unfold bind at 1.
    destruct (tests_loop strip upper w Hans host user password (args_delay a)
                tests Hsleep (Results 0 0) (t0 ++ t1))
      as (res' & t2 & Hloop & Hr2 & Hp2 & Hs & Hf).
    cbv zeta in Hloop. rewrite Hloop. clear Hloop.
    cbn [success failed Nat.add] in Hs, Hf.
    unfold bind at 1.
    destruct (trigger_system_health_check_run strip w Hans host user password
                ((t0 ++ t1) ++ t2)) as (l3 & H3).
    cbv zeta in H3. rewrite H3. clear H3.
    unfold bind at 1.
    match goal with
    | |- context [trigger_backup_event strip w host user password ?h] =>
        destruct (trigger_backup_event_run strip w Hans host user password h)
          as (l4 & H4)
    end.
    cbv zeta in H4. rewrite H4. clear H4.
    unfold bind, print, emit, ret. cbn [exit_code].
    rewrite Hs, Hf.
    exists (t0 ++ t1), t2.
    eexists. split.
    { f_equal. rewrite <- !app_assoc. reflexivity. }
    assert (Hstart : runs (startup a) = [] /\ pauses (startup a) = []).
    { unfold startup. now destruct (opt_truthy (args_password a)). }
    destruct Hstart as [Hrs Hps].
    unfold t0, probe_history.
    rewrite !runs_app, !pauses_app, Hrs, Hps, Hr1, Hp1.
    cbn [runs pauses app].
    repeat split; auto; simpl; auto 20. }
  destruct Hgoal as (before & during & after & Hrun & H1 & H2 & H3 & H4 & H5
                     & H6 & H7 & H8).
  exists before, during, after. cbv zeta. rewrite Hrun. cbn [fst snd].
  repeat split; auto.
  rewrite counts_total, H2. apply length_map.
Qed.

(** X23. With [--custom], after a connection check that passed, the
    SSH tool sends the message with [synodsmnotify], tries [synonotify]
    exactly when that first command did not end with return code 0, runs
    no notification test, never pauses, and exits with status 0 whether
    the message could be sent or not. *)
Theorem a_custom_message_always_exits_with_zero
        (strip upper : string -> string) (w : world) (a : args) :
  let host := host_of a in
  let user := user_of a in
  let password := password_of w a in
  let first :=
    sshpass_argv host user password (custom_command (value (args_custom a)))
  in
  let second :=
    sshpass_argv host user password
                 (alternative_command (value (args_custom a))) in
  args_list a = false ->
  opt_truthy (args_host a) = true ->
  opt_truthy (args_user a) = true ->
  opt_truthy (args_custom a) = true ->
  (forall h argv, answered (w_run w h argv)) ->
  connected (probe_outcome w a) = true ->
  fst (run strip upper w a) = 0%Z /\
  pauses (snd (run strip upper w a)) = [] /\
  exists before after,
    snd (run strip upper w a) = before ++ EvRun first :: after /\
    runs before
    = probe_argv w a
      :: (if args_discover a
          then [sshpass_argv host user password discover_command]
          else []) /\
    runs after = (if exit_zero (w_run w before first) then [] else [second]).
Proof.
  intros host user password first second Hlist Hhost Huser Hcustom Hans Hc.
  assert (Hgoal :
    exists before after,
      run strip upper w a = (0%Z, before ++ EvRun first :: after) /\
      runs before
      = probe_argv w a
        :: (if args_discover a
            then [sshpass_argv host user password discover_command]
            else []) /\
      pauses before = [] /\ pauses after = [] /\
      runs after = (if exit_zero (w_run w before first) then []
                    else [second])).
  { start_main w a Hlist Hhost Huser.
    destruct (test_ssh_connection_run w (host_of a) (user_of a)
                (password_of w a) (startup a) (Hans _ _))
      as (line & Hrun & _).
    fold (probe_history a) (probe_argv w a) (probe_outcome w a) in Hrun.
    rewrite Hrun, Hc. cbn [negb]. clear Hrun.
    fold host user password.
    set (t0 := probe_history a ++ [EvRun (probe_argv w a); EvPrint line]).
    assert (Hdisc : exists t1,
               (if args_discover a
                then list_available_apis w host user password
                else ret tt) t0 = (Ok tt, t0 ++ t1) /\
               runs t1 = (if args_discover a
                          then [sshpass_argv host user password
                                             discover_command]
                          else []) /\
               pauses t1 = []).
    { destruct (args_discover a).
      - apply list_available_apis_run. exact Hans.
      - exists []. unfold ret. rewrite app_nil_r. auto. }
    destruct Hdisc as (t1 & Hd & Hr1 & Hp1).
    unfold bind at 1. rewrite Hd. clear Hd. rewrite Hcustom.
    unfold bind at 1.
    destruct (send_custom_webhook_test_exact strip w Hans host user password
                (value (args_custom a)) (t0 ++ t1))
      as (r & after & Hsend & Hra & Hpa).
    cbv zeta in Hsend, Hra. fold first second in Hsend, Hra.
    rewrite Hsend. unfold ret. cbn [exit_code].
    eexists _, after. split; [reflexivity|].
    assert (Hstart : runs (startup a) = [] /\ pauses (startup a) = []).
    { unfold startup. now destruct (opt_truthy (args_password a)). }
    destruct Hstart as [Hrs Hps].
    unfold t0, probe_history.
    rewrite !runs_app, !pauses_app, Hrs, Hps, Hr1, Hp1.
    cbn [runs pauses app]. rewrite ?app_nil_r. repeat split; auto. }
  destruct Hgoal as (before & after & Hrun & H1 & H2 & H3 & H4).
  rewrite Hrun. cbn [fst snd]. split; [reflexivity|]. split.
  - rewrite pauses_app. cbn [pauses]. now rewrite H2, H3.
  - exists before, after. auto.
Qed.

Lemma the_exit_status_counts_the_failed_tests_witness :
  exists before during after,
    let passed := passed_runs broken_nas before during in
    let lost := failed_runs broken_nas before during in
    snd (run ascii_strip ascii_upper broken_nas all_tests)
    = before ++ during ++ after /\
    runs before
    = probe_argv broken_nas all_tests
      :: (if args_discover all_tests
          then [sshpass_argv "nas" "admin" "secret" discover_command]
          else []) /\
    runs during
    = map (fun kc => sshpass_argv "nas" "admin" "secret"
                                  (test_command (snd kc)))
          NOTIFICATION_TESTS /\
    runs after
    = [sshpass_argv "nas" "admin" "secret" health_command;
       sshpass_argv "nas" "admin" "secret" backup_command] /\
    pauses before = [] /\
    pauses during = (if PrimFloat.ltb 0 (args_delay all_tests)
                     then map (fun _ => args_delay all_tests)
                              NOTIFICATION_TESTS
                     else []) /\
    pauses after = [] /\
    (passed + lost = List.length NOTIFICATION_TESTS)%nat /\
    In (EvPrint [Lit "  Successful: "; Num (Z.of_nat passed)]) after /\
    In (EvPrint [Lit "  Failed:     "; Num (Z.of_nat lost)]) after /\
    fst (run ascii_strip ascii_upper broken_nas all_tests)
    = (if (lost =? 0)%nat then 0 else 1)%Z.
Proof.
  apply (the_exit_status_counts_the_failed_tests ascii_strip ascii_upper
           broken_nas all_tests NOTIFICATION_TESTS); try reflexivity.
  intros h argv. simpl. now destruct (is_probe argv).
Defined.

Lemma a_custom_message_always_exits_with_zero_witness :
  fst (run ascii_strip ascii_upper broken_nas custom_message) = 0%Z /\
  pauses (snd (run ascii_strip ascii_upper broken_nas custom_message)) = [] /\
  exists before after,
    snd (run ascii_strip ascii_upper broken_nas custom_message)
    = before
      ++ EvRun (sshpass_argv "nas" "admin" "secret" (custom_command "hello"))
      :: after /\
    runs before
    = probe_argv broken_nas custom_message
      :: (if args_discover custom_message
          then [sshpass_argv "nas" "admin" "secret" discover_command]
          else []) /\
    runs after
    = (if exit_zero
            (w_run broken_nas before
                   (sshpass_argv "nas" "admin" "secret"
                                 (custom_command "hello")))
       then []
       else [sshpass_argv "nas" "admin" "secret"
                          (alternative_command "hello")]).
Proof.
  apply (a_custom_message_always_exits_with_zero ascii_strip ascii_upper
           broken_nas custom_message); try reflexivity.
  intros h argv. simpl. now destruct (is_probe argv).
Defined.

Lemma a_failed_connection_check_ends_the_run_witness :
  run ascii_strip ascii_upper silent_host all_tests
  = (1%Z,
     probe_history all_tests
     ++ [EvRun (probe_argv silent_host all_tests);
         EvPrint [Lit "  ✗ SSH connection failed: ";
                  Str "Command timed out"];
         EvPrint [Lit nl; Lit "Failed to connect. Please check:"];
         EvPrint [Lit "  - SSH is enabled on your NAS (Control Panel → Terminal & SNMP)"];
         EvPrint [Lit "  - Username and password are correct"];
         EvPrint [Lit "  - The user has admin privileges"]]).
Proof.
  apply (a_failed_connection_check_ends_the_run ascii_strip ascii_upper
           silent_host all_tests); first [reflexivity | exact I].
Defined.

(** X24. When [sshpass] is not installed, [run_ssh_command] prints a
    note and runs the same remote command (with its [sudo] prefix) through
    plain [ssh] with the same options and target: the second command line
    is the first without its three [sshpass] arguments.  What the second
    call gives is returned, a timeout as [(-1, "", "Command timed
    out")]. *)
Theorem a_missing_sshpass_falls_back_to_plain_ssh
        (w : world) (host user password : string) (command : text)
        (use_sudo : bool) (t : list event) :
  let remote := if use_sudo then sudo command else command in
  let first := sshpass_argv host user password remote in
  let note :=
    EvPrint [Lit "  [Note: sshpass not found, using basic SSH - you may need to enter password manually]"] in
  let second := ssh_argv host user remote in
  w_run w t first = FileNotFoundError ->
  answered (w_run w (t ++ [EvRun first; note]) second) ->
  run_ssh_command w host user password command use_sudo t
  = (Ok (returned (w_run w (t ++ [EvRun first; note]) second)),
     t ++ [EvRun first; note; EvRun second]) /\
  second = skipn 3 first.
Proof.
  intros remote first note second Hmissing Ha. split; [|reflexivity].
  subst first second remote note.
  unfold run_ssh_command. unfold bind at 1. unfold subprocess_run at 1.
  cbv beta iota zeta.
  match goal with
  | |- match ?o with _ => _ end _ = _ =>
      destruct o eqn:E1;
        try (pose proof (eq_trans (eq_sym E1) Hmissing) as X; discriminate X)
  end.
  clear E1.
  unfold run_ssh_without_sshpass. unfold bind at 1.
  unfold print at 1, emit at 1. unfold bind at 1. unfold subprocess_run at 1.
  cbv beta iota zeta.
  match goal with
  | |- match ?o with _ => _ end _ = _ =>
      assert (Ha' : answered o) by (rewrite <- app_assoc; exact Ha);
      assert (Hr : returned o
                   = returned
                       (w_run w
                          (t ++ [EvRun (sshpass_argv host user password
                                          (if use_sudo then sudo command
                                           else command));
                                 EvPrint [Lit "  [Note: sshpass not found, using basic SSH - you may need to enter password manually]"]])
                          (ssh_argv host user
                                    (if use_sudo then sudo command
                                     else command))))
        by (rewrite <- app_assoc; reflexivity);
      rewrite <- Hr; destruct o; try contradiction
  end; unfold ret; rewrite <- !app_assoc; reflexivity.
Qed.

Lemma a_missing_sshpass_falls_back_to_plain_ssh_witness :
  run_ssh_command no_sshpass "nas" "admin" "secret" probe false []
  = (Ok (0%Z, "Connection successful", ""),
     [EvRun (sshpass_argv "nas" "admin" "secret" probe);
      EvPrint [Lit "  [Note: sshpass not found, using basic SSH - you may need to enter password manually]"];
      EvRun (ssh_argv "nas" "admin" probe)]) /\
  ssh_argv "nas" "admin" probe
  = skipn 3 (sshpass_argv "nas" "admin" "secret" probe).
Proof.
  apply (a_missing_sshpass_falls_back_to_plain_ssh no_sshpass "nas" "admin"
           "secret" probe false []).
  - reflexivity.
  - exact I.
Defined.

(** X25. Every command line the SSH tool runs, in any mode and
    whatever the NAS answers, is [ssh] to [user@host], directly or through
    [sshpass], and its remote command is the connection check or a command
    under [sudo]. *)
Theorem every_command_goes_to_the_target_over_ssh
        (strip upper : string -> string) (w : world) (a : args) :
  Forall (ssh_to (host_of a) (user_of a)) (snd (run strip upper w a)).
Proof.
  unfold run. destruct (main_appends strip upper w a []) as (t & Et & Ft).
  destruct (main strip upper w a []) as [r tr]. simpl in *. now subst tr.
Qed.

(** X26. With [--list], or without [--host] or [--user], the SSH tool
    runs no command, does not prompt for a password and does not pause;
    it exits with status 0 after [--list] and with status 2 after the
    usage error. *)
Theorem without_a_target_nothing_is_run
        (strip upper : string -> string) (w : world) (a : args) :
  args_list a = true \/ opt_truthy (args_host a) = false
  \/ opt_truthy (args_user a) = false ->
  Forall offline (snd (run strip upper w a)) /\
  fst (run strip upper w a) = (if args_list a then 0 else 2)%Z.
Proof.
  intros H. unfold run, main.
  destruct (args_list a).
  - split; [|reflexivity]. vm_compute. repeat constructor.
  - assert (E : negb (opt_truthy (args_host a))
                || negb (opt_truthy (args_user a)) = true).
    { destruct H as [H|[H|H]]; [discriminate| |]; rewrite H;
        [reflexivity | apply orb_true_r]. }
    rewrite E. split; [|reflexivity]. repeat constructor.
Qed.

Lemma without_a_target_nothing_is_run_witness :
  Forall offline (snd (run ascii_strip ascii_upper obedient_nas list_only)) /\
  fst (run ascii_strip ascii_upper obedient_nas list_only)
  = (if args_list list_only then 0 else 2)%Z.
Proof.
  apply (without_a_target_nothing_is_run ascii_strip ascii_upper obedient_nas
           list_only).
  left. reflexivity.
Defined.

End SshRuns.
